(** * Collaborative-filtering core of the Yelp clone: Pearson similarity,
      user and item similarity search, candidate ranking.

    Shallow embedding of [logs/find_ideal_user.py] and [logs/analyze_cf.py],
    and of the converters and the subsampling of [lib/data_preprocessing.py]
    that produce the ratings file they read.

    Numbers.  The Python code computes on IEEE binary64 numbers (numpy
    [float64] scalars read from a pandas frame; on them the built-in [sum]
    adds from left to right and no operation raises).  The functions are
    written once, over an interface [Number] of the operations the code uses,
    and settled at [float], the kernel's binary64 numbers, which evaluate.
    A second instance, at [R], is exact real arithmetic, whose product
    commutes too (the symmetry of the functions holds at both).

    Exceptions.  A function that can raise returns a [result]; [KeyError] on
    a missing key and [ZeroDivisionError] on [0 / len([])] are written out.

    Libraries.  [np.std] and [scipy.stats.pearsonr] are parameters of
    [calculate_pearson_correlation] and of the two searches that call it.

    Containers.  A [dict] that is iterated is a list of pairs in the order of
    first insertion; a [dict] that is only subscripted is a [gmap]; a [set] is
    a [gset], iterated in the order of [elements] (Python fixes no order, and
    both comprehensions of a round iterate the same set). *)

From Stdlib Require Import ZArith List Bool Reals Lra Lia.
From Stdlib Require Import Floats.PrimFloat Floats.SpecFloat Floats.FloatAxioms Floats.FloatOps.
From Stdlib Require Import Uint63.
From stdpp Require Import gmap strings list fin_maps sorting.

(** ** Exceptions *)

Inductive exn : Set :=
| ZeroDivisionError
| KeyError
| ValueError.

Inductive result (A : Type) : Type :=
| Ok (a : A)
| Raise (e : exn).
Arguments Ok {A} a.
Arguments Raise {A} e.

Definition bind {A B} (m : result A) (k : A -> result B) : result B :=
  match m with
  | Ok a => k a
  | Raise e => Raise e
  end.

Notation "'let!' x ':=' m 'in' k" := (bind m (fun x => k))
  (at level 10, x name, m at level 100, k at level 200).

Definition raises {A} (m : result A) : Prop :=
  match m with Ok _ => False | Raise _ => True end.

(** [try: m except: d] of Python, with a bare [except]. *)
Definition try_except {A} (m : result A) (d : A) : A :=
  match m with
  | Ok a => a
  | Raise _ => d
  end.

(** ** Numbers *)

(** The operations of Python numbers that the two scripts use. *)
Class Number (F : Type) := {
  num_zero : F;
  num_add : F -> F -> F;
  num_sub : F -> F -> F;
  num_mul : F -> F -> F;
  num_div : F -> F -> F;
  num_sqrt : F -> F;              (* np.sqrt *)
  num_of_len : nat -> F;          (* len(v) where it is used as a divisor *)
  num_eqb : F -> F -> bool;       (* == *)
  num_ltb : F -> F -> bool;       (* < *)
  num_isnan : F -> bool           (* np.isnan *)
}.

(** binary64, as numpy's float64 scalars compute. *)
#[export] Instance binary64 : Number float := {|
  num_zero := PrimFloat.zero;
  num_add := PrimFloat.add;
  num_sub := PrimFloat.sub;
  num_mul := PrimFloat.mul;
  num_div := PrimFloat.div;
  num_sqrt := PrimFloat.sqrt;
  num_of_len := fun n => PrimFloat.of_uint63 (Uint63.of_Z (Z.of_nat n));
  num_eqb := PrimFloat.eqb;
  num_ltb := PrimFloat.ltb;
  num_isnan := PrimFloat.is_nan
|}.

(** Exact real arithmetic. *)
#[export] Instance exact_reals : Number R := {|
  num_zero := 0%R;
  num_add := Rplus;
  num_sub := Rminus;
  num_mul := Rmult;
  num_div := Rdiv;
  num_sqrt := R_sqrt.sqrt;
  num_of_len := INR;
  num_eqb := fun x y => if Req_dec_T x y then true else false;
  num_ltb := fun x y => if Rlt_dec x y then true else false;
  num_isnan := fun _ => false
|}.

Section Pearson.
Context {F : Type} `{Number F}.

(** Python's built-in [sum]: a left fold that starts from 0. *)
Definition py_sum (l : list F) : F := fold_left num_add l num_zero.

(** [x ** 2] on a numpy [float64]: a square that overflows is an infinity
    (on a built-in float [**] would raise [OverflowError]; the callers pass
    values read from a pandas frame). *)
Definition sq (x : F) : F := num_mul x x.

(** [sum(v) / len(v)]; dividing by [len(v) = 0] raises. *)
Definition mean (v : list F) : result F :=
  match v with
  | [] => Raise ZeroDivisionError
  | _ => Ok (num_div (py_sum v) (num_of_len (length v)))
  end.

(** [sum((a - meanA) * (b - meanB) for a, b in zip(vecA, vecB))] *)
Definition numerator_of (vecA vecB : list F) (meanA meanB : F) : F :=
  py_sum (map (fun ab => num_mul (num_sub (fst ab) meanA) (num_sub (snd ab) meanB))
              (combine vecA vecB)).

(** [sum((a - meanA) ** 2 for a in vecA)] *)
Definition denominator_of (vec : list F) (m : F) : F :=
  py_sum (map (fun a => sq (num_sub a m)) vec).

(** find_ideal_user.py, [calculate_pearson]. *)
Definition calculate_pearson (vecA vecB : list F) : result F :=
  if (length vecA <? 2)%nat then Ok num_zero
  else
    let! meanA := mean vecA in
    let! meanB := mean vecB in
    let numerator := numerator_of vecA vecB meanA meanB in
    let denominatorA := denominator_of vecA meanA in
    let denominatorB := denominator_of vecB meanB in
    if num_eqb denominatorA num_zero || num_eqb denominatorB num_zero
    then Ok num_zero
    else Ok (num_div numerator
               (num_mul (num_sqrt denominatorA) (num_sqrt denominatorB))).

(** analyze_cf.py, [calculate_pearson_correlation].  [np.std] and
    [scipy.stats.pearsonr] are library functions: they are parameters of
    the model, and [pearsonr] may raise. *)
Section Library.
Variable np_std : list F -> F.
Variable pearsonr : list F -> list F -> result F.

Definition calculate_pearson_correlation (vec1 vec2 : list F) : F :=
  if (length vec1 <? 2)%nat then num_zero
  else
    try_except
      (if num_eqb (np_std vec1) num_zero || num_eqb (np_std vec2) num_zero
       then Ok num_zero
       else
         let! corr := pearsonr vec1 vec2 in
         Ok (if negb (num_isnan corr) then corr else num_zero))
      num_zero.
End Library.
End Pearson.

(** "All its values identical". *)
Definition all_identical {A} (v : list A) : Prop :=
  forall x y, x ∈ v -> y ∈ v -> x = y.

(** The one law of arithmetic that the symmetry of the functions rests on. *)
Class CommutativeMul (F : Type) `{Number F} : Prop :=
  num_mul_comm : forall x y : F, num_mul x y = num_mul y x.

(** ** Library functions, as their documentation defines them

    [numpy.std] and [scipy.stats.pearsonr] are not code of the repository.
    The two definitions below follow the formulas of the libraries'
    documentation; they serve as instances of the parameters of
    [calculate_pearson_correlation]. *)

Section LibraryReference.
Context {F : Type} `{Number F}.

(** [x.mean()] of numpy: no exception on an empty array. *)
Definition np_mean (v : list F) : F :=
  num_div (py_sum v) (num_of_len (length v)).

(** [std = sqrt(mean(abs(x - x.mean())**2))] *)
Definition np_std_ref (v : list F) : F :=
  num_sqrt (np_mean (map (fun x => sq (num_sub x (np_mean v))) v)).

(** [r = sum((x - mx) * (y - my)) / sqrt(sum((x - mx)**2) * sum((y - my)**2))];
    a [ValueError] when the lengths differ or are below 2. *)
Definition pearsonr_ref (x y : list F) : result F :=
  if negb (length x =? length y)%nat || (length x <? 2)%nat
  then Raise ValueError
  else
    let mx := np_mean x in
    let my := np_mean y in
    Ok (num_div (numerator_of x y mx my)
          (num_sqrt (num_mul (denominator_of x mx) (denominator_of y my)))).
End LibraryReference.

(** ** Containers *)

(** [mapM] for [result]: a list comprehension whose element expression may
    raise. *)
Fixpoint mapM {A B} (f : A -> result B) (l : list A) : result (list B) :=
  match l with
  | [] => Ok []
  | x :: l' =>
      let! y := f x in
      let! ys := mapM f l' in
      Ok (y :: ys)
  end.

(** A loop that updates an accumulator and whose body may raise. *)
Fixpoint foldM {A B} (f : B -> A -> result B) (acc : B) (l : list A) : result B :=
  match l with
  | [] => Ok acc
  | x :: l' =>
      let! acc' := f acc x in
      foldM f acc' l'
  end.

(** A Python [dict] that is iterated: keys in the order of their first
    insertion. *)
Abbreviation odict V := (list (string * V)).

Fixpoint od_get {V} (d : odict V) (k : string) : option V :=
  match d with
  | [] => None
  | (k', v) :: d' => if decide (k' = k) then Some v else od_get d' k
  end.

(** [d[k] = f(d[k])] on a [defaultdict] whose default value is [dflt]. *)
Fixpoint od_update {V} (dflt : V) (f : V -> V) (k : string) (d : odict V) : odict V :=
  match d with
  | [] => [(k, f dflt)]
  | (k', v) :: d' =>
      if decide (k' = k) then (k', f v) :: d'
      else (k', v) :: od_update dflt f k d'
  end.

(** The tuples that the rounds of a loop appended: a round appends one
    tuple or nothing. *)
Definition appended_items {A} (rounds : list (option A)) : list A :=
  omap (fun o => o) rounds.

(** [l[:n]] for an [int] n: a negative n counts from the end. *)
Definition py_slice_to {A} (n : Z) (l : list A) : list A :=
  if (0 <=? n)%Z then take (Z.to_nat n) l
  else take (length l - Z.to_nat (- n)) l.

(** [l.sort(key=..., reverse=True)]: descending and stable.  [lt a b] is
    [key(a) < key(b)]. *)
Section Sort.
Context {A : Type} (lt : A -> A -> bool).

Fixpoint insert_desc (x : A) (l : list A) : list A :=
  match l with
  | [] => [x]
  | y :: l' => if lt x y then y :: insert_desc x l' else x :: l
  end.

Definition sort_desc (l : list A) : list A := foldr insert_desc [] l.
End Sort.

(** ** The ratings table *)

Record Rating (F : Type) : Type := {
  user_id : string;
  business_id : string;
  rating : F
}.
Arguments user_id {F} _.
Arguments business_id {F} _.
Arguments rating {F} _.

(** [ratings_df]: the rows of the frame, in order. *)
Abbreviation DataFrame F := (list (Rating F)).

(** [ratings_df[ratings_df['user_id'] == u]] *)
Definition rows_of_user {F} (u : string) (df : DataFrame F) : DataFrame F :=
  filter (fun r => user_id r = u) df.

(** The number of rows of [u]: its entry in
    [ratings_df['user_id'].value_counts()]. *)
Definition rating_count {F} (df : DataFrame F) (u : string) : nat :=
  length (rows_of_user u df).

(** The invariant of the dataset: a (user, business) pair has one row. *)
Definition unique_pairs {F} (df : DataFrame F) : Prop :=
  NoDup ((fun r => (user_id r, business_id r)) <$> df).

Section Search.
Context {F : Type} `{Number F}.
Variable np_std : list F -> F.
Variable pearsonr : list F -> list F -> result F.

(** analyze_cf.py 32-34:
    [user_ratings[row['user_id']][row['business_id']] = float(row['rating'])] *)
Definition user_ratings_of (df : DataFrame F) : odict (gmap string F) :=
  fold_left
    (fun d row => od_update ∅ (fun m => <[business_id row := rating row]> m) (user_id row) d)
    df [].

(** analyze_cf.py 78-80:
    [item_ratings[row['business_id']][row['user_id']] = float(row['rating'])] *)
Definition item_ratings_of (df : DataFrame F) : odict (gmap string F) :=
  fold_left
    (fun d row => od_update ∅ (fun m => <[user_id row := rating row]> m) (business_id row) d)
    df [].

(** [d[k][j]] on a [defaultdict(dict)]: a missing [k] yields the empty
    dict, whose subscript raises [KeyError]. *)
Definition get2 (d : odict (gmap string F)) (k j : string) : result F :=
  match default ∅ (od_get d k) !! j with
  | Some x => Ok x
  | None => Raise KeyError
  end.

(** [m[j]] on a plain dict. *)
Definition get1 (m : gmap string F) (j : string) : result F :=
  match m !! j with
  | Some x => Ok x
  | None => Raise KeyError
  end.

(** The rating stored under [u] then [i] in the by-user mapping, and under
    [i] then [u] in the by-item mapping; [None] when the pair is absent. *)
Definition rating_by_user (df : DataFrame F) (u i : string) : option F :=
  od_get (user_ratings_of df) u ≫= (fun m => m !! i).

Definition rating_by_item (df : DataFrame F) (i u : string) : option F :=
  od_get (item_ratings_of df) i ≫= (fun m => m !! u).

(** The items that [target] and [u] have both rated: [common_items] of
    [find_similar_users] in the round of [u]. *)
Definition common_items_of (df : DataFrame F) (target u : string) : gset string :=
  list_to_set (business_id <$> rows_of_user target df)
  ∩ dom (default ∅ (od_get (user_ratings_of df) u)).

(** What the round of [o] appends for the threshold [m]: nothing for the
    target and below the threshold, else a tuple whose similarity is 0
    when there are fewer than two common items, and never a NaN. *)
Definition round_appends (df : DataFrame F) (target : string) (m : Z)
    (o : string * gmap string F) (r : option (string * F * nat)) : Prop :=
  let common : gset string :=
    list_to_set (business_id <$> rows_of_user target df) ∩ dom o.2 in
  if decide (o.1 <> target /\ (m <= Z.of_nat (size common))%Z)
  then exists s, r = Some (o.1, s, size common)
                 /\ (size common < 2 -> s = num_zero)
                 /\ (s = num_zero \/ num_isnan s = false)
  else r = None.

(** One round of the loop of [find_similar_users] (lines 40-57): what is
    appended to [similarity_scores] for [other_user_id]. *)
Definition score_user (user_ratings : odict (gmap string F))
    (target_user_id : string) (target_user_items : gset string)
    (min_common_ratings : Z) (other : string * gmap string F)
    : result (option (string * F * nat)) :=
  let other_user_id := other.1 in
  let other_ratings := other.2 in
  if decide (other_user_id = target_user_id) then Ok None
  else
    let other_user_items : gset string := dom other_ratings in
    let common_items := target_user_items ∩ other_user_items in
    if (min_common_ratings <=? Z.of_nat (size common_items))%Z then
      let! target_values :=
        mapM (get2 user_ratings target_user_id) (elements common_items) in
      let! other_values := mapM (get1 other_ratings) (elements common_items) in
      let similarity :=
        calculate_pearson_correlation np_std pearsonr target_values other_values in
      Ok (Some (other_user_id, similarity, size common_items))
    else Ok None.

(** [similarity_scores] when the loop ends, before it is sorted. *)
Definition similarity_scores (target_user_id : string) (ratings_df : DataFrame F)
    (min_common_ratings : Z) : result (list (string * F * nat)) :=
  let target_user_ratings := rows_of_user target_user_id ratings_df in
  let target_user_items : gset string :=
    list_to_set (business_id <$> target_user_ratings) in
  let user_ratings := user_ratings_of ratings_df in
  let! appended :=
    mapM (score_user user_ratings target_user_id target_user_items min_common_ratings)
         user_ratings in
  Ok (appended_items appended).

(** analyze_cf.py, [find_similar_users]. *)
Definition find_similar_users (target_user_id : string) (ratings_df : DataFrame F)
    (min_common_ratings : Z) (top_n : Z) : result (list (string * F * nat)) :=
  let! scores := similarity_scores target_user_id ratings_df min_common_ratings in
  Ok (py_slice_to top_n
        (sort_desc (fun x y => num_ltb x.1.2 y.1.2) scores)).

(** The users who rated both [i] and [j]: [common_users] of
    [find_similar_items] in the round of the pair. *)
Definition common_users_of (df : DataFrame F) (i j : string) : gset string :=
  dom (default ∅ (od_get (item_ratings_of df) i))
  ∩ dom (default ∅ (od_get (item_ratings_of df) j)).

(** One round of the inner loop of [find_similar_items] (lines 88-105). *)
Definition score_item (item_ratings : odict (gmap string F))
    (target_item : string) (target_item_users : gset string)
    (min_common_users : Z) (other : string * gmap string F)
    : result (option (string * string * F * nat)) :=
  let other_item := other.1 in
  let other_ratings := other.2 in
  if decide (other_item = target_item) then Ok None
  else
    let other_item_users : gset string := dom other_ratings in
    let common_users := target_item_users ∩ other_item_users in
    if (min_common_users <=? Z.of_nat (size common_users))%Z then
      let! target_values :=
        mapM (get2 item_ratings target_item) (elements common_users) in
      let! other_values := mapM (get1 other_ratings) (elements common_users) in
      let similarity :=
        calculate_pearson_correlation np_std pearsonr target_values other_values in
      if num_ltb num_zero similarity
      then Ok (Some (target_item, other_item, similarity, size common_users))
      else Ok None
    else Ok None.

(** [similar_items] when the two loops end, before it is sorted. *)
Definition similar_item_pairs (target_user_id : string) (ratings_df : DataFrame F)
    (min_common_users : Z) : result (list (string * string * F * nat)) :=
  let target_user_ratings := rows_of_user target_user_id ratings_df in
  let target_items := business_id <$> target_user_ratings in
  let item_ratings := item_ratings_of ratings_df in
  let! per_item :=
    mapM (fun target_item =>
            let target_item_users : gset string :=
              dom (default ∅ (od_get item_ratings target_item)) in
            let! appended :=
              mapM (score_item item_ratings target_item target_item_users min_common_users)
                   item_ratings in
            Ok (appended_items appended))
         target_items in
  Ok (concat per_item).

(** analyze_cf.py, [find_similar_items]. *)
Definition find_similar_items (target_user_id : string) (ratings_df : DataFrame F)
    (min_common_users : Z) (top_n : Z) : result (list (string * string * F * nat)) :=
  let! pairs := similar_item_pairs target_user_id ratings_df min_common_users in
  Ok (py_slice_to top_n
        (sort_desc (fun x y => num_ltb x.1.2 y.1.2) pairs)).
End Search.

(** ** Dataset statistics (analyze_cf.py, [main]) *)

(** [series.nunique()] *)
Definition nunique (l : list string) : nat := size (list_to_set l : gset string).

(** analyze_cf.py 213-214:
    [total_possible_ratings = ratings_df['user_id'].nunique() * ratings_df['business_id'].nunique()]
    [sparsity = 1 - (len(ratings_df) / total_possible_ratings)].
    The operands of [/] are integers: it raises on 0. *)
Definition sparsity {F : Type} `{Number F} (ratings_df : DataFrame F) : result F :=
  let total_possible_ratings :=
    nunique (user_id <$> ratings_df) * nunique (business_id <$> ratings_df) in
  if (total_possible_ratings =? 0)%nat then Raise ZeroDivisionError
  else Ok (num_sub (num_of_len 1)
             (num_div (num_of_len (length ratings_df))
                      (num_of_len total_possible_ratings))).

(** ** Candidate ranking (find_ideal_user.py) *)

Record RankedCandidate : Set := {
  rc_user_id : string;
  num_ratings : nat;
  similar_users : nat;
  potential_recommendations : nat
}.

(** [ratings_df['user_id'].value_counts()]: one entry per distinct value with
    the number of its rows, largest count first.  pandas leaves the order of
    equal counts open; here it is the order of first appearance. *)
Definition count_rows (users : list string) : odict nat :=
  fold_left (fun d u => od_update 0%nat S u d) users [].

Definition value_counts (users : list string) : list (string * nat) :=
  sort_desc (fun x y => (x.2 <? y.2)%nat) (count_rows users).

(** [sort_values(['similar_users', 'potential_recommendations'], ascending=False)] *)
Definition row_lt (x y : RankedCandidate) : bool :=
  (similar_users x <? similar_users y)%nat
  || ((similar_users x =? similar_users y)%nat
      && (potential_recommendations x <? potential_recommendations y)%nat).

Section Ranking.
Context {F : Type} `{Number F}.

(** [user_rating_counts[user_rating_counts >= min_ratings].index.tolist()] *)
Definition qualified_users (ratings_df : DataFrame F) (min_ratings : Z) : list string :=
  fst <$> filter (fun uc => (min_ratings <= Z.of_nat uc.2)%Z)
                 (value_counts (user_id <$> ratings_df)).

(** [ratings_df[ratings_df['user_id'] == u].set_index('business_id')['rating']]:
    a Series, its labels the business ids of the rows of [u]. *)
Definition ratings_series (u : string) (ratings_df : DataFrame F) : list (string * F) :=
  (fun r => (business_id r, rating r)) <$> rows_of_user u ratings_df.

(** [set(series.index)] *)
Definition index_set (series : list (string * F)) : gset string :=
  list_to_set (fst <$> series).

(** [series[item]].  With a label that occurs once pandas returns the
    number; with an absent label it raises [KeyError].  With a repeated
    label it returns a sub-Series, on which the arithmetic of
    [calculate_pearson] is not that of numbers: the model covers frames
    where a (user, business) pair occurs once, and stops with [ValueError]
    on a repeated label. *)
Definition series_get (series : list (string * F)) (item : string) : result F :=
  match filter (fun kv => kv.1 = item) series with
  | [] => Raise KeyError
  | [kv] => Ok kv.2
  | _ => Raise ValueError
  end.

(** One round of the inner loop (lines 42-65): the new values of
    [similar_user_count] and [potential_recommendations].  The two
    comprehensions iterate the one set [common_items], here in the order of
    [elements]; Python fixes no order, and the order in which it iterates
    [U & V] in one round need not be that of [V & U] in another. *)
Definition compare_with (ratings_df : DataFrame F) (min_common : Z) (min_similarity : F)
    (user : string) (user_ratings : list (string * F))
    (acc : nat * gset string) (other_id : string) : result (nat * gset string) :=
  if decide (other_id = user) then Ok acc
  else
    let other_ratings := ratings_series other_id ratings_df in
    let common_items := index_set user_ratings ∩ index_set other_ratings in
    if (min_common <=? Z.of_nat (size common_items))%Z then
      let! common_user_ratings :=
        mapM (series_get user_ratings) (elements common_items) in
      let! common_other_ratings :=
        mapM (series_get other_ratings) (elements common_items) in
      let! similarity := calculate_pearson common_user_ratings common_other_ratings in
      if num_ltb min_similarity similarity then
        let user_unrated := index_set other_ratings ∖ index_set user_ratings in
        Ok (S acc.1, acc.2 ∪ user_unrated)
      else Ok acc
    else Ok acc.

(** One round of the outer loop (lines 30-73): the row appended to
    [results]. *)
Definition candidate_row (ratings_df : DataFrame F) (min_common : Z) (min_similarity : F)
    (qualified : list string) (user : string) : result RankedCandidate :=
  let user_ratings := ratings_series user ratings_df in
  let! acc :=
    foldM (compare_with ratings_df min_common min_similarity user user_ratings)
          (0%nat, ∅) qualified in
  Ok {| rc_user_id := user;
        num_ratings := length user_ratings;
        similar_users := acc.1;
        potential_recommendations := size acc.2 |}.

(** [results] when the outer loop ends. *)
Definition ranked_rows (ratings_df : DataFrame F) (min_ratings min_common : Z)
    (min_similarity : F) : result (list RankedCandidate) :=
  let qualified := qualified_users ratings_df min_ratings in
  mapM (candidate_row ratings_df min_common min_similarity qualified) qualified.

(** find_ideal_user.py, [find_ideal_cf_users], from the frame read to the
    frame returned.  [pd.DataFrame([])] has no columns, so sorting it by
    column names raises [KeyError]. *)
Definition find_ideal_cf_users (ratings_df : DataFrame F) (min_ratings min_common : Z)
    (min_similarity : F) : result (list RankedCandidate) :=
  let! results := ranked_rows ratings_df min_ratings min_common min_similarity in
  match results with
  | [] => Raise KeyError
  | _ => Ok (sort_desc row_lt results)
  end.
End Ranking.

(** ** Orders

    [row_before a b]: the row [a] may stand before the row [b] in a frame
    sorted by [similar_users], then [potential_recommendations], both
    descending. *)
Definition row_before (a b : RankedCandidate) : Prop :=
  similar_users b < similar_users a
  \/ (similar_users b = similar_users a
      /\ potential_recommendations b <= potential_recommendations a).

(** The place of a binary64 number that is not a NaN in the order of the
    comparisons: its class and sign, then exponent and mantissa. *)
Definition SFkey (x : spec_float) : Z * Z * Z :=
  match x with
  | S754_zero _ => (0, 0, 0)
  | S754_infinity s => (if s then -2 else 2, 0, 0)
  | S754_nan => (0, 0, 0)
  | S754_finite s m e => if s then (-1, - e, - Z.pos m) else (1, e, Z.pos m)
  end%Z.

Definition key_lt (a b : Z * Z * Z) : Prop :=
  (a.1.1 < b.1.1
   \/ (a.1.1 = b.1.1 /\ (a.1.2 < b.1.2 \/ (a.1.2 = b.1.2 /\ a.2 < b.2))))%Z.

(** ** Preprocessing (data_preprocessing.py)

    A Python [str] is the list of its code points; [lit] is the [str] of an
    ASCII literal of the source.  The input of a converter is the list of
    the values that [json.loads] returns for the lines of its file; its
    output is the content of the file it writes: the rows that the
    [csv.DictWriter] received, header first, each row the list of its
    values in the order of the field names (how [csv] prints a value is
    the library's matter), together with the exception that ended the
    call, if any.  A line that is no JSON text makes [json.loads] raise:
    the model starts from lines that parse. *)

Abbreviation pystr := (list N).

Definition lit (s : string) : pystr :=
  (fun a => Ascii.N_of_ascii a) <$> String.list_ascii_of_string s.

Unset Elimination Schemes.
Inductive pyval : Type :=
  | PNone
  | PBool (b : bool)
  | PInt (z : Z)
  | PFloat (f : float)
  | PStr (s : pystr)
  | PList (l : list pyval)
  | PDict (d : list (pystr * pyval)).
Set Elimination Schemes.

(** A [dict] with [str] keys, in insertion order. *)
Abbreviation pydict := (list (pystr * pyval)).
Abbreviation csvfile := (list (list pyval)).

(** The exceptions of the scripts; [AttributeError]: a method called on a
    value that does not have it; [UnicodeEncodeError]: a [str] written to
    the utf8 file that utf8 cannot encode. *)
Inductive py_exn : Type :=
  | Std (e : exn)
  | AttributeError
  | UnicodeEncodeError.

Inductive outcome (A : Type) : Type :=
  | Done (a : A)
  | Failed (e : py_exn).
Arguments Done {A} a.
Arguments Failed {A} e.

Definition outcome_bind {A B} (m : outcome A) (k : A -> outcome B) : outcome B :=
  match m with
  | Done a => k a
  | Failed e => Failed e
  end.

Notation "'let?' x ':=' m 'in' k" := (outcome_bind m (fun x => k))
  (at level 10, x name, m at level 200, k at level 200, only parsing).

(** [bool(v)] *)
Definition truthy (v : pyval) : bool :=
  match v with
  | PNone => false
  | PBool b => b
  | PInt z => negb (z =? 0)%Z
  | PFloat f => negb (PrimFloat.eqb f PrimFloat.zero)
  | PStr s => match s with [] => false | _ => true end
  | PList l => match l with [] => false | _ => true end
  | PDict d => match d with [] => false | _ => true end
  end.

(** [d[k]] for a key that is present, [None] otherwise. *)
Fixpoint dict_lookup (d : pydict) (k : pystr) : option pyval :=
  match d with
  | [] => None
  | (k', v) :: d' => if decide (k' = k) then Some v else dict_lookup d' k
  end.

(** [d[k] = v] *)
Fixpoint dict_set (d : pydict) (k : pystr) (v : pyval) : pydict :=
  match d with
  | [] => [(k, v)]
  | (k', v') :: d' => if decide (k' = k) then (k', v) :: d' else (k', v') :: dict_set d' k v
  end.

(** [k in d] *)
Definition dict_has (d : pydict) (k : pystr) : bool :=
  match dict_lookup d k with Some _ => true | None => false end.

(** [d.get(key, default)] *)
Definition dict_get (d : pydict) (key : pystr) (default : pyval) : pyval :=
  match dict_lookup d key with
  | Some v => v
  | None => default
  end.

(** [record.get(key, default)]: only a [dict] has the method. *)
Definition py_get (record : pyval) (key : pystr) (default : pyval) : outcome pyval :=
  match record with
  | PDict d => Done (dict_get d key default)
  | _ => Failed AttributeError
  end.

(** [{field: record.get(field, None) for field in columns}] *)
Fixpoint get_columns (record : pyval) (columns : list pystr) (filtered : pydict)
    : outcome pydict :=
  match columns with
  | [] => Done filtered
  | field :: columns' =>
      let? v := py_get record field PNone in
      get_columns record columns' (dict_set filtered field v)
  end.

(** [s.split(sep)] for a non-empty [sep]: the pieces between the
    occurrences of [sep], found from the left. *)
Fixpoint starts_with (sep s : pystr) : bool :=
  match sep, s with
  | [], _ => true
  | _ :: _, [] => false
  | a :: sep', b :: s' => (a =? b)%N && starts_with sep' s'
  end.

Fixpoint split_from (sep : pystr) (skip : nat) (piece : pystr) (s : pystr) : list pystr :=
  match s with
  | [] => [piece]
  | c :: s' =>
      match skip with
      | S skip' => split_from sep skip' piece s'
      | O =>
          if starts_with sep s
          then piece :: split_from sep (length sep - 1) [] s'
          else split_from sep 0 (piece ++ [c]) s'
      end
  end.

(** [s.split(sep)]; an empty separator raises [ValueError]. *)
Definition py_split (s sep : pystr) : outcome (list pystr) :=
  match sep with
  | [] => Failed (Std ValueError)
  | _ => Done (split_from sep 0 [] s)
  end.

(** [sep.join(items)] *)
Fixpoint py_join (sep : pystr) (items : list pystr) : pystr :=
  match items with
  | [] => []
  | [item] => item
  | item :: items' => item ++ sep ++ py_join sep items'
  end.

Section Preprocessing.
(** [isspace c]: whether [str.strip] removes the code point [c]. *)
Variable isspace : N -> bool.

Fixpoint lstrip (s : pystr) : pystr :=
  match s with
  | [] => []
  | c :: s' => if isspace c then lstrip s' else s
  end.

(** [s.strip()] *)
Definition py_strip (s : pystr) : pystr :=
  reverse (lstrip (reverse (lstrip s))).

(** data_preprocessing.py, [parse_list_field]. *)
Definition parse_list_field (value : pyval) (separator : pystr) : outcome (list pyval) :=
  match value with
  | PStr s =>
      let? items := py_split s separator in
      Done (PStr <$> (py_strip <$> filter (fun item => py_strip item <> []) items))
  | PList l => Done l
  | _ => Done []
  end.

(** [rowdict.get(key, restval) for key in fieldnames]; [restval] is the
    empty string. *)
Definition row_values (fieldnames : list pystr) (rowdict : pydict) : list pyval :=
  (fun key => default (PStr []) (dict_lookup rowdict key)) <$> fieldnames.

(** [DictWriter._dict_to_list]: a key that is no field name raises
    [ValueError]. *)
Definition dict_to_list (fieldnames : list pystr) (rowdict : pydict) : outcome (list pyval) :=
  if forallb (fun kv => bool_decide (kv.1 ∈ fieldnames)) rowdict
  then Done (row_values fieldnames rowdict)
  else Failed (Std ValueError).

(** A surrogate code point.  [json.loads] returns a [str] that holds one
    for an escape such as ["\ud800"] that stands alone, and the utf8 codec
    of the output file refuses it. *)
Definition is_surrogate (c : N) : bool := (0xD800 <=? c)%N && (c <=? 0xDFFF)%N.

(** Whether the file takes the text of a value.  A [str] is written as it
    is and has to encode; a list or a dict is written as its [repr], which
    escapes every surrogate; the text of [None] and of a number is ASCII. *)
Definition encodes (v : pyval) : bool :=
  match v with
  | PStr s => forallb (fun c => negb (is_surrogate c)) s
  | _ => true
  end.

(** A JSON object none of whose own values is a [str] with a surrogate. *)
Definition well_encoded (d : pydict) : bool := forallb (fun kv => encodes kv.2) d.

(** [writer.writerows(chunk)]: the rows are written one after the other,
    each in one [write] to the file, which encodes it. *)
Fixpoint writerows (fieldnames : list pystr) (chunk : list pydict) (file : csvfile)
    : csvfile * option py_exn :=
  match chunk with
  | [] => (file, None)
  | rowdict :: chunk' =>
      match dict_to_list fieldnames rowdict with
      | Done values =>
          if forallb encodes values
          then writerows fieldnames chunk' (file ++ [values])
          else (file, Some UnicodeEncodeError)
      | Failed e => (file, Some e)
      end
  end.

(** A row dict that [writerows] writes: its keys are field names and its
    values encode. *)
Definition writes (fieldnames : list pystr) (rowdict : pydict) : Prop :=
  dict_to_list fieldnames rowdict = Done (row_values fieldnames rowdict)
  /\ forallb encodes (row_values fieldnames rowdict) = true.

(** [writer.writeheader()] *)
Definition writeheader (fieldnames : list pystr) (file : csvfile) : csvfile :=
  file ++ [PStr <$> fieldnames].

(** The loop that [convert_business_json_to_csv] (lines 61-86),
    [convert_user_json_to_csv] (176-191) and [convert_checkin_json_to_csv]
    (214-233) each run, with the [if chunk:] that follows it; [row_of] is
    the part of the body that differs: [None] when it ends in [continue],
    the dict appended to [chunk] otherwise. *)
Fixpoint chunk_loop (row_of : pyval -> outcome (option pydict)) (fieldnames : list pystr)
    (chunk_size : Z) (lines : list pyval) (count : Z) (chunk : list pydict)
    (file : csvfile) : csvfile * option py_exn :=
  match lines with
  | [] =>
      match chunk with
      | [] => (file, None)
      | _ => writerows fieldnames chunk file
      end
  | record :: lines' =>
      match row_of record with
      | Failed e => (file, Some e)
      | Done None => chunk_loop row_of fieldnames chunk_size lines' count chunk file
      | Done (Some filtered) =>
          let chunk := chunk ++ [filtered] in
          let count := (count + 1)%Z in
          if (chunk_size =? 0)%Z then (file, Some (Std ZeroDivisionError))
          else if (count mod chunk_size =? 0)%Z then
            match writerows fieldnames chunk file with
            | (file, None) => chunk_loop row_of fieldnames chunk_size lines' count [] file
            | (file, Some e) => (file, Some e)
            end
          else chunk_loop row_of fieldnames chunk_size lines' count chunk file
      end
  end.

(** Of [n] rows, those that fill whole chunks of [|chunk_size|] rows. *)
Definition whole_chunks (chunk_size : Z) (n : nat) : nat :=
  Z.to_nat (Z.of_nat n - Z.of_nat n mod Z.abs chunk_size).

(** [convert_business_json_to_csv], lines 40-51. *)
Definition business_columns : list pystr :=
  lit <$> ["business_id"; "name"; "city"; "state"; "stars"; "review_count";
           "categories"; "latitude"; "longitude"]%string.

Definition business_fields : list pystr := business_columns ++ [lit "categories_list"].

(** Lines 64-78: one record of the business file. *)
Definition business_row (record : pyval) : outcome (option pydict) :=
  let? business_id := py_get record (lit "business_id") PNone in
  if negb (truthy business_id) then Done None
  else
    let? filtered := get_columns record business_columns [] in
    let? filtered :=
      if negb (dict_has filtered (lit "latitude")) && negb (dict_has filtered (lit "longitude"))
      then
        let? coordinates := py_get record (lit "coordinates") (PDict []) in
        if truthy coordinates then
          let? latitude := py_get coordinates (lit "latitude") PNone in
          let filtered := dict_set filtered (lit "latitude") latitude in
          let? longitude := py_get coordinates (lit "longitude") PNone in
          Done (dict_set filtered (lit "longitude") longitude)
        else Done filtered
      else Done filtered in
    let? categories := py_get record (lit "categories") (PStr []) in
    let? categories_list := parse_list_field categories (lit ",") in
    Done (Some (dict_set filtered (lit "categories_list") (PList categories_list))).

(** data_preprocessing.py, [convert_business_json_to_csv]. *)
Definition convert_business_json_to_csv (chunk_size : Z) (lines : list pyval)
    : csvfile * option py_exn :=
  chunk_loop business_row business_fields chunk_size lines 0 []
    (writeheader business_fields []).

(** [convert_user_json_to_csv], lines 160-166 and 179-182. *)
Definition user_columns : list pystr :=
  lit <$> ["user_id"; "name"; "review_count"; "average_stars"; "friends"]%string.

Definition user_row (record : pyval) : outcome (option pydict) :=
  let? user_id := py_get record (lit "user_id") PNone in
  if negb (truthy user_id) then Done None
  else
    let? filtered := get_columns record user_columns [] in
    Done (Some filtered).

(** data_preprocessing.py, [convert_user_json_to_csv]. *)
Definition convert_user_json_to_csv (chunk_size : Z) (lines : list pyval)
    : csvfile * option py_exn :=
  chunk_loop user_row user_columns chunk_size lines 0 []
    (writeheader user_columns []).

(** [convert_checkin_json_to_csv], lines 204 and 217-224. *)
Definition checkin_fields : list pystr := lit <$> ["business_id"; "date"; "date_list"]%string.

Definition checkin_row (record : pyval) : outcome (option pydict) :=
  let? business_id := py_get record (lit "business_id") PNone in
  if negb (truthy business_id) then Done None
  else
    let? business_id := py_get record (lit "business_id") PNone in
    let? date := py_get record (lit "date") PNone in
    let? date' := py_get record (lit "date") (PStr []) in
    let? date_list := parse_list_field date' (lit ",") in
    Done (Some [(lit "business_id", business_id); (lit "date", date);
                (lit "date_list", PList date_list)]).

(** data_preprocessing.py, [convert_checkin_json_to_csv]. *)
Definition convert_checkin_json_to_csv (chunk_size : Z) (lines : list pyval)
    : csvfile * option py_exn :=
  chunk_loop checkin_row checkin_fields chunk_size lines 0 []
    (writeheader checkin_fields []).

(** [convert_review_json_to_csv], lines 101-102. *)
Definition reviews_columns : list pystr :=
  lit <$> ["review_id"; "user_id"; "business_id"; "review_text"]%string.

Definition ratings_columns : list pystr :=
  lit <$> ["user_id"; "business_id"; "rating"]%string.

(** Lines 121-134: the two dicts built from a record. *)
Definition review_rows (record : pyval) : outcome (option (pydict * pydict)) :=
  let? review_id := py_get record (lit "review_id") PNone in
  let? keep :=
    if truthy review_id then
      let? user_id := py_get record (lit "user_id") PNone in
      if truthy user_id then
        let? business_id := py_get record (lit "business_id") PNone in
        Done (truthy business_id)
      else Done false
    else Done false in
  if negb keep then Done None
  else
    let? review_id := py_get record (lit "review_id") PNone in
    let? user_id := py_get record (lit "user_id") PNone in
    let? business_id := py_get record (lit "business_id") PNone in
    let? text := py_get record (lit "text") (PStr []) in
    let review_record :=
      [(lit "review_id", review_id); (lit "user_id", user_id);
       (lit "business_id", business_id); (lit "review_text", text)] in
    let? user_id := py_get record (lit "user_id") PNone in
    let? business_id := py_get record (lit "business_id") PNone in
    let? stars := py_get record (lit "stars") PNone in
    let rating_record :=
      [(lit "user_id", user_id); (lit "business_id", business_id);
       (lit "rating", stars)] in
    Done (Some (review_record, rating_record)).

(** Lines 117-147: the loop over the review file, which fills two chunks
    and writes to two files. *)
Fixpoint review_loop (chunk_size : Z) (lines : list pyval) (count : Z)
    (reviews_chunk ratings_chunk : list pydict) (reviews_file ratings_file : csvfile)
    : csvfile * csvfile * option py_exn :=
  match lines with
  | [] =>
      match reviews_chunk with
      | [] => (reviews_file, ratings_file, None)
      | _ =>
          match writerows reviews_columns reviews_chunk reviews_file with
          | (reviews_file, None) =>
              let '(ratings_file, e) := writerows ratings_columns ratings_chunk ratings_file in
              (reviews_file, ratings_file, e)
          | (reviews_file, Some e) => (reviews_file, ratings_file, Some e)
          end
      end
  | record :: lines' =>
      match review_rows record with
      | Failed e => (reviews_file, ratings_file, Some e)
      | Done None =>
          review_loop chunk_size lines' count reviews_chunk ratings_chunk
            reviews_file ratings_file
      | Done (Some (review_record, rating_record)) =>
          let reviews_chunk := reviews_chunk ++ [review_record] in
          let ratings_chunk := ratings_chunk ++ [rating_record] in
          let count := (count + 1)%Z in
          if (chunk_size =? 0)%Z then (reviews_file, ratings_file, Some (Std ZeroDivisionError))
          else if (count mod chunk_size =? 0)%Z then
            match writerows reviews_columns reviews_chunk reviews_file with
            | (reviews_file, None) =>
                match writerows ratings_columns ratings_chunk ratings_file with
                | (ratings_file, None) =>
                    review_loop chunk_size lines' count [] [] reviews_file ratings_file
                | (ratings_file, Some e) => (reviews_file, ratings_file, Some e)
                end
            | (reviews_file, Some e) => (reviews_file, ratings_file, Some e)
            end
          else
            review_loop chunk_size lines' count reviews_chunk ratings_chunk
              reviews_file ratings_file
      end
  end.

(** data_preprocessing.py, [convert_review_json_to_csv]: the reviews file,
    the ratings file, and the exception if any. *)
Definition convert_review_json_to_csv (chunk_size : Z) (lines : list pyval)
    : csvfile * csvfile * option py_exn :=
  review_loop chunk_size lines 0 [] []
    (writeheader reviews_columns []) (writeheader ratings_columns []).
End Preprocessing.

(** ** Subsampling (data_preprocessing.py, [subsample_processed_data])

    The five frames as [pd.read_csv] returns them.  The function reads the
    [user_id] and [business_id] columns only; the rows of the reviews,
    business, user and checkin frames are otherwise arbitrary.  [percent]
    is an integer (the only call passes 5); for integers below 2^53
    [int(total_users * percent / 100)] is the quotient truncated toward
    zero. *)

(** [series.unique()]: the distinct values, in the order of their first
    appearance. *)
Definition pd_unique (l : list string) : list string :=
  fold_left (fun seen x => if decide (x ∈ seen) then seen else seen ++ [x]) l [].

Section Subsample.
Context {F Review Business User Checkin : Type}.
Variable review_user_id : Review -> string.
Variable review_business_id : Review -> string.
Variable business_business_id : Business -> string.
Variable user_user_id : User -> string.
Variable checkin_business_id : Checkin -> string.

(** The five frames written to the test directory. *)
Record Subsampled : Type := {
  ratings_sub : DataFrame F;
  reviews_sub : list Review;
  business_sub : list Business;
  user_sub : list User;
  checkin_sub : list Checkin
}.

(** Lines 334-337: [subset_users]. *)
Definition subset_users_of (percent : Z) (ratings_df : DataFrame F) : list string :=
  let unique_users := pd_unique (user_id <$> ratings_df) in
  let total_users := Z.of_nat (length unique_users) in
  let subset_n := Z.max 1 (Z.quot (total_users * percent) 100) in
  py_slice_to subset_n unique_users.

(** data_preprocessing.py, [subsample_processed_data]. *)
Definition subsample_processed_data (percent : Z) (ratings_df : DataFrame F)
    (reviews_df : list Review) (business_df : list Business) (user_df : list User)
    (checkin_df : list Checkin) : Subsampled :=
  let subset_users := subset_users_of percent ratings_df in
  let ratings_sub := filter (fun r => user_id r ∈ subset_users) ratings_df in
  let reviews_sub := filter (fun r => review_user_id r ∈ subset_users) reviews_df in
  let businesses_from_ratings : gset string :=
    list_to_set (pd_unique (business_id <$> ratings_sub)) in
  let businesses_from_reviews : gset string :=
    list_to_set (pd_unique (review_business_id <$> reviews_sub)) in
  let subsampled_businesses := businesses_from_ratings ∪ businesses_from_reviews in
  let business_sub :=
    filter (fun b => business_business_id b ∈ subsampled_businesses) business_df in
  let user_sub := filter (fun u => user_user_id u ∈ subset_users) user_df in
  let checkin_sub :=
    filter (fun c => checkin_business_id c ∈ subsampled_businesses) checkin_df in
  {| ratings_sub := ratings_sub; reviews_sub := reviews_sub;
     business_sub := business_sub; user_sub := user_sub; checkin_sub := checkin_sub |}.
End Subsample.

(** ** The frame of the spec's scenarios

    A and B rate x and y alike; C shares no item with A; D has one rating. *)
Definition rated (u b : string) (r : float) : Rating float :=
  {| user_id := u; business_id := b; rating := r |}.

Definition sample_ratings : DataFrame float :=
  [ rated "A" "x" 4; rated "A" "y" 5;
    rated "B" "x" 4; rated "B" "y" 5;
    rated "C" "z" 3; rated "C" "w" 2;
    rated "D" "x" 1 ]%float.

(** * Properties *)

(** ** The Pearson functions in any arithmetic *)

Section PearsonGeneric.
Context {F : Type} `{Number F}.

Lemma calculate_pearson_short (vecA vecB : list F) :
  (length vecA < 2)%nat -> calculate_pearson vecA vecB = Ok num_zero.
Proof.
  intros Hlen. unfold calculate_pearson.
  apply Nat.ltb_lt in Hlen. now rewrite Hlen.
Qed.

Lemma calculate_pearson_correlation_short np_std pearsonr (vec1 vec2 : list F) :
  (length vec1 < 2)%nat ->
  calculate_pearson_correlation np_std pearsonr vec1 vec2 = num_zero.
Proof.
  intros Hlen. unfold calculate_pearson_correlation.
  apply Nat.ltb_lt in Hlen. now rewrite Hlen.
Qed.

Lemma mean_ok (v : list F) :
  v <> [] -> mean v = Ok (num_div (py_sum v) (num_of_len (length v))).
Proof. destruct v; [congruence | reflexivity]. Qed.

(** Past the length guard, with both vectors non-empty. *)
Lemma calculate_pearson_long (vecA vecB : list F) :
  (2 <= length vecA)%nat -> vecB <> [] ->
  calculate_pearson vecA vecB =
    let meanA := num_div (py_sum vecA) (num_of_len (length vecA)) in
    let meanB := num_div (py_sum vecB) (num_of_len (length vecB)) in
    if num_eqb (denominator_of vecA meanA) num_zero
       || num_eqb (denominator_of vecB meanB) num_zero
    then Ok num_zero
    else Ok (num_div (numerator_of vecA vecB meanA meanB)
               (num_mul (num_sqrt (denominator_of vecA meanA))
                        (num_sqrt (denominator_of vecB meanB)))).
Proof.
  intros Hlen HB. unfold calculate_pearson.
  assert (Hlt : (length vecA <? 2)%nat = false) by (apply Nat.ltb_ge; exact Hlen).
  rewrite Hlt.
  assert (HA : vecA <> []) by (destruct vecA; [simpl in Hlen; lia | discriminate]).
  rewrite (mean_ok vecA HA), (mean_ok vecB HB). reflexivity.
Qed.

(** Equal lengths: the function returns, it does not raise. *)
Lemma calculate_pearson_returns (vecA vecB : list F) :
  length vecA = length vecB -> exists r, calculate_pearson vecA vecB = Ok r.
Proof.
  intros Hlen.
  destruct (Nat.lt_ge_cases (length vecA) 2) as [Hs|Hl].
  - eexists. apply calculate_pearson_short. exact Hs.
  - rewrite calculate_pearson_long; [| exact Hl |].
    + cbv zeta. destruct (_ || _); eexists; reflexivity.
    + destruct vecB; [simpl in Hlen; lia | discriminate].
Qed.

(** The variance test of [calculate_pearson]: a computed sum of squared
    deviations that compares equal to 0. *)
Lemma calculate_pearson_zero_deviation (vecA vecB : list F) :
  length vecA = length vecB ->
  num_eqb (denominator_of vecA (np_mean vecA)) num_zero = true
  \/ num_eqb (denominator_of vecB (np_mean vecB)) num_zero = true ->
  calculate_pearson vecA vecB = Ok num_zero.
Proof.
  intros Hlen Hz.
  destruct (Nat.lt_ge_cases (length vecA) 2) as [Hs|Hl].
  - apply calculate_pearson_short. exact Hs.
  - rewrite calculate_pearson_long;
      [| exact Hl | destruct vecB; [simpl in Hlen; lia | discriminate]].
    cbv zeta. fold (np_mean vecA). fold (np_mean vecB).
    destruct Hz as [Hz|Hz]; rewrite Hz; [reflexivity | now rewrite orb_true_r].
Qed.

(** The variance test of [calculate_pearson_correlation]. *)
Lemma calculate_pearson_correlation_zero_std np_std pearsonr (vec1 vec2 : list F) :
  num_eqb (np_std vec1) num_zero = true \/ num_eqb (np_std vec2) num_zero = true ->
  calculate_pearson_correlation np_std pearsonr vec1 vec2 = num_zero.
Proof.
  intros Hz. unfold calculate_pearson_correlation.
  destruct (length vec1 <? 2)%nat; [reflexivity|].
  destruct Hz as [Hz|Hz]; rewrite Hz; [reflexivity | now rewrite orb_true_r].
Qed.

(** [calculate_pearson_correlation] returns 0 or the value, not a NaN, that
    [pearsonr] returned. *)
Lemma calculate_pearson_correlation_value np_std pearsonr (vec1 vec2 : list F) :
  let r := calculate_pearson_correlation np_std pearsonr vec1 vec2 in
  r = num_zero \/ (pearsonr vec1 vec2 = Ok r /\ num_isnan r = false).
Proof.
  cbv zeta. unfold calculate_pearson_correlation.
  destruct (length vec1 <? 2)%nat; [left; reflexivity|].
  destruct (_ || _); [left; reflexivity|].
  destruct (pearsonr vec1 vec2) as [corr|e]; cbn; [| left; reflexivity].
  destruct (num_isnan corr) eqn:Hnan; cbn; [left; reflexivity|].
  right. split; [reflexivity | exact Hnan].
Qed.

Lemma numerator_of_diag_generic (v : list F) (m : F) :
  numerator_of v v m m = denominator_of v m.
Proof.
  unfold numerator_of, denominator_of, sq. f_equal.
  induction v as [|x v IH]; simpl; [reflexivity | now rewrite IH].
Qed.

(** On [(v, v)] the quotient is [d / (sqrt d * sqrt d)], whatever the
    arithmetic. *)
Lemma calculate_pearson_diag (v : list F) :
  (2 <= length v)%nat ->
  let m := num_div (py_sum v) (num_of_len (length v)) in
  let d := denominator_of v m in
  num_eqb d num_zero = false ->
  calculate_pearson v v = Ok (num_div d (num_mul (num_sqrt d) (num_sqrt d))).
Proof.
  intros Hlen m d Hd.
  rewrite calculate_pearson_long;
    [| exact Hlen | destruct v; [simpl in Hlen; lia | discriminate]].
  cbv zeta. fold m. fold d. rewrite Hd. simpl.
  now rewrite numerator_of_diag_generic.
Qed.
End PearsonGeneric.

(** ** Symmetry, from the commutativity of the product *)

Section PearsonSymmetry.
Context {F : Type} `{CommutativeMul F}.

Lemma numerator_of_swap (vecA vecB : list F) (meanA meanB : F) :
  numerator_of vecA vecB meanA meanB = numerator_of vecB vecA meanB meanA.
Proof.
  unfold numerator_of. f_equal.
  revert vecB; induction vecA as [|a vecA IH]; intros [|b vecB]; simpl;
    try reflexivity.
  rewrite IH. f_equal. apply num_mul_comm.
Qed.

Lemma calculate_pearson_swap (vecA vecB : list F) :
  length vecA = length vecB ->
  calculate_pearson vecA vecB = calculate_pearson vecB vecA.
Proof.
  intros Hlen.
  destruct (Nat.lt_ge_cases (length vecA) 2) as [Hs|Hl].
  - rewrite !calculate_pearson_short; [reflexivity | lia | lia].
  - assert (HA : vecA <> []) by (destruct vecA; [simpl in Hl; lia | discriminate]).
    assert (HB : vecB <> []) by (destruct vecB; [simpl in Hlen, Hl; lia | discriminate]).
    rewrite (calculate_pearson_long vecA vecB), (calculate_pearson_long vecB vecA);
      [| lia | exact HA | exact Hl | exact HB].
    cbv zeta. rewrite (orb_comm (num_eqb (denominator_of vecB _) _)).
    rewrite (numerator_of_swap vecB vecA).
    rewrite (num_mul_comm (num_sqrt (denominator_of vecB _))).
    reflexivity.
Qed.

Lemma calculate_pearson_correlation_swap np_std pearsonr (vec1 vec2 : list F) :
  length vec1 = length vec2 ->
  pearsonr vec1 vec2 = pearsonr vec2 vec1 ->
  calculate_pearson_correlation np_std pearsonr vec1 vec2
  = calculate_pearson_correlation np_std pearsonr vec2 vec1.
Proof.
  intros Hlen Hsym. unfold calculate_pearson_correlation.
  rewrite <- Hlen, Hsym, (orb_comm (num_eqb (np_std vec2) _)). reflexivity.
Qed.

Lemma pearsonr_ref_swap (x y : list F) : pearsonr_ref x y = pearsonr_ref y x.
Proof.
  unfold pearsonr_ref.
  destruct (Nat.eq_dec (length x) (length y)) as [Heq|Hne].
  - rewrite <- Heq, Nat.eqb_refl. simpl.
    rewrite (numerator_of_swap y x), (num_mul_comm (denominator_of y _)).
    reflexivity.
  - assert (H1 : (length x =? length y)%nat = false) by (apply Nat.eqb_neq; exact Hne).
    assert (H2 : (length y =? length x)%nat = false) by (apply Nat.eqb_neq; congruence).
    now rewrite H1, H2.
Qed.
End PearsonSymmetry.

(** The product of binary64 numbers is commutative: the specification of
    [PrimFloat.mul] is symmetric in its arguments. *)
Lemma SFmul_comm (prec emax : Z) (x y : spec_float) :
  SFmul prec emax x y = SFmul prec emax y x.
Proof.
  destruct x as [sx|sx| |sx mx ex], y as [sy|sy| |sy my ey]; simpl;
    try reflexivity; try (now rewrite xorb_comm).
  now rewrite xorb_comm, Pos.mul_comm, Z.add_comm.
Qed.

#[export] Instance binary64_commutative : CommutativeMul float.
Proof.
  intros x y. simpl. apply Prim2SF_inj.
  rewrite !FloatAxioms.mul_spec. apply SFmul_comm.
Qed.

#[export] Instance exact_commutative : CommutativeMul R.
Proof. intros x y. simpl. apply Rmult_comm. Qed.

(** ** The Pearson claims *)

Local Open Scope float_scope.

(** The spec's own example, as the code computes it. *)
Example calculate_pearson_555_123 :
  calculate_pearson [5; 5; 5] [1; 2; 3] = Ok 0.
Proof. vm_compute. reflexivity. Qed.

(** C1, at a failing input.  The claim: on equal-length vectors the
    Pearson function returns exactly 0 when either has zero variance (all
    its values identical).  In binary64 the constant vector
    [0.1, 0.1, 0.1] has the computed mean 0.10000000000000002, hence
    non-zero squared deviations, and the test [denominatorA == 0] of
    [calculate_pearson] misses it: against [1, 2, 4] the function returns
    about 1.19e-16, and [r == 0] is false. *)
Theorem pearson_constant_vector_binary64 :
  let v1 := [0x1.999999999999ap-4; 0x1.999999999999ap-4; 0x1.999999999999ap-4] in
  let v2 := [1; 2; 4] in
  length v1 = length v2
  /\ Forall (fun x => x = 0x1.999999999999ap-4) v1
  /\ calculate_pearson v1 v2 = Ok 0x1.11acee560242ap-53
  /\ num_eqb 0x1.11acee560242ap-53 num_zero = false.
Proof.
  cbv zeta. split; [reflexivity|]. split; [repeat constructor|].
  split; vm_compute; reflexivity.
Qed.

(** C2, at a failing input.  The claim: on vectors of one length, at least
    2, the value returned lies in [-1, 1].  In binary64
    [calculate_pearson] on ([1, 1, 4], [1, 1, 4]) returns
    1.0000000000000002 ([sqrt(6) * sqrt(6)] rounds below 6), and
    [r <= 1] is false: the quotient is returned as it is. *)
Theorem pearson_exceeds_one_binary64 :
  let v := [1; 1; 4] in
  length v = length v
  /\ (2 <= length v)%nat
  /\ calculate_pearson v v = Ok 0x1.0000000000001p+0
  /\ PrimFloat.leb 0x1.0000000000001p+0 1 = false.
Proof.
  cbv zeta. split; [reflexivity|]. split; [simpl; lia|].
  split; vm_compute; reflexivity.
Qed.


Local Close Scope float_scope.

(** C10.  Both Pearson functions are symmetric on vectors of one length, in
    binary64 as in exact arithmetic: the product commutes, and the guards
    test the same conditions on both sides.  ([pearsonr] is the library's;
    its own symmetry on the two vectors is what
    [calculate_pearson_correlation] needs.) *)
Theorem pearson_symmetric {F : Type} {N : Number F} {C : CommutativeMul F}
    (np_std : list F -> F)
    (pearsonr : list F -> list F -> result F) (a b : list F) :
  length a = length b ->
  pearsonr a b = pearsonr b a ->
  calculate_pearson a b = calculate_pearson b a
  /\ calculate_pearson_correlation np_std pearsonr a b
     = calculate_pearson_correlation np_std pearsonr b a.
Proof.
  intros Hlen Hlib. split.
  - apply calculate_pearson_swap. exact Hlen.
  - apply calculate_pearson_correlation_swap; assumption.
Qed.

Lemma pearson_symmetric_witness :
  calculate_pearson [1; 2; 4]%float [3; 1; 5]%float
  = calculate_pearson [3; 1; 5]%float [1; 2; 4]%float
  /\ calculate_pearson_correlation np_std_ref pearsonr_ref [1; 2; 4]%float [3; 1; 5]%float
     = calculate_pearson_correlation np_std_ref pearsonr_ref [3; 1; 5]%float [1; 2; 4]%float.
Proof.
  apply (pearson_symmetric (C := binary64_commutative) np_std_ref pearsonr_ref
           [1; 2; 4]%float [3; 1; 5]%float).
  - reflexivity.
  - apply pearsonr_ref_swap.
Defined.

(** ** Containers: comprehensions, sorting, slicing *)

Section MapM.
Context {A B : Type}.

Lemma mapM_ok (f : A -> result B) (l : list A) (l' : list B) :
  mapM f l = Ok l' <-> Forall2 (fun x y => f x = Ok y) l l'.
Proof.
  revert l'; induction l as [|x l IH]; intros l'; simpl.
  - split.
    + intros [= <-]. constructor.
    + intros Hf. inversion Hf. reflexivity.
  - split.
    + destruct (f x) as [y|e] eqn:Hx; simpl; [| discriminate].
      destruct (mapM f l) as [ys|e] eqn:Hl; simpl; [| discriminate].
      intros [= <-]. constructor; [exact Hx | apply IH; reflexivity].
    + intros Hf. inversion Hf as [|? y ? ys Hx Hl]; subst.
      rewrite Hx. simpl. apply IH in Hl. rewrite Hl. reflexivity.
Qed.

End MapM.

Section SortFacts.
Context {A : Type} (lt : A -> A -> bool).

Lemma insert_desc_perm (x : A) (l : list A) : insert_desc lt x l ≡ₚ x :: l.
Proof.
  induction l as [|y l IH]; simpl; [reflexivity|].
  destruct (lt x y); [| reflexivity].
  rewrite IH. apply Permutation_swap.
Qed.

Lemma sort_desc_perm (l : list A) : sort_desc lt l ≡ₚ l.
Proof.
  induction l as [|x l IH]; simpl; [reflexivity|].
  rewrite insert_desc_perm, IH. reflexivity.
Qed.

Lemma sort_desc_length (l : list A) : length (sort_desc lt l) = length l.
Proof. apply Permutation_length, sort_desc_perm. Qed.

Lemma elem_of_sort_desc (x : A) (l : list A) : x ∈ sort_desc lt l <-> x ∈ l.
Proof. now rewrite sort_desc_perm. Qed.
End SortFacts.

Lemma py_slice_to_sublist {A} (n : Z) (l : list A) : py_slice_to n l `sublist_of` l.
Proof. unfold py_slice_to. destruct (0 <=? n)%Z; apply sublist_take. Qed.

Lemma elem_of_py_slice_to {A} (n : Z) (l : list A) (x : A) :
  x ∈ py_slice_to n l -> x ∈ l.
Proof. intros Hx. eapply sublist_subseteq; [apply py_slice_to_sublist | exact Hx]. Qed.

(** ** Ordered dictionaries *)

Section OdictFacts.
Context {V : Type}.

Lemma od_get_update (dflt : V) (f : V -> V) (k k' : string) (d : odict V) :
  od_get (od_update dflt f k d) k'
  = if decide (k = k') then Some (f (default dflt (od_get d k))) else od_get d k'.
Proof.
  induction d as [|[k0 v] d IH]; simpl.
  - destruct (decide (k = k')); reflexivity.
  - destruct (decide (k0 = k)) as [->|Hne]; simpl.
    + destruct (decide (k = k')); reflexivity.
    + rewrite IH. destruct (decide (k0 = k')) as [->|Hne'].
      * destruct (decide (k = k')); [congruence | reflexivity].
      * reflexivity.
Qed.

Lemma od_update_keys (dflt : V) (f : V -> V) (k : string) (d : odict V) :
  (od_update dflt f k d).*1 = if decide (k ∈ d.*1) then d.*1 else d.*1 ++ [k].
Proof.
  induction d as [|[k0 v] d IH].
  - cbn. destruct (decide (k ∈ [])) as [Hin|_]; [inversion Hin | reflexivity].
  - cbn [od_update]. destruct (decide (k0 = k)) as [->|Hne].
    + rewrite !fmap_cons. cbn [fst].
      destruct (decide (k ∈ k :: d.*1)) as [_|Hn];
        [reflexivity | exfalso; apply Hn; left].
    + rewrite !fmap_cons, IH. cbn [fst].
      destruct (decide (k ∈ d.*1)) as [Hin|Hn];
        destruct (decide (k ∈ k0 :: d.*1)) as [Hin'|Hn'].
      * reflexivity.
      * exfalso; apply Hn'; right; exact Hin.
      * apply elem_of_cons in Hin' as [->|Hin']; [congruence | contradiction].
      * reflexivity.
Qed.

Lemma od_update_NoDup (dflt : V) (f : V -> V) (k : string) (d : odict V) :
  NoDup d.*1 -> NoDup (od_update dflt f k d).*1.
Proof.
  intros Hd. rewrite od_update_keys.
  destruct (decide (k ∈ d.*1)) as [Hin|Hn]; [exact Hd|].
  apply NoDup_app. split; [exact Hd|]. split.
  - intros x Hx Hx'. apply list_elem_of_singleton in Hx'. congruence.
  - apply NoDup_singleton.
Qed.

Lemma od_get_elem_of (d : odict V) (k : string) (v : V) :
  NoDup d.*1 -> (k, v) ∈ d -> od_get d k = Some v.
Proof.
  induction d as [|[k0 v0] d IH]; simpl; intros Hnd Hin.
  - inversion Hin.
  - apply NoDup_cons in Hnd as [Hk0 Hnd].
    apply elem_of_cons in Hin as [[= -> ->]|Hin].
    + destruct (decide (k0 = k0)); [reflexivity | congruence].
    + destruct (decide (k0 = k)) as [->|Hne]; [| apply IH; assumption].
      exfalso. apply Hk0. apply list_elem_of_fmap. exists (k, v). split; [reflexivity | exact Hin].
Qed.
End OdictFacts.

(** ** The two indices *)

Section IndexFacts.
Context {F : Type}.

Lemma user_ratings_of_snoc (df : DataFrame F) (r : Rating F) :
  user_ratings_of (df ++ [r])
  = od_update ∅ (fun m => <[business_id r := rating r]> m) (user_id r)
      (user_ratings_of df).
Proof. unfold user_ratings_of. now rewrite fold_left_app. Qed.

Lemma item_ratings_of_snoc (df : DataFrame F) (r : Rating F) :
  item_ratings_of (df ++ [r])
  = od_update ∅ (fun m => <[user_id r := rating r]> m) (business_id r)
      (item_ratings_of df).
Proof. unfold item_ratings_of. now rewrite fold_left_app. Qed.

(** A store [d[k][j] = x] on a [defaultdict(dict)], read back at [k'], [j']. *)
Lemma od_update_insert_lookup (d : odict (gmap string F)) (k j k' j' : string) (x : F) :
  od_get (od_update ∅ (fun m => <[j := x]> m) k d) k' ≫= (fun m => m !! j')
  = if decide (k = k' /\ j = j') then Some x
    else od_get d k' ≫= (fun m => m !! j').
Proof.
  rewrite od_get_update.
  destruct (decide (k = k')) as [->|Hk]; simpl.
  - destruct (decide (j = j')) as [->|Hj].
    + rewrite lookup_insert_eq.
      destruct (decide (k' = k' /\ j' = j')) as [_|Hn]; [reflexivity | tauto].
    + rewrite lookup_insert_ne by exact Hj.
      destruct (decide (k' = k' /\ j = j')) as [[_ Hj']|_]; [contradiction|].
      destruct (od_get d k'); simpl; [reflexivity | apply lookup_empty].
  - destruct (decide (k = k' /\ j = j')) as [[Hk' _]|_]; [contradiction | reflexivity].
Qed.

Lemma rating_by_user_snoc (df : DataFrame F) (r : Rating F) (u i : string) :
  rating_by_user (df ++ [r]) u i
  = if decide (user_id r = u /\ business_id r = i) then Some (rating r)
    else rating_by_user df u i.
Proof.
  unfold rating_by_user. rewrite user_ratings_of_snoc.
  apply od_update_insert_lookup.
Qed.

Lemma rating_by_item_snoc (df : DataFrame F) (r : Rating F) (i u : string) :
  rating_by_item (df ++ [r]) i u
  = if decide (business_id r = i /\ user_id r = u) then Some (rating r)
    else rating_by_item df i u.
Proof.
  unfold rating_by_item. rewrite item_ratings_of_snoc.
  apply od_update_insert_lookup.
Qed.

Lemma user_ratings_of_NoDup (df : DataFrame F) : NoDup (user_ratings_of df).*1.
Proof.
  induction df as [|r df IH] using rev_ind.
  - constructor.
  - rewrite user_ratings_of_snoc. apply od_update_NoDup. exact IH.
Qed.

Lemma item_ratings_of_NoDup (df : DataFrame F) : NoDup (item_ratings_of df).*1.
Proof.
  induction df as [|r df IH] using rev_ind.
  - constructor.
  - rewrite item_ratings_of_snoc. apply od_update_NoDup. exact IH.
Qed.

(** The pairs of the by-user mapping are the (user, business) pairs of the
    rows. *)
Lemma rating_by_user_is_Some (df : DataFrame F) (u i : string) :
  is_Some (rating_by_user df u i) <-> i ∈ business_id <$> rows_of_user u df.
Proof.
  induction df as [|r df IH] using rev_ind.
  - split; [intros [x Hx]; discriminate | intros Hin; inversion Hin].
  - rewrite rating_by_user_snoc. unfold rows_of_user in *.
    rewrite filter_app, fmap_app, elem_of_app, <- IH.
    destruct (decide (user_id r = u /\ business_id r = i)) as [[Hu Hi]|Hn].
    + split; [intros _; right | intros _; eexists; reflexivity].
      rewrite filter_cons_True by exact Hu. rewrite <- Hi. left.
    + split; [intros Hs; left; exact Hs | intros [Hs|Hin]; [exact Hs|]].
      exfalso. apply Hn.
      apply list_elem_of_fmap in Hin as (r' & -> & Hin).
      apply list_elem_of_filter in Hin as [Hu Hin].
      apply list_elem_of_singleton in Hin as ->. split; [exact Hu | reflexivity].
Qed.
End IndexFacts.

(** ** The similarity searches *)

Lemma mapM_total {A B} (f : A -> result B) (l : list A) :
  (forall x, x ∈ l -> exists y, f x = Ok y) -> exists l', mapM f l = Ok l'.
Proof.
  induction l as [|x l IH]; intros Hf; simpl.
  - eexists; reflexivity.
  - destruct (Hf x) as [y Hy]; [left|]. rewrite Hy. simpl.
    destruct IH as [l' Hl']; [intros z Hz; apply Hf; right; exact Hz|].
    rewrite Hl'. simpl. eexists; reflexivity.
Qed.

Lemma elem_of_appended_items {A} (rounds : list (option A)) (x : A) :
  x ∈ appended_items rounds <-> Some x ∈ rounds.
Proof.
  unfold appended_items. rewrite list_elem_of_omap. split.
  - intros (o & Ho & ->). exact Ho.
  - intros Hx. exists (Some x). split; [exact Hx | reflexivity].
Qed.

Section SearchFacts.
Context {F : Type} `{Number F}.
Variable np_std : list F -> F.
Variable pearsonr : list F -> list F -> result F.

Lemma get1_ok (m : gmap string F) (j : string) :
  j ∈ dom m -> exists x, get1 m j = Ok x.
Proof.
  intros Hj. apply elem_of_dom in Hj as [x Hx].
  exists x. unfold get1. now rewrite Hx.
Qed.

Lemma get2_ok (d : odict (gmap string F)) (k j : string) :
  j ∈ dom (default ∅ (od_get d k)) -> exists x, get2 d k j = Ok x.
Proof.
  intros Hj. apply elem_of_dom in Hj as [x Hx].
  exists x. unfold get2. now rewrite Hx.
Qed.

Lemma dom_user_ratings_of (df : DataFrame F) (u : string) :
  dom (default ∅ (od_get (user_ratings_of df) u))
  = list_to_set (business_id <$> rows_of_user u df).
Proof.
  apply set_eq. intros i.
  rewrite elem_of_list_to_set, <- rating_by_user_is_Some, elem_of_dom.
  unfold rating_by_user.
  destruct (od_get (user_ratings_of df) u) as [m|]; simpl; [reflexivity|].
  rewrite lookup_empty. reflexivity.
Qed.

(** A round of [find_similar_users]: it does not raise, and the similarity
    it computes does not depend on the threshold. *)
Lemma score_user_spec (df : DataFrame F) (target : string)
    (other : string * gmap string F) :
  exists s, forall m,
    score_user np_std pearsonr (user_ratings_of df) target
      (list_to_set (business_id <$> rows_of_user target df)) m other
    = Ok (if decide (other.1 = target) then None
          else
            let common : gset string :=
              list_to_set (business_id <$> rows_of_user target df) ∩ dom other.2 in
            if (m <=? Z.of_nat (size common))%Z
            then Some (other.1, s, size common) else None).
Proof.
  set (items := list_to_set (business_id <$> rows_of_user target df) : gset string).
  set (common := items ∩ dom other.2).
  destruct (mapM_total (get2 (user_ratings_of df) target) (elements common))
    as [tv Htv].
  { intros i Hi. apply elem_of_elements, elem_of_intersection in Hi as [Hi _].
    apply get2_ok. rewrite dom_user_ratings_of. exact Hi. }
  destruct (mapM_total (get1 other.2) (elements common)) as [ov Hov].
  { intros i Hi. apply elem_of_elements, elem_of_intersection in Hi as [_ Hi].
    apply get1_ok. exact Hi. }
  exists (calculate_pearson_correlation np_std pearsonr tv ov).
  intros m. unfold score_user. fold common.
  destruct (decide (other.1 = target)); [reflexivity|].
  cbv zeta. fold common.
  destruct (m <=? Z.of_nat (size common))%Z; [| reflexivity].
  rewrite Htv, Hov. reflexivity.
Qed.

(** The rounds over any part of the dictionary, for two thresholds. *)
Lemma score_user_rounds (df : DataFrame F) (target : string) (m1 m2 : Z)
    (l : list (string * gmap string F)) :
  (m1 <= m2)%Z ->
  exists a1 a2,
    mapM (score_user np_std pearsonr (user_ratings_of df) target
            (list_to_set (business_id <$> rows_of_user target df)) m1) l = Ok a1
    /\ mapM (score_user np_std pearsonr (user_ratings_of df) target
               (list_to_set (business_id <$> rows_of_user target df)) m2) l = Ok a2
    /\ appended_items a2 `sublist_of` appended_items a1.
Proof.
  intros Hm. induction l as [|o l (a1 & a2 & H1 & H2 & Hsub)].
  - exists [], []. repeat split; constructor.
  - destruct (score_user_spec df target o) as [s Hs].
    cbn [mapM]. rewrite !Hs, H1, H2. cbn [bind].
    eexists _, _. split; [reflexivity|]. split; [reflexivity|].
    unfold appended_items in *. cbn [omap].
    destruct (decide (o.1 = target)); [exact Hsub|].
    cbv zeta.
    destruct (m2 <=? _)%Z eqn:H2le.
    + assert (H1le : (m1 <=? Z.of_nat (size (list_to_set (business_id <$> rows_of_user target df) ∩ dom o.2)))%Z = true)
        by (apply Z.leb_le; apply Z.leb_le in H2le; lia).
      rewrite H1le. cbn. apply sublist_skip. exact Hsub.
    + destruct (m1 <=? _)%Z; cbn; [apply sublist_cons|]; exact Hsub.
Qed.

(** What a tuple of [similarity_scores] says about its user. *)
Lemma similarity_scores_elem (df : DataFrame F) (target : string) (m : Z)
    (scores : list (string * F * nat)) (x : string * F * nat) :
  similarity_scores np_std pearsonr target df m = Ok scores ->
  x ∈ scores ->
  x.1.1 <> target
  /\ x.2 = size (common_items_of df target x.1.1)
  /\ (m <= Z.of_nat x.2)%Z.
Proof.
  unfold similarity_scores. cbv zeta.
  destruct (mapM _ _) as [a|e] eqn:Ha; [| discriminate].
  cbn [bind]. intros [= <-] Hx.
  apply elem_of_appended_items in Hx.
  apply mapM_ok in Ha.
  apply list_elem_of_lookup in Hx as [i Hi].
  destruct (Forall2_lookup_r _ _ _ _ _ Ha Hi) as (o & Ho & Hscore).
  destruct (score_user_spec df target o) as [s Hs].
  rewrite Hs in Hscore. injection Hscore as Hscore.
  destruct (decide (o.1 = target)) as [|Hne]; [discriminate|].
  cbv zeta in Hscore.
  destruct (_ <=? _)%Z eqn:Hle; [| discriminate].
  injection Hscore as <-. cbn.
  split; [exact Hne|].
  assert (Hget : od_get (user_ratings_of df) o.1 = Some o.2).
  { apply od_get_elem_of; [apply user_ratings_of_NoDup|].
    destruct o as [k v]. apply list_elem_of_lookup. exists i. exact Ho. }
  unfold common_items_of. rewrite Hget. cbn.
  split; [reflexivity | apply Z.leb_le; exact Hle].
Qed.
End SearchFacts.

Lemma mapM_total_Forall {A B} (f : A -> result B) (P : B -> Prop) (l : list A) :
  (forall x, x ∈ l -> exists y, f x = Ok y /\ P y) ->
  exists l', mapM f l = Ok l' /\ Forall P l'.
Proof.
  induction l as [|x l IH]; intros Hf; simpl.
  - eexists; split; [reflexivity | constructor].
  - destruct (Hf x) as (y & Hy & HP); [left|]. rewrite Hy. simpl.
    destruct IH as (l' & Hl' & HPl'); [intros z Hz; apply Hf; right; exact Hz|].
    rewrite Hl'. simpl. eexists; split; [reflexivity | constructor; assumption].
Qed.

Lemma py_slice_to_length {A} (n : Z) (l : list A) :
  length (py_slice_to n l)
  = if (0 <=? n)%Z then Nat.min (Z.to_nat n) (length l)
    else (length l - Z.to_nat (- n))%nat.
Proof.
  unfold py_slice_to. destruct (0 <=? n)%Z; rewrite length_take; lia.
Qed.

Lemma py_slice_to_length_mono {A B} (n : Z) (l : list A) (l' : list B) :
  length l <= length l' -> length (py_slice_to n l) <= length (py_slice_to n l').
Proof.
  intros Hle. rewrite !py_slice_to_length. destruct (0 <=? n)%Z; lia.
Qed.

Section ItemSearchFacts.
Context {F : Type} `{Number F}.
Variable np_std : list F -> F.
Variable pearsonr : list F -> list F -> result F.

(** A round of the inner loop of [find_similar_items]: it does not raise,
    and what it appends has a positive similarity. *)
Lemma score_item_spec (item_ratings : odict (gmap string F)) (target_item : string)
    (m : Z) (other : string * gmap string F) :
  exists o,
    score_item np_std pearsonr item_ratings target_item
      (dom (default ∅ (od_get item_ratings target_item))) m other = Ok o
    /\ forall x, o = Some x -> num_ltb num_zero x.1.2 = true.
Proof.
  set (users := dom (default ∅ (od_get item_ratings target_item)) : gset string).
  set (common := users ∩ dom other.2).
  destruct (mapM_total (get2 item_ratings target_item) (elements common))
    as [tv Htv].
  { intros i Hi. apply elem_of_elements, elem_of_intersection in Hi as [Hi _].
    apply get2_ok. exact Hi. }
  destruct (mapM_total (get1 other.2) (elements common)) as [ov Hov].
  { intros i Hi. apply elem_of_elements, elem_of_intersection in Hi as [_ Hi].
    apply get1_ok. exact Hi. }
  unfold score_item. fold common.
  destruct (decide (other.1 = target_item));
    [eexists; split; [reflexivity | discriminate] |].
  cbv zeta. fold common.
  destruct (m <=? Z.of_nat (size common))%Z;
    [| eexists; split; [reflexivity | discriminate]].
  rewrite Htv, Hov. cbn [bind].
  destruct (num_ltb num_zero (calculate_pearson_correlation np_std pearsonr tv ov))
    eqn:Hpos; eexists; (split; [reflexivity|]); [| discriminate].
  intros x [= <-]. exact Hpos.
Qed.

Lemma similar_item_pairs_spec (target : string) (df : DataFrame F) (m : Z) :
  exists pairs,
    similar_item_pairs np_std pearsonr target df m = Ok pairs
    /\ Forall (fun x => num_ltb num_zero x.1.2 = true) pairs.
Proof.
  unfold similar_item_pairs. cbv zeta.
  set (body := fun target_item : string => _).
  destruct (mapM_total_Forall body
              (Forall (fun x : string * string * F * nat => num_ltb num_zero x.1.2 = true))
              (business_id <$> rows_of_user target df))
    as (per_item & Hper & Hall).
  { intros target_item _. unfold body.
    destruct (mapM_total_Forall
                (score_item np_std pearsonr (item_ratings_of df) target_item
                   (dom (default ∅ (od_get (item_ratings_of df) target_item))) m)
                (fun o => forall x, o = Some x -> num_ltb num_zero x.1.2 = true)
                (item_ratings_of df))
      as (appended & Happ & Hpos).
    { intros other _. apply score_item_spec. }
    rewrite Happ. cbn [bind]. eexists; split; [reflexivity|].
    apply Forall_forall. intros x Hx.
    apply elem_of_appended_items in Hx.
    rewrite Forall_forall in Hpos. exact (Hpos _ Hx x eq_refl). }
  rewrite Hper. cbn [bind]. eexists; split; [reflexivity|].
  apply Forall_forall. intros x Hx.
  apply list_elem_of_In, in_concat in Hx as (l & Hl & Hx).
  apply list_elem_of_In in Hl, Hx.
  rewrite Forall_forall in Hall. specialize (Hall l Hl).
  rewrite Forall_forall in Hall. exact (Hall x Hx).
Qed.
End ItemSearchFacts.

(** ** The dataset and search claims *)

(** C5.  For every sequence of rows, duplicates of a (user, business) pair
    included, the rating stored under [u] then [i] in the by-user mapping is
    the rating stored under [i] then [u] in the by-item mapping, and the pair
    is present in one mapping exactly when it is present in the other. *)
Theorem indices_agree {F : Type} (df : DataFrame F) (u i : string) :
  rating_by_user df u i = rating_by_item df i u
  /\ (is_Some (rating_by_user df u i) <-> is_Some (rating_by_item df i u)).
Proof.
  assert (Heq : rating_by_user df u i = rating_by_item df i u).
  { induction df as [|r df IH] using rev_ind; [reflexivity|].
    rewrite rating_by_user_snoc, rating_by_item_snoc, IH.
    destruct (decide (user_id r = u /\ business_id r = i)) as [[Hu Hi]|Hn];
      destruct (decide (business_id r = i /\ user_id r = u)) as [[Hi' Hu']|Hn'];
      try reflexivity; tauto. }
  split; [exact Heq | now rewrite Heq].
Qed.

(** A pair rated twice: the later row wins, in both mappings. *)
Example indices_last_wins :
  let df := [ {| user_id := "A"; business_id := "x"; rating := 4%float |};
              {| user_id := "B"; business_id := "x"; rating := 3%float |};
              {| user_id := "A"; business_id := "x"; rating := 2%float |} ] in
  rating_by_user df "A" "x" = Some 2%float
  /\ rating_by_item df "x" "A" = Some 2%float.
Proof. cbv zeta. split; vm_compute; reflexivity. Qed.

(** C6.  The tuples that [find_similar_users] appends to
    [similarity_scores] with threshold [m] carry the number of common items
    of their user, which is at least [m]; a user with fewer common items has
    no tuple.  With [m1 <= m2] the tuples appended for [m2] are among those
    appended for [m1], in the same order, and neither the appended nor the
    returned list gets longer. *)
Theorem min_common_ratings_filter {F : Type} `{Number F}
    (np_std : list F -> F) (pearsonr : list F -> list F -> result F)
    (target : string) (df : DataFrame F) (m1 m2 top_n : Z) :
  (m1 <= m2)%Z ->
  exists s1 s2 r1 r2,
    similarity_scores np_std pearsonr target df m1 = Ok s1
    /\ similarity_scores np_std pearsonr target df m2 = Ok s2
    /\ find_similar_users np_std pearsonr target df m1 top_n = Ok r1
    /\ find_similar_users np_std pearsonr target df m2 top_n = Ok r2
    /\ (forall x, x ∈ s2 ->
          x.2 = size (common_items_of df target x.1.1) /\ (m2 <= Z.of_nat x.2)%Z)
    /\ (forall x, x ∈ r2 ->
          x.2 = size (common_items_of df target x.1.1) /\ (m2 <= Z.of_nat x.2)%Z)
    /\ (forall u, (Z.of_nat (size (common_items_of df target u)) < m2)%Z ->
          forall x, x ∈ s2 -> x.1.1 <> u)
    /\ s2 `sublist_of` s1
    /\ (forall x, x ∈ s2 -> x ∈ s1)
    /\ length s2 <= length s1
    /\ length r2 <= length r1.
Proof.
  intros Hm.
  destruct (score_user_rounds np_std pearsonr df target m1 m2 (user_ratings_of df) Hm)
    as (a1 & a2 & H1 & H2 & Hsub).
  assert (Hs1 : similarity_scores np_std pearsonr target df m1 = Ok (appended_items a1)).
  { unfold similarity_scores. cbv zeta. rewrite H1. reflexivity. }
  assert (Hs2 : similarity_scores np_std pearsonr target df m2 = Ok (appended_items a2)).
  { unfold similarity_scores. cbv zeta. rewrite H2. reflexivity. }
  assert (Hin2 : forall x, x ∈ appended_items a2 ->
            x.2 = size (common_items_of df target x.1.1) /\ (m2 <= Z.of_nat x.2)%Z).
  { intros x Hx.
    destruct (similarity_scores_elem np_std pearsonr df target m2 _ x Hs2 Hx)
      as (_ & Hc & Hle).
    split; assumption. }
  exists (appended_items a1), (appended_items a2).
  eexists _, _.
  split; [exact Hs1|]. split; [exact Hs2|].
  split; [unfold find_similar_users; rewrite Hs1; reflexivity|].
  split; [unfold find_similar_users; rewrite Hs2; reflexivity|].
  split; [exact Hin2|].
  split.
  { intros x Hx. apply Hin2.
    apply elem_of_py_slice_to, elem_of_sort_desc in Hx. exact Hx. }
  split.
  { intros u Hu x Hx Heq. subst u. destruct (Hin2 x Hx) as [Hc Hle]. lia. }
  split; [exact Hsub|].
  split; [intros x Hx; exact (sublist_subseteq _ _ Hsub x Hx)|].
  split; [apply sublist_length; exact Hsub|].
  apply py_slice_to_length_mono. rewrite !sort_desc_length.
  apply sublist_length; exact Hsub.
Qed.

Lemma min_common_ratings_filter_witness :
  exists s1 s2 r1 r2 : list (string * float * nat),
    similarity_scores np_std_ref pearsonr_ref "A" sample_ratings 1 = Ok s1
    /\ similarity_scores np_std_ref pearsonr_ref "A" sample_ratings 2 = Ok s2
    /\ find_similar_users np_std_ref pearsonr_ref "A" sample_ratings 1 10 = Ok r1
    /\ find_similar_users np_std_ref pearsonr_ref "A" sample_ratings 2 10 = Ok r2
    /\ (forall x, x ∈ s2 ->
          x.2 = size (common_items_of sample_ratings "A" x.1.1)
          /\ (2 <= Z.of_nat x.2)%Z)
    /\ (forall x, x ∈ r2 ->
          x.2 = size (common_items_of sample_ratings "A" x.1.1)
          /\ (2 <= Z.of_nat x.2)%Z)
    /\ (forall u, (Z.of_nat (size (common_items_of sample_ratings "A" u)) < 2)%Z ->
          forall x, x ∈ s2 -> x.1.1 <> u)
    /\ s2 `sublist_of` s1
    /\ (forall x, x ∈ s2 -> x ∈ s1)
    /\ length s2 <= length s1
    /\ length r2 <= length r1.
Proof.
  apply (min_common_ratings_filter np_std_ref pearsonr_ref "A" sample_ratings 1 2 10).
  lia.
Defined.

(** The threshold at work on the scenario: with 1, B (two common items) and
    D (one) are returned and C (none) is not; with 2 only B is. *)
Example min_common_ratings_filter_run :
  find_similar_users np_std_ref pearsonr_ref "A" sample_ratings 1 10
  = Ok [("B", 1%float, 2); ("D", 0%float, 1)]
  /\ find_similar_users np_std_ref pearsonr_ref "A" sample_ratings 2 10
     = Ok [("B", 1%float, 2)].
Proof. split; vm_compute; reflexivity. Qed.

(** What is returned is cut to [top_n] after the sort, so the lists
    returned for two thresholds need not be included in one another: here D
    (one common item, similarity 0) is returned for 1 and E (two common
    items, similarity -1) for 2. *)
Example returned_lists_not_nested :
  let df := [ rated "A" "x" 4; rated "A" "y" 5; rated "D" "x" 1;
              rated "E" "x" 5; rated "E" "y" 4 ]%float in
  find_similar_users np_std_ref pearsonr_ref "A" df 1 1 = Ok [("D", 0%float, 1)]
  /\ find_similar_users np_std_ref pearsonr_ref "A" df 2 1 = Ok [("E", (-1)%float, 2)].
Proof. cbv zeta. split; vm_compute; reflexivity. Qed.

(** C7.  [find_similar_items] returns, and every tuple it returns has a
    similarity [s] with [0 < s]: a pair whose correlation is zero or
    negative is not appended. *)
Theorem similar_items_positive {F : Type} `{Number F}
    (np_std : list F -> F) (pearsonr : list F -> list F -> result F)
    (target : string) (df : DataFrame F) (min_common_users top_n : Z) :
  exists res,
    find_similar_items np_std pearsonr target df min_common_users top_n = Ok res
    /\ forall x, x ∈ res -> num_ltb num_zero x.1.2 = true.
Proof.
  destruct (similar_item_pairs_spec np_std pearsonr target df min_common_users)
    as (pairs & Hpairs & Hpos).
  unfold find_similar_items. rewrite Hpairs. cbn [bind].
  eexists; split; [reflexivity|].
  intros x Hx. apply elem_of_py_slice_to, elem_of_sort_desc in Hx.
  rewrite Forall_forall in Hpos. exact (Hpos x Hx).
Qed.

(** Items x and y rise together over the three users and z falls: of the
    six ordered pairs only (x, y) and (y, x) are returned. *)
Example similar_items_run :
  let df := [ rated "U1" "x" 1; rated "U1" "y" 2; rated "U1" "z" 5;
              rated "U2" "x" 3; rated "U2" "y" 4; rated "U2" "z" 3;
              rated "U3" "x" 5; rated "U3" "y" 5; rated "U3" "z" 1 ]%float in
  match find_similar_items np_std_ref pearsonr_ref "U1" df 2 10 with
  | Ok res => (fun x => x.1.1) <$> res
  | Raise _ => []
  end = [("x", "y"); ("y", "x")].
Proof. cbv zeta. vm_compute. reflexivity. Qed.

(** C8.  [find_similar_users] returns, and no tuple it returns has the
    target user as its user. *)
Theorem similar_users_exclude_target {F : Type} `{Number F}
    (np_std : list F -> F) (pearsonr : list F -> list F -> result F)
    (target : string) (df : DataFrame F) (min_common_ratings top_n : Z) :
  exists res,
    find_similar_users np_std pearsonr target df min_common_ratings top_n = Ok res
    /\ forall x, x ∈ res -> x.1.1 <> target.
Proof.
  destruct (score_user_rounds np_std pearsonr df target
              min_common_ratings min_common_ratings (user_ratings_of df))
    as (a & _ & Ha & _ & _); [lia|].
  assert (Hs : similarity_scores np_std pearsonr target df min_common_ratings
               = Ok (appended_items a)).
  { unfold similarity_scores. cbv zeta. rewrite Ha. reflexivity. }
  unfold find_similar_users. rewrite Hs. cbn [bind].
  eexists; split; [reflexivity|].
  intros x Hx. apply elem_of_py_slice_to, elem_of_sort_desc in Hx.
  exact (proj1 (similarity_scores_elem np_std pearsonr df target _ _ x Hs Hx)).
Qed.

(** On an empty frame the two mappings are empty dictionaries and both
    searches return the empty list: nothing is raised. *)
Lemma empty_dataset_no_error :
  user_ratings_of ([] : DataFrame float) = []
  /\ item_ratings_of ([] : DataFrame float) = []
  /\ find_similar_users np_std_ref pearsonr_ref "u" ([] : DataFrame float) 1 10 = Ok []
  /\ find_similar_items np_std_ref pearsonr_ref "u" ([] : DataFrame float) 1 10 = Ok []
  /\ ~ raises (find_similar_users np_std_ref pearsonr_ref "u" ([] : DataFrame float) 1 10).
Proof. repeat split; try reflexivity. intros Hr. exact Hr. Qed.

(** C4 (as amended).  Building the two mappings succeeds for every sequence
    of rows, the empty one included: [find_similar_users] and
    [find_similar_items], which build them, return for every frame.  From
    the empty sequence the mappings are empty, no user qualifies and both
    searches return the empty list. *)
Theorem dataset_construction_total {F : Type} `{Number F}
    (np_std : list F -> F) (pearsonr : list F -> list F -> result F)
    (target : string) (df : DataFrame F) (min_common top_n min_ratings : Z) :
  (exists res, find_similar_users np_std pearsonr target df min_common top_n = Ok res)
  /\ (exists res, find_similar_items np_std pearsonr target df min_common top_n = Ok res)
  /\ user_ratings_of ([] : DataFrame F) = []
  /\ item_ratings_of ([] : DataFrame F) = []
  /\ qualified_users ([] : DataFrame F) min_ratings = []
  /\ find_similar_users np_std pearsonr target [] min_common top_n = Ok []
  /\ find_similar_items np_std pearsonr target [] min_common top_n = Ok [].
Proof.
  split.
  { destruct (score_user_rounds np_std pearsonr df target min_common min_common
                (user_ratings_of df)) as (a & _ & Ha & _ & _); [lia|].
    unfold find_similar_users, similarity_scores. cbv zeta. rewrite Ha.
    eexists; reflexivity. }
  split.
  { destruct (similar_item_pairs_spec np_std pearsonr target df min_common)
      as (pairs & Hpairs & _).
    unfold find_similar_items. rewrite Hpairs. eexists; reflexivity. }
  repeat split; try reflexivity.
  - unfold find_similar_users, similarity_scores, py_slice_to. cbn.
    destruct (0 <=? top_n)%Z; [apply f_equal, take_nil | reflexivity].
  - unfold find_similar_items, similar_item_pairs, py_slice_to. cbn.
    destruct (0 <=? top_n)%Z; [apply f_equal, take_nil | reflexivity].
Qed.

(** ** Candidate ranking *)

Lemma foldM_total {A B} (f : B -> A -> result B) (l : list A) (acc : B) :
  (forall b x, x ∈ l -> exists b', f b x = Ok b') ->
  exists b', foldM f acc l = Ok b'.
Proof.
  revert acc; induction l as [|x l IH]; intros acc Hf; simpl.
  - eexists; reflexivity.
  - destruct (Hf acc x) as [b' Hb']; [left|]. rewrite Hb'. simpl.
    apply IH. intros b y Hy. apply Hf. right. exact Hy.
Qed.

Lemma mapM_length {A B} (f : A -> result B) (l : list A) (l' : list B) :
  mapM f l = Ok l' -> length l' = length l.
Proof.
  intros Hm. apply mapM_ok in Hm. symmetry. eapply Forall2_length; exact Hm.
Qed.

Lemma filter_none {A} (P : A -> Prop) `{forall x, Decision (P x)} (l : list A) :
  (forall x, x ∈ l -> ~ P x) -> filter P l = [].
Proof.
  induction l as [|x l IH]; intros Hl; [reflexivity|].
  rewrite filter_cons_False by (apply Hl; left).
  apply IH. intros y Hy. apply Hl. right. exact Hy.
Qed.

Section CountFacts.

Lemma count_rows_snoc (users : list string) (u : string) :
  count_rows (users ++ [u]) = od_update 0 S u (count_rows users).
Proof. unfold count_rows. now rewrite fold_left_app. Qed.

Lemma count_rows_NoDup (users : list string) : NoDup (count_rows users).*1.
Proof.
  induction users as [|u users IH] using rev_ind.
  - constructor.
  - rewrite count_rows_snoc. apply od_update_NoDup. exact IH.
Qed.

(** The entry of [u] is the number of its occurrences; a value that does
    not occur has no entry. *)
Lemma count_rows_get (users : list string) (u : string) :
  od_get (count_rows users) u
  = if decide (u ∈ users) then Some (length (filter (fun x => x = u) users)) else None.
Proof.
  induction users as [|v users IH] using rev_ind.
  - cbn. destruct (decide (u ∈ [])) as [Hin|_]; [inversion Hin | reflexivity].
  - rewrite count_rows_snoc, od_get_update, filter_app, length_app.
    destruct (decide (v = u)) as [->|Hne].
    + rewrite IH. rewrite filter_cons_True by reflexivity. cbn [filter length].
      destruct (decide (u ∈ users ++ [u])) as [_|Hn];
        [| exfalso; apply Hn, elem_of_app; right; left].
      f_equal. destruct (decide (u ∈ users)) as [Hin|Hn]; cbn; [lia|].
      assert (Hz : filter (fun x => x = u) users = []).
      { apply filter_none. intros x Hx ->. contradiction. }
      rewrite Hz. reflexivity.
    + rewrite IH. rewrite filter_cons_False by exact Hne. cbn [filter length].
      destruct (decide (u ∈ users)) as [Hin|Hn];
        destruct (decide (u ∈ users ++ [v])) as [Hin'|Hn'].
      * f_equal. cbn. lia.
      * exfalso; apply Hn', elem_of_app; left; exact Hin.
      * apply elem_of_app in Hin' as [Hin'|Hin']; [contradiction|].
        apply list_elem_of_singleton in Hin'. congruence.
      * reflexivity.
Qed.

Lemma elem_of_count_rows (users : list string) (u : string) (c : nat) :
  (u, c) ∈ count_rows users
  <-> u ∈ users /\ c = length (filter (fun x => x = u) users).
Proof.
  split.
  - intros Hin. apply od_get_elem_of in Hin; [| apply count_rows_NoDup].
    rewrite count_rows_get in Hin.
    destruct (decide (u ∈ users)); [| discriminate].
    injection Hin as <-. split; [assumption | reflexivity].
  - intros [Hin ->].
    pose proof (count_rows_get users u) as Hget.
    destruct (decide (u ∈ users)); [| contradiction].
    clear Hin. revert Hget. generalize (length (filter (fun x => x = u) users)).
    generalize (count_rows users). intros d c.
    induction d as [|[k v] d IH]; cbn; [discriminate|].
    destruct (decide (k = u)) as [->|Hne].
    + intros [= ->]. left.
    + intros Hget. right. apply IH. exact Hget.
Qed.

Lemma elem_of_value_counts (users : list string) (u : string) (c : nat) :
  (u, c) ∈ value_counts users
  <-> u ∈ users /\ c = length (filter (fun x => x = u) users).
Proof.
  unfold value_counts. rewrite elem_of_sort_desc. apply elem_of_count_rows.
Qed.

Lemma value_counts_NoDup (users : list string) : NoDup (value_counts users).*1.
Proof.
  unfold value_counts.
  rewrite sort_desc_perm. apply count_rows_NoDup.
Qed.
End CountFacts.

Lemma mapM_total_Forall2 {A B} (f : A -> result B) (R : A -> B -> Prop) (l : list A) :
  (forall x, x ∈ l -> exists y, f x = Ok y /\ R x y) ->
  exists l', mapM f l = Ok l' /\ Forall2 R l l'.
Proof.
  induction l as [|x l IH]; intros Hf; simpl.
  - eexists; split; [reflexivity | constructor].
  - destruct (Hf x) as (y & Hy & HR); [left|]. rewrite Hy. simpl.
    destruct IH as (l' & Hl' & HRl'); [intros z Hz; apply Hf; right; exact Hz|].
    rewrite Hl'. simpl. eexists; split; [reflexivity | constructor; assumption].
Qed.

Lemma length_filter_fmap {A B} `{EqDecision B} (f : A -> B) (b : B) (l : list A) :
  length (filter (fun y => y = b) (f <$> l)) = length (filter (fun x => f x = b) l).
Proof.
  induction l as [|x l IH]; [reflexivity|].
  rewrite fmap_cons, !filter_cons.
  destruct (decide (f x = b)); cbn; rewrite IH; reflexivity.
Qed.

Lemma NoDup_filter_eq_length {B} `{EqDecision B} (b : B) (l : list B) :
  NoDup l -> length (filter (fun y => y = b) l) = if decide (b ∈ l) then 1 else 0.
Proof.
  induction 1 as [|x l Hx Hl IH].
  - cbn. destruct (decide (b ∈ [])) as [Hin|_]; [inversion Hin | reflexivity].
  - rewrite filter_cons. destruct (decide (x = b)) as [->|Hne].
    + cbn [length]. rewrite IH.
      destruct (decide (b ∈ l)); [contradiction|].
      destruct (decide (b ∈ b :: l)) as [_|Hn]; [reflexivity|].
      exfalso; apply Hn; left.
    + rewrite IH.
      destruct (decide (b ∈ l)) as [Hin|Hn];
        destruct (decide (b ∈ x :: l)) as [Hin'|Hn']; try reflexivity.
      * exfalso; apply Hn'; right; exact Hin.
      * apply elem_of_cons in Hin' as [->|Hin']; [congruence | contradiction].
Qed.

Section RankingFacts.
Context {F : Type} `{Number F}.

Lemma value_count_is_rating_count (df : DataFrame F) (u : string) :
  length (filter (fun x => x = u) (user_id <$> df)) = rating_count df u.
Proof. apply length_filter_fmap. Qed.

Lemma rating_count_pos (df : DataFrame F) (u : string) :
  u ∈ user_id <$> df <-> 0 < rating_count df u.
Proof.
  unfold rating_count, rows_of_user. split.
  - intros Hin. apply list_elem_of_fmap in Hin as (r & -> & Hr).
    assert (Hr' : r ∈ filter (fun r' => user_id r' = user_id r) df)
      by (apply list_elem_of_filter; split; [reflexivity | exact Hr]).
    destruct (filter _ df); [inversion Hr' | cbn; lia].
  - intros Hpos. destruct (filter _ df) as [|r l] eqn:Hf; [cbn in Hpos; lia|].
    assert (Hr : r ∈ filter (fun r' => user_id r' = u) df) by (rewrite Hf; left).
    apply list_elem_of_filter in Hr as [<- Hr].
    apply list_elem_of_fmap. exists r. split; [reflexivity | exact Hr].
Qed.

Lemma elem_of_qualified_users (df : DataFrame F) (min_ratings : Z) (u : string) :
  u ∈ qualified_users df min_ratings
  <-> 0 < rating_count df u /\ (min_ratings <= Z.of_nat (rating_count df u))%Z.
Proof.
  unfold qualified_users. rewrite list_elem_of_fmap. split.
  - intros ([u' c] & -> & Hin). cbn.
    apply list_elem_of_filter in Hin as [Hmin Hin]. cbn in Hmin.
    apply elem_of_value_counts in Hin as [Hu ->].
    rewrite value_count_is_rating_count in Hmin.
    split; [apply rating_count_pos; exact Hu | exact Hmin].
  - intros [Hpos Hmin]. exists (u, rating_count df u). split; [reflexivity|].
    apply list_elem_of_filter. split; [exact Hmin|].
    apply elem_of_value_counts. split; [apply rating_count_pos; exact Hpos|].
    symmetry. apply value_count_is_rating_count.
Qed.

Lemma qualified_users_NoDup (df : DataFrame F) (min_ratings : Z) :
  NoDup (qualified_users df min_ratings).
Proof.
  unfold qualified_users.
  apply (sublist_NoDup _ (value_counts (user_id <$> df)).*1);
    [apply value_counts_NoDup | apply fmap_sublist, sublist_filter].
Qed.

Lemma series_labels (u : string) (df : DataFrame F) :
  (ratings_series u df).*1 = business_id <$> rows_of_user u df.
Proof. unfold ratings_series. rewrite <- list_fmap_compose. reflexivity. Qed.

Lemma series_labels_NoDup (u : string) (df : DataFrame F) :
  unique_pairs df -> NoDup (ratings_series u df).*1.
Proof.
  intros Hu. rewrite series_labels.
  apply (NoDup_fmap_1 (fun b => (u, b))).
  rewrite <- list_fmap_compose.
  assert (Hsub : (fun r => (user_id r, business_id r)) <$> rows_of_user u df
                 `sublist_of` (fun r => (user_id r, business_id r)) <$> df)
    by apply fmap_sublist, sublist_filter.
  apply (fun Hnd => sublist_NoDup _ _ Hnd Hsub) in Hu.
  erewrite list_fmap_ext; [exact Hu|].
  intros i r Hr. cbn.
  apply list_elem_of_lookup_2, list_elem_of_filter in Hr as [-> _]. reflexivity.
Qed.

Lemma series_get_ok (series : list (string * F)) (item : string) :
  NoDup series.*1 -> item ∈ series.*1 -> exists x, series_get series item = Ok x.
Proof.
  unfold series_get.
  induction series as [|[k v] series IH]; intros Hnd Hin; [inversion Hin|].
  rewrite fmap_cons in Hnd, Hin. cbn [fst] in Hnd, Hin.
  apply NoDup_cons in Hnd as [Hk Hnd].
  rewrite filter_cons. cbn [fst].
  destruct (decide (k = item)) as [->|Hne].
  - rewrite filter_none; [eexists; reflexivity|].
    intros [k' v'] Hx Heq. cbn in Heq. subst k'.
    apply Hk. apply list_elem_of_fmap. exists (item, v'). split; [reflexivity | exact Hx].
  - apply IH; [exact Hnd|].
    apply elem_of_cons in Hin as [->|Hin]; [congruence | exact Hin].
Qed.

(** Under the invariant a round of the inner loop does not raise. *)
Lemma compare_with_total (df : DataFrame F) (min_common : Z) (min_similarity : F)
    (user : string) (acc : nat * gset string) (other_id : string) :
  unique_pairs df ->
  exists acc',
    compare_with df min_common min_similarity user (ratings_series user df) acc other_id
    = Ok acc'.
Proof.
  intros Hu. unfold compare_with.
  destruct (decide (other_id = user)); [eexists; reflexivity|].
  cbv zeta.
  set (common := index_set (ratings_series user df)
                 ∩ index_set (ratings_series other_id df)).
  destruct (min_common <=? Z.of_nat (size common))%Z; [| eexists; reflexivity].
  destruct (mapM_total (series_get (ratings_series user df)) (elements common))
    as [cu Hcu].
  { intros i Hi. apply elem_of_elements, elem_of_intersection in Hi as [Hi _].
    apply series_get_ok; [apply series_labels_NoDup; exact Hu|].
    apply elem_of_list_to_set in Hi. exact Hi. }
  destruct (mapM_total (series_get (ratings_series other_id df)) (elements common))
    as [co Hco].
  { intros i Hi. apply elem_of_elements, elem_of_intersection in Hi as [_ Hi].
    apply series_get_ok; [apply series_labels_NoDup; exact Hu|].
    apply elem_of_list_to_set in Hi. exact Hi. }
  rewrite Hcu, Hco. cbn [bind].
  destruct (calculate_pearson_returns cu co) as [s Hs].
  { rewrite (mapM_length _ _ _ Hcu), (mapM_length _ _ _ Hco). reflexivity. }
  rewrite Hs. cbn [bind].
  destruct (num_ltb min_similarity s); eexists; reflexivity.
Qed.

Lemma candidate_row_spec (df : DataFrame F) (min_common : Z) (min_similarity : F)
    (qualified : list string) (user : string) :
  unique_pairs df ->
  exists row,
    candidate_row df min_common min_similarity qualified user = Ok row
    /\ rc_user_id row = user
    /\ num_ratings row = rating_count df user.
Proof.
  intros Hu. unfold candidate_row. cbv zeta.
  destruct (foldM_total
              (compare_with df min_common min_similarity user (ratings_series user df))
              qualified (0, ∅)) as [acc Hacc].
  { intros b x _. apply compare_with_total. exact Hu. }
  rewrite Hacc. cbn [bind]. eexists. split; [reflexivity|].
  split; [reflexivity|].
  cbn. unfold ratings_series, rating_count. apply length_fmap.
Qed.

Lemma ranked_rows_spec (df : DataFrame F) (min_ratings min_common : Z)
    (min_similarity : F) :
  unique_pairs df ->
  exists rows,
    ranked_rows df min_ratings min_common min_similarity = Ok rows
    /\ rc_user_id <$> rows = qualified_users df min_ratings
    /\ Forall (fun row => num_ratings row = rating_count df (rc_user_id row)) rows.
Proof.
  intros Hu. unfold ranked_rows. cbv zeta.
  destruct (mapM_total_Forall2
              (candidate_row df min_common min_similarity (qualified_users df min_ratings))
              (fun u row => rc_user_id row = u /\ num_ratings row = rating_count df u)
              (qualified_users df min_ratings)) as (rows & Hrows & Hall).
  { intros u _. apply candidate_row_spec. exact Hu. }
  exists rows. split; [exact Hrows|].
  clear Hrows. induction Hall as [|u row q rows [Hid Hn] Hall [IH1 IH2]].
  - split; [reflexivity | constructor].
  - split.
    + rewrite fmap_cons, Hid, IH1. reflexivity.
    + constructor; [rewrite Hid; exact Hn | exact IH2].
Qed.
End RankingFacts.

(** The rows of the ranking where the function gets as far as building
    them.  On a frame where a (user, business) pair has one row, with
    [min_ratings >= 1]: the loop of [find_ideal_cf_users] appends exactly one
    row for every user with at least [min_ratings] rows and none for a user
    with fewer; the [num_ratings] of a row is the number of rows of its user,
    hence at least [min_ratings].  The frame returned holds the same rows,
    sorted; when no user qualifies, sorting the empty frame raises
    [KeyError]. *)
Lemma rank_candidates_rows {F : Type} `{Number F} (df : DataFrame F)
    (min_ratings min_common : Z) (min_similarity : F) :
  unique_pairs df -> (1 <= min_ratings)%Z ->
  exists rows,
    ranked_rows df min_ratings min_common min_similarity = Ok rows
    /\ (forall u, (min_ratings <= Z.of_nat (rating_count df u))%Z ->
          length (filter (fun row => rc_user_id row = u) rows) = 1)
    /\ (forall u, (Z.of_nat (rating_count df u) < min_ratings)%Z ->
          forall row, row ∈ rows -> rc_user_id row <> u)
    /\ (forall row, row ∈ rows ->
          num_ratings row = rating_count df (rc_user_id row)
          /\ (min_ratings <= Z.of_nat (num_ratings row))%Z)
    /\ match rows with
       | [] => find_ideal_cf_users df min_ratings min_common min_similarity
               = Raise KeyError
       | _ => exists table,
                find_ideal_cf_users df min_ratings min_common min_similarity = Ok table
                /\ table ≡ₚ rows
       end.
Proof.
  intros Hu Hmin.
  destruct (ranked_rows_spec df min_ratings min_common min_similarity Hu)
    as (rows & Hrows & Hids & Hnum).
  assert (Hqual : forall row, row ∈ rows ->
            (min_ratings <= Z.of_nat (rating_count df (rc_user_id row)))%Z).
  { intros row Hrow.
    assert (Hin : rc_user_id row ∈ qualified_users df min_ratings).
    { rewrite <- Hids. apply list_elem_of_fmap. exists row. split; [reflexivity | exact Hrow]. }
    apply elem_of_qualified_users in Hin as [_ Hle]. exact Hle. }
  exists rows. split; [exact Hrows|].
  split.
  { intros u Hle.
    rewrite <- (length_filter_fmap rc_user_id u rows), Hids.
    rewrite NoDup_filter_eq_length by apply qualified_users_NoDup.
    destruct (decide (u ∈ qualified_users df min_ratings)) as [_|Hn]; [reflexivity|].
    exfalso. apply Hn. apply elem_of_qualified_users. split; [lia | exact Hle]. }
  split.
  { intros u Hlt row Hrow Heq. subst u. specialize (Hqual row Hrow). lia. }
  split.
  { intros row Hrow. rewrite Forall_forall in Hnum.
    rewrite (Hnum row Hrow). split; [reflexivity | apply Hqual; exact Hrow]. }
  unfold find_ideal_cf_users. rewrite Hrows. cbn [bind].
  destruct rows as [|row rows]; [reflexivity|].
  eexists. split; [reflexivity | apply sort_desc_perm].
Qed.

Lemma sample_ratings_unique : unique_pairs sample_ratings.
Proof. apply (bool_decide_unpack _). vm_compute. reflexivity. Qed.

Lemma rank_candidates_rows_witness :
  exists rows,
    ranked_rows sample_ratings 2 1 0x1.999999999999ap-4%float = Ok rows
    /\ (forall u, (2 <= Z.of_nat (rating_count sample_ratings u))%Z ->
          length (filter (fun row => rc_user_id row = u) rows) = 1)
    /\ (forall u, (Z.of_nat (rating_count sample_ratings u) < 2)%Z ->
          forall row, row ∈ rows -> rc_user_id row <> u)
    /\ (forall row, row ∈ rows ->
          num_ratings row = rating_count sample_ratings (rc_user_id row)
          /\ (2 <= Z.of_nat (num_ratings row))%Z)
    /\ match rows with
       | [] => find_ideal_cf_users sample_ratings 2 1 0x1.999999999999ap-4%float
               = Raise KeyError
       | _ => exists table,
                find_ideal_cf_users sample_ratings 2 1 0x1.999999999999ap-4%float = Ok table
                /\ table ≡ₚ rows
       end.
Proof.
  apply (rank_candidates_rows sample_ratings 2 1 0x1.999999999999ap-4%float).
  - exact sample_ratings_unique.
  - lia.
Defined.

(** The scenario, run: D, with one rating, has no row; A and B, each
    similar to the other, come first. *)
Example rank_candidates_run :
  find_ideal_cf_users sample_ratings 2 1 0x1.999999999999ap-4%float
  = Ok [ {| rc_user_id := "A"; num_ratings := 2; similar_users := 1;
            potential_recommendations := 0 |};
         {| rc_user_id := "B"; num_ratings := 2; similar_users := 1;
            potential_recommendations := 0 |};
         {| rc_user_id := "C"; num_ratings := 2; similar_users := 0;
            potential_recommendations := 0 |} ].
Proof. vm_compute. reflexivity. Qed.

(** When no user has [min_ratings] rows, and so on the empty frame,
    [find_ideal_cf_users] ends in the [KeyError] of [sort_values]. *)
Example rank_candidates_nobody :
  find_ideal_cf_users sample_ratings 5 1 0x1.999999999999ap-4%float = Raise KeyError
  /\ find_ideal_cf_users ([] : DataFrame float) 5 1 0x1.999999999999ap-4%float
     = Raise KeyError.
Proof. split; vm_compute; reflexivity. Qed.

(** C9, at a failing input.  The claim: for every dataset and
    [minRatings >= 1] the ranking has exactly one row per user with at
    least [minRatings] ratings and none for the others, hence no row at all
    when nobody qualifies.  On the frame of the scenarios with
    [min_ratings = 5], the value that [__main__] passes, every user has
    fewer than 5 ratings, the loop appends no row, and
    [find_ideal_cf_users] does not return the empty ranking: sorting the
    frame without columns raises [KeyError]. *)
Theorem rank_candidates_no_qualified_user :
  Forall (fun u => rating_count sample_ratings u < 5) (user_id <$> sample_ratings)
  /\ qualified_users sample_ratings 5 = []
  /\ ranked_rows sample_ratings 5 1 0x1.999999999999ap-4%float = Ok []
  /\ find_ideal_cf_users sample_ratings 5 1 0x1.999999999999ap-4%float = Raise KeyError.
Proof.
  split; [| split; [| split]]; try (vm_compute; reflexivity).
  apply (bool_decide_unpack _). vm_compute. reflexivity.
Qed.

(** * Further properties of the searches and of the ranking *)

(** ** What a round appends, in detail *)

Lemma mapM_app {A B} (f : A -> result B) (l1 l2 : list A) :
  mapM f (l1 ++ l2)
  = let! a := mapM f l1 in let! b := mapM f l2 in Ok (a ++ b).
Proof.
  induction l1 as [|x l1 IH]; cbn [mapM app].
  - destruct (mapM f l2); reflexivity.
  - destruct (f x); cbn [bind]; [| reflexivity].
    rewrite IH. destruct (mapM f l1); cbn [bind]; [| reflexivity].
    destruct (mapM f l2); reflexivity.
Qed.

Section KeysFacts.
Context {F : Type}.

(** The keys of the by-user mapping are the users of the rows. *)
Lemma elem_of_user_ratings_keys (df : DataFrame F) (u : string) :
  u ∈ (user_ratings_of df).*1 <-> u ∈ user_id <$> df.
Proof.
  induction df as [|r df IH] using rev_ind.
  - reflexivity.
  - rewrite user_ratings_of_snoc, od_update_keys, fmap_app, elem_of_app.
    cbn [fmap list_fmap]. rewrite list_elem_of_singleton, <- IH.
    destruct (decide (user_id r ∈ (user_ratings_of df).*1)) as [Hin|Hn].
    + split; [intros Hu; left; exact Hu | intros [Hu| ->]; assumption].
    + rewrite elem_of_app, list_elem_of_singleton. reflexivity.
Qed.

(** The keys of the by-item mapping are the businesses of the rows. *)
Lemma elem_of_item_ratings_keys (df : DataFrame F) (i : string) :
  i ∈ (item_ratings_of df).*1 <-> i ∈ business_id <$> df.
Proof.
  induction df as [|r df IH] using rev_ind.
  - reflexivity.
  - rewrite item_ratings_of_snoc, od_update_keys, fmap_app, elem_of_app.
    cbn [fmap list_fmap]. rewrite list_elem_of_singleton, <- IH.
    destruct (decide (business_id r ∈ (item_ratings_of df).*1)) as [Hin|Hn].
    + split; [intros Hu; left; exact Hu | intros [Hu| ->]; assumption].
    + rewrite elem_of_app, list_elem_of_singleton. reflexivity.
Qed.

Lemma od_get_None_keys {V} (d : odict V) (k : string) :
  od_get d k = None <-> k ∉ d.*1.
Proof.
  induction d as [|[k0 v] d IH]; cbn [od_get].
  - split; [intros _ Hin; inversion Hin | reflexivity].
  - rewrite fmap_cons, not_elem_of_cons. cbn [fst].
    destruct (decide (k0 = k)) as [->|Hne].
    + split; [discriminate | intros [Hk _]; congruence].
    + rewrite IH. split; [intros Hk; split; [congruence | exact Hk] | intros [_ Hk]; exact Hk].
Qed.

Lemma rows_of_absent_user (df : DataFrame F) (u : string) :
  u ∉ user_id <$> df -> rows_of_user u df = [].
Proof.
  intros Hn. unfold rows_of_user. apply filter_none.
  intros r Hr Hu. apply Hn. apply list_elem_of_fmap.
  exists r. split; [symmetry; exact Hu | exact Hr].
Qed.
End KeysFacts.

Lemma appended_items_cons_Some {A} (x : A) (rounds : list (option A)) :
  appended_items (Some x :: rounds) = x :: appended_items rounds.
Proof. reflexivity. Qed.

Lemma appended_items_cons_None {A} (rounds : list (option A)) :
  appended_items (None :: rounds) = appended_items rounds.
Proof. reflexivity. Qed.

Section UserRounds.
Context {F : Type} `{Number F}.
Variable np_std : list F -> F.
Variable pearsonr : list F -> list F -> result F.

(** The vectors of a round have one value per common item. *)
Lemma score_user_detail (df : DataFrame F) (target : string)
    (other : string * gmap string F) :
  let common : gset string :=
    list_to_set (business_id <$> rows_of_user target df) ∩ dom other.2 in
  exists tv ov,
    length tv = size common /\ length ov = size common
    /\ forall m,
        score_user np_std pearsonr (user_ratings_of df) target
          (list_to_set (business_id <$> rows_of_user target df)) m other
        = Ok (if decide (other.1 = target) then None
              else if (m <=? Z.of_nat (size common))%Z
                   then Some (other.1,
                              calculate_pearson_correlation np_std pearsonr tv ov,
                              size common)
                   else None).
Proof.
  intros common.
  destruct (mapM_total (get2 (user_ratings_of df) target) (elements common))
    as [tv Htv].
  { intros i Hi. apply elem_of_elements, elem_of_intersection in Hi as [Hi _].
    apply get2_ok. rewrite dom_user_ratings_of. exact Hi. }
  destruct (mapM_total (get1 other.2) (elements common)) as [ov Hov].
  { intros i Hi. apply elem_of_elements, elem_of_intersection in Hi as [_ Hi].
    apply get1_ok. exact Hi. }
  exists tv, ov.
  split; [rewrite (mapM_length _ _ _ Htv); reflexivity|].
  split; [rewrite (mapM_length _ _ _ Hov); reflexivity|].
  intros m. unfold score_user. fold common.
  destruct (decide (other.1 = target)); [reflexivity|].
  cbv zeta. fold common.
  destruct (m <=? Z.of_nat (size common))%Z; [| reflexivity].
  rewrite Htv, Hov. reflexivity.
Qed.

Lemma score_user_rounds_detail (df : DataFrame F) (target : string) (m : Z)
    (l : list (string * gmap string F)) :
  exists a,
    mapM (score_user np_std pearsonr (user_ratings_of df) target
            (list_to_set (business_id <$> rows_of_user target df)) m) l = Ok a
    /\ Forall2 (round_appends df target m) l a.
Proof.
  apply mapM_total_Forall2. intros o _.
  destruct (score_user_detail df target o) as (tv & ov & Htv & Hov & Hs).
  cbv zeta in *. eexists. split; [apply Hs|].
  unfold round_appends. cbv zeta.
  destruct (decide (o.1 = target)) as [Heq|Hne].
  - destruct (decide (o.1 <> target /\ _)) as [[Hn _]|_]; [contradiction | reflexivity].
  - destruct (m <=? _)%Z eqn:Hle.
    + apply Z.leb_le in Hle.
      destruct (decide (o.1 <> target /\ _)) as [_|Hn]; [| exfalso; apply Hn; split; assumption].
      eexists. split; [reflexivity|]. split.
      * intros Hsmall. apply calculate_pearson_correlation_short. lia.
      * destruct (calculate_pearson_correlation_value np_std pearsonr tv ov)
          as [Hz|[_ Hnan]]; [left | right]; assumption.
    + apply Z.leb_gt in Hle.
      destruct (decide (o.1 <> target /\ _)) as [[_ Hle']|_]; [lia | reflexivity].
Qed.

Lemma round_appends_users (df : DataFrame F) (target : string) (m : Z)
    (l : list (string * gmap string F)) (a : list (option (string * F * nat))) :
  Forall2 (round_appends df target m) l a ->
  (fun x => x.1.1) <$> appended_items a
  = fst <$> filter (fun o =>
                      o.1 <> target
                      /\ (m <= Z.of_nat (size (list_to_set (business_id <$> rows_of_user target df)
                                                ∩ dom o.2)))%Z) l.
Proof.
  induction 1 as [|o r l a Hr Hall IH]; [reflexivity|].
  rewrite filter_cons.
  unfold round_appends in Hr. cbv zeta in Hr.
  destruct (decide (o.1 <> target /\ _)) as [Hp|Hp].
  - destruct Hr as (s & -> & _ & _).
    rewrite appended_items_cons_Some, !fmap_cons, IH. reflexivity.
  - subst r. rewrite appended_items_cons_None. exact IH.
Qed.
End UserRounds.

(** ** [find_similar_users]: who is scored, and how *)

(** X1.  The users of the tuples that [find_similar_users] appends to
    [similarity_scores] are, each once, the users of the frame other than
    the target who share at least [min_common_ratings] items with it. *)
Theorem similarity_scores_users {F : Type} `{Number F}
    (np_std : list F -> F) (pearsonr : list F -> list F -> result F)
    (target : string) (df : DataFrame F) (m : Z) :
  exists scores,
    similarity_scores np_std pearsonr target df m = Ok scores
    /\ NoDup ((fun x => x.1.1) <$> scores)
    /\ forall u,
         u ∈ (fun x => x.1.1) <$> scores
         <-> u ∈ user_id <$> df /\ u <> target
             /\ (m <= Z.of_nat (size (common_items_of df target u)))%Z.
Proof.
  destruct (score_user_rounds_detail np_std pearsonr df target m (user_ratings_of df))
    as (a & Ha & Hall).
  exists (appended_items a).
  split; [unfold similarity_scores; cbv zeta; rewrite Ha; reflexivity|].
  rewrite (round_appends_users df target m _ _ Hall).
  split.
  { apply (sublist_NoDup _ (user_ratings_of df).*1);
      [apply user_ratings_of_NoDup | apply fmap_sublist, sublist_filter]. }
  intros u. rewrite list_elem_of_fmap. split.
  - intros ([k v] & -> & Hin).
    apply list_elem_of_filter in Hin as [[Hne Hle] Hin]. cbn [fst snd] in *.
    assert (Hget : od_get (user_ratings_of df) k = Some v)
      by (apply od_get_elem_of; [apply user_ratings_of_NoDup | exact Hin]).
    split.
    { apply elem_of_user_ratings_keys, list_elem_of_fmap.
      exists (k, v). split; [reflexivity | exact Hin]. }
    split; [exact Hne|].
    unfold common_items_of. rewrite Hget. exact Hle.
  - intros (Hu & Hne & Hle).
    apply elem_of_user_ratings_keys, list_elem_of_fmap in Hu as ([k v] & -> & Hin).
    cbn [fst] in *.
    assert (Hget : od_get (user_ratings_of df) k = Some v)
      by (apply od_get_elem_of; [apply user_ratings_of_NoDup | exact Hin]).
    exists (k, v). split; [reflexivity|].
    apply list_elem_of_filter. split; [| exact Hin]. cbn [fst snd].
    split; [exact Hne|].
    unfold common_items_of in Hle. rewrite Hget in Hle. exact Hle.
Qed.

(** X2.  A user who shares fewer than two items with the target is scored
    0 by [find_similar_users]: the correlation of fewer than two points is
    not computed. *)
Theorem single_common_item_scores_zero {F : Type} `{Number F}
    (np_std : list F -> F) (pearsonr : list F -> list F -> result F)
    (target : string) (df : DataFrame F) (m top_n : Z) :
  exists res,
    find_similar_users np_std pearsonr target df m top_n = Ok res
    /\ forall x, x ∈ res -> x.2 < 2 -> x.1.2 = num_zero.
Proof.
  destruct (score_user_rounds_detail np_std pearsonr df target m (user_ratings_of df))
    as (a & Ha & Hall).
  unfold find_similar_users, similarity_scores. cbv zeta. rewrite Ha. cbn [bind].
  eexists. split; [reflexivity|].
  intros x Hx Hsmall.
  apply elem_of_py_slice_to, elem_of_sort_desc, elem_of_appended_items in Hx.
  apply list_elem_of_lookup in Hx as [i Hi].
  destruct (Forall2_lookup_r _ _ _ _ _ Hall Hi) as (o & _ & Hr).
  unfold round_appends in Hr. cbv zeta in Hr.
  destruct (decide (o.1 <> target /\ _)); [| discriminate].
  destruct Hr as (s & [= ->] & Hzero & _). cbn in *. apply Hzero. exact Hsmall.
Qed.

(** X3.  A target user without rows: [find_similar_items] returns the empty
    list, and so does [find_similar_users] when [min_common_ratings] is at
    least 1. *)
Theorem absent_target_no_results {F : Type} `{Number F}
    (np_std : list F -> F) (pearsonr : list F -> list F -> result F)
    (target : string) (df : DataFrame F) (m m' top_n : Z) :
  target ∉ user_id <$> df -> (1 <= m)%Z ->
  find_similar_users np_std pearsonr target df m top_n = Ok []
  /\ find_similar_items np_std pearsonr target df m' top_n = Ok [].
Proof.
  intros Habs Hm.
  assert (Hrows : rows_of_user target df = []) by (apply rows_of_absent_user; exact Habs).
  assert (Hslice : forall A, py_slice_to top_n (@nil A) = []).
  { intros A. unfold py_slice_to. destruct (0 <=? top_n)%Z; apply take_nil. }
  split.
  - destruct (score_user_rounds_detail np_std pearsonr df target m (user_ratings_of df))
      as (a & Ha & Hall).
    unfold find_similar_users, similarity_scores. cbv zeta. rewrite Ha. cbn [bind].
    pose proof (round_appends_users df target m _ _ Hall) as Husers.
    rewrite filter_none in Husers.
    + apply fmap_nil_inv in Husers. rewrite Husers. cbn. rewrite Hslice. reflexivity.
    + intros o _ [_ Hle]. rewrite Hrows in Hle.
      rewrite fmap_nil, list_to_set_nil, intersection_empty_l_L, size_empty in Hle. lia.
  - unfold find_similar_items, similar_item_pairs. cbv zeta.
    rewrite Hrows. cbn. rewrite Hslice. reflexivity.
Qed.

Lemma absent_target_no_results_witness :
  find_similar_users np_std_ref pearsonr_ref "Z" sample_ratings 1 10 = Ok []
  /\ find_similar_items np_std_ref pearsonr_ref "Z" sample_ratings 1 10 = Ok [].
Proof.
  apply (absent_target_no_results np_std_ref pearsonr_ref "Z" sample_ratings 1 1 10).
  - apply (bool_decide_unpack _). vm_compute. reflexivity.
  - lia.
Defined.

(** X4.  Both searches return the first [top_n] tuples of the sorted list:
    [min(top_n, n)] of the [n] appended tuples when [top_n >= 0], and all
    but the last [-top_n] when [top_n] is negative. *)
Theorem top_n_bounds {F : Type} `{Number F}
    (np_std : list F -> F) (pearsonr : list F -> list F -> result F)
    (target : string) (df : DataFrame F) (m top_n : Z) :
  (exists scores res,
      similarity_scores np_std pearsonr target df m = Ok scores
      /\ find_similar_users np_std pearsonr target df m top_n = Ok res
      /\ length res = (if (0 <=? top_n)%Z then Nat.min (Z.to_nat top_n) (length scores)
                       else length scores - Z.to_nat (- top_n)))
  /\ (exists pairs res,
        similar_item_pairs np_std pearsonr target df m = Ok pairs
        /\ find_similar_items np_std pearsonr target df m top_n = Ok res
        /\ length res = (if (0 <=? top_n)%Z then Nat.min (Z.to_nat top_n) (length pairs)
                         else length pairs - Z.to_nat (- top_n))).
Proof.
  split.
  - destruct (score_user_rounds np_std pearsonr df target m m (user_ratings_of df))
      as (a & _ & Ha & _ & _); [lia|].
    assert (Hs : similarity_scores np_std pearsonr target df m = Ok (appended_items a))
      by (unfold similarity_scores; cbv zeta; rewrite Ha; reflexivity).
    exists (appended_items a). eexists. split; [exact Hs|].
    unfold find_similar_users. rewrite Hs. cbn [bind]. split; [reflexivity|].
    rewrite py_slice_to_length, sort_desc_length. reflexivity.
  - destruct (similar_item_pairs_spec np_std pearsonr target df m) as (pairs & Hp & _).
    exists pairs. eexists. split; [exact Hp|].
    unfold find_similar_items. rewrite Hp. cbn [bind]. split; [reflexivity|].
    rewrite py_slice_to_length, sort_desc_length. reflexivity.
Qed.

(** ** [find_similar_items]: what a returned pair says *)

Section ItemRounds.
Context {F : Type} `{Number F}.
Variable np_std : list F -> F.
Variable pearsonr : list F -> list F -> result F.

Lemma score_item_detail (df : DataFrame F) (target_item : string) (m : Z)
    (other : string * gmap string F) :
  (other.1, other.2) ∈ item_ratings_of df ->
  exists o,
    score_item np_std pearsonr (item_ratings_of df) target_item
      (dom (default ∅ (od_get (item_ratings_of df) target_item))) m other = Ok o
    /\ forall x, o = Some x ->
         x.1.1.1 = target_item
         /\ x.1.1.2 ∈ business_id <$> df
         /\ x.1.1.2 <> target_item
         /\ x.2 = size (common_users_of df target_item x.1.1.2)
         /\ (m <= Z.of_nat x.2)%Z
         /\ num_ltb num_zero x.1.2 = true
         /\ (x.2 < 2 -> x.1.2 = num_zero)
         /\ (x.1.2 = num_zero \/ num_isnan x.1.2 = false).
Proof.
  intros Hin.
  set (users := dom (default ∅ (od_get (item_ratings_of df) target_item)) : gset string).
  set (common := users ∩ dom other.2).
  destruct (mapM_total (get2 (item_ratings_of df) target_item) (elements common))
    as [tv Htv].
  { intros i Hi. apply elem_of_elements, elem_of_intersection in Hi as [Hi _].
    apply get2_ok. exact Hi. }
  destruct (mapM_total (get1 other.2) (elements common)) as [ov Hov].
  { intros i Hi. apply elem_of_elements, elem_of_intersection in Hi as [_ Hi].
    apply get1_ok. exact Hi. }
  unfold score_item. fold common.
  destruct (decide (other.1 = target_item)) as [|Hne];
    [eexists; split; [reflexivity | discriminate] |].
  cbv zeta. fold common.
  destruct (m <=? Z.of_nat (size common))%Z eqn:Hle;
    [| eexists; split; [reflexivity | discriminate]].
  rewrite Htv, Hov. cbn [bind].
  destruct (num_ltb num_zero (calculate_pearson_correlation np_std pearsonr tv ov))
    eqn:Hpos; eexists; (split; [reflexivity|]); [| discriminate].
  intros x [= <-]. cbn [fst snd].
  assert (Hget : od_get (item_ratings_of df) other.1 = Some other.2)
    by (apply od_get_elem_of; [apply item_ratings_of_NoDup | exact Hin]).
  split; [reflexivity|].
  split.
  { apply elem_of_item_ratings_keys, list_elem_of_fmap.
    exists (other.1, other.2). split; [reflexivity | exact Hin]. }
  split; [exact Hne|].
  split; [unfold common_users_of; rewrite Hget; reflexivity|].
  split; [apply Z.leb_le; exact Hle|].
  split; [exact Hpos|].
  split.
  - intros Hsmall. apply calculate_pearson_correlation_short.
    rewrite (mapM_length _ _ _ Htv). fold (size common). exact Hsmall.
  - destruct (calculate_pearson_correlation_value np_std pearsonr tv ov)
      as [Hz|[_ Hnan]]; [left | right]; assumption.
Qed.

Lemma similar_item_pairs_detail (target : string) (df : DataFrame F) (m : Z) :
  exists pairs,
    similar_item_pairs np_std pearsonr target df m = Ok pairs
    /\ forall x, x ∈ pairs ->
         x.1.1.1 ∈ business_id <$> rows_of_user target df
         /\ x.1.1.2 ∈ business_id <$> df
         /\ x.1.1.2 <> x.1.1.1
         /\ x.2 = size (common_users_of df x.1.1.1 x.1.1.2)
         /\ (m <= Z.of_nat x.2)%Z
         /\ num_ltb num_zero x.1.2 = true
         /\ (x.2 < 2 -> x.1.2 = num_zero)
         /\ (x.1.2 = num_zero \/ num_isnan x.1.2 = false).
Proof.
  unfold similar_item_pairs. cbv zeta.
  set (ok := fun (i : string) (x : string * string * F * nat) =>
         x.1.1.1 = i
         /\ x.1.1.2 ∈ business_id <$> df
         /\ x.1.1.2 <> i
         /\ x.2 = size (common_users_of df i x.1.1.2)
         /\ (m <= Z.of_nat x.2)%Z
         /\ num_ltb num_zero x.1.2 = true
         /\ (x.2 < 2 -> x.1.2 = num_zero)
         /\ (x.1.2 = num_zero \/ num_isnan x.1.2 = false)).
  set (body := fun target_item : string => _).
  destruct (mapM_total_Forall body
              (Forall (fun x => exists i, i ∈ business_id <$> rows_of_user target df /\ ok i x))
              (business_id <$> rows_of_user target df))
    as (per_item & Hper & Hall).
  { intros target_item Hti. unfold body.
    destruct (mapM_total_Forall
                (score_item np_std pearsonr (item_ratings_of df) target_item
                   (dom (default ∅ (od_get (item_ratings_of df) target_item))) m)
                (fun o => forall x, o = Some x -> ok target_item x)
                (item_ratings_of df))
      as (appended & Happ & Hok).
    { intros [k v] Hin. apply (score_item_detail df target_item m (k, v)). exact Hin. }
    rewrite Happ. cbn [bind]. eexists; split; [reflexivity|].
    apply Forall_forall. intros x Hx.
    apply elem_of_appended_items in Hx.
    rewrite Forall_forall in Hok. exists target_item.
    split; [exact Hti | exact (Hok _ Hx x eq_refl)]. }
  rewrite Hper. cbn [bind]. eexists; split; [reflexivity|].
  intros x Hx.
  apply list_elem_of_In, in_concat in Hx as (l & Hl & Hx).
  apply list_elem_of_In in Hl, Hx.
  rewrite Forall_forall in Hall. specialize (Hall l Hl).
  rewrite Forall_forall in Hall.
  destruct (Hall x Hx) as (i & Hi & Hxi & Hj & Hne & Hc & Hle & Hpos & Hzero & Hnan).
  subst i. repeat split; assumption.
Qed.
End ItemRounds.

(** X5.  Every tuple [(i, j, s, c)] that [find_similar_items] returns pairs
    an item [i] rated by the target user with another item [j] of the
    frame, [j <> i]; [c] is the number of users who rated both, and it is at
    least [min_common_users]. *)
Theorem similar_items_tuples {F : Type} `{Number F}
    (np_std : list F -> F) (pearsonr : list F -> list F -> result F)
    (target : string) (df : DataFrame F) (m top_n : Z) :
  exists res,
    find_similar_items np_std pearsonr target df m top_n = Ok res
    /\ forall x, x ∈ res ->
         x.1.1.1 ∈ business_id <$> rows_of_user target df
         /\ x.1.1.2 ∈ business_id <$> df
         /\ x.1.1.2 <> x.1.1.1
         /\ x.2 = size (common_users_of df x.1.1.1 x.1.1.2)
         /\ (m <= Z.of_nat x.2)%Z.
Proof.
  destruct (similar_item_pairs_detail np_std pearsonr target df m)
    as (pairs & Hpairs & Hok).
  unfold find_similar_items. rewrite Hpairs. cbn [bind].
  eexists; split; [reflexivity|].
  intros x Hx. apply elem_of_py_slice_to, elem_of_sort_desc in Hx.
  destruct (Hok x Hx) as (H1 & H2 & H3 & H4 & H5 & _).
  repeat split; assumption.
Qed.

(** X6.  Whatever [min_common_users] is, [find_similar_items] returns no
    pair that rests on fewer than two common users: such a pair is scored 0,
    and 0 is not positive. *)
Theorem similar_items_two_common_users {F : Type} `{Number F}
    (np_std : list F -> F) (pearsonr : list F -> list F -> result F)
    (target : string) (df : DataFrame F) (m top_n : Z) :
  num_ltb num_zero num_zero = false ->
  exists res,
    find_similar_items np_std pearsonr target df m top_n = Ok res
    /\ forall x, x ∈ res -> 2 <= x.2.
Proof.
  intros Hirr.
  destruct (similar_item_pairs_detail np_std pearsonr target df m)
    as (pairs & Hpairs & Hok).
  unfold find_similar_items. rewrite Hpairs. cbn [bind].
  eexists; split; [reflexivity|].
  intros x Hx. apply elem_of_py_slice_to, elem_of_sort_desc in Hx.
  destruct (Hok x Hx) as (_ & _ & _ & _ & _ & Hpos & Hzero & _).
  destruct (Nat.lt_ge_cases x.2 2) as [Hsmall|Hbig]; [| exact Hbig].
  rewrite (Hzero Hsmall), Hirr in Hpos. discriminate.
Qed.

Lemma similar_items_two_common_users_witness :
  exists res,
    find_similar_items np_std_ref pearsonr_ref "A" sample_ratings 1 10 = Ok res
    /\ forall x, x ∈ res -> 2 <= x.2.
Proof.
  apply (similar_items_two_common_users np_std_ref pearsonr_ref "A" sample_ratings 1 10).
  vm_compute. reflexivity.
Defined.

(** ** [find_ideal_cf_users]: what a row counts *)

Section RowFacts.
Context {F : Type} `{Number F}.

(** A round of the inner loop leaves the two statistics alone or counts one
    more similar user, another one, and adds the items that user rated and
    the candidate did not. *)
Lemma compare_with_step (df : DataFrame F) (min_common : Z) (min_similarity : F)
    (user : string) (series : list (string * F)) (acc acc' : nat * gset string)
    (other_id : string) :
  compare_with df min_common min_similarity user series acc other_id = Ok acc' ->
  acc' = acc
  \/ (other_id <> user
      /\ acc'.1 = S acc.1
      /\ acc'.2 = acc.2 ∪ (index_set (ratings_series other_id df) ∖ index_set series)).
Proof.
  unfold compare_with.
  destruct (decide (other_id = user)) as [|Hne]; [intros [= <-]; left; reflexivity|].
  cbv zeta.
  destruct (_ <=? _)%Z; [| intros [= <-]; left; reflexivity].
  destruct (mapM _ _) as [cu|e]; cbn [bind]; [| discriminate].
  destruct (mapM _ _) as [co|e]; cbn [bind]; [| discriminate].
  destruct (calculate_pearson cu co) as [s|e]; cbn [bind]; [| discriminate].
  destruct (num_ltb min_similarity s); intros [= <-]; [right | left; reflexivity].
  split; [exact Hne|]. split; reflexivity.
Qed.

Lemma index_set_items (u : string) (df : DataFrame F) :
  index_set (ratings_series u df) ⊆ list_to_set (business_id <$> df).
Proof.
  unfold index_set. rewrite series_labels. intros i Hi.
  apply elem_of_list_to_set in Hi. apply elem_of_list_to_set.
  apply list_elem_of_fmap in Hi as (r & -> & Hr).
  apply list_elem_of_filter in Hr as [_ Hr].
  apply list_elem_of_fmap. exists r. split; [reflexivity | exact Hr].
Qed.

Lemma compare_with_fold (df : DataFrame F) (min_common : Z) (min_similarity : F)
    (user : string) (series : list (string * F)) (l : list string)
    (acc acc' : nat * gset string) :
  foldM (compare_with df min_common min_similarity user series) acc l = Ok acc' ->
  acc'.1 <= acc.1 + length (filter (fun o => o <> user) l)
  /\ (acc.2 ## index_set series -> acc'.2 ## index_set series)
  /\ (acc.2 ⊆ list_to_set (business_id <$> df)
      -> acc'.2 ⊆ list_to_set (business_id <$> df))
  /\ ((acc.1 = 0 -> acc.2 = ∅) -> acc'.1 = 0 -> acc'.2 = ∅).
Proof.
  revert acc; induction l as [|o l IH]; intros acc; cbn [foldM].
  - intros [= <-]. repeat split; auto. cbn. lia.
  - destruct (compare_with _ _ _ _ _ acc o) as [acc1|e] eqn:Hstep; cbn [bind];
      [| discriminate].
    intros Hfold. destruct (IH acc1 Hfold) as (Hn & Hdisj & Hsub & Hzero).
    apply compare_with_step in Hstep as [->|(Hne & H1 & H2)].
    + rewrite filter_cons. repeat split; try assumption.
      destruct (decide (o <> user)); cbn [length]; lia.
    + rewrite filter_cons_True by exact Hne. cbn [length].
      pose proof (index_set_items o df) as Hitems.
      split; [lia|]. split; [| split].
      * intros Hd. apply Hdisj. rewrite H2. intros x Hx Hx'.
        apply elem_of_union in Hx as [Hx|Hx]; [exact (Hd x Hx Hx')|].
        apply elem_of_difference in Hx as [_ Hx]. contradiction.
      * intros Hs. apply Hsub. rewrite H2. intros x Hx.
        apply elem_of_union in Hx as [Hx|Hx]; [exact (Hs x Hx)|].
        apply elem_of_difference in Hx as [Hx _]. exact (Hitems x Hx).
      * intros _. apply Hzero. intros Hz. lia.
Qed.

Lemma length_filter_ne (u : string) (l : list string) :
  NoDup l -> u ∈ l -> S (length (filter (fun o => o <> u) l)) = length l.
Proof.
  intros Hnd Hin.
  pose proof (filter_app_complement (fun o => o = u) l) as Hperm.
  apply Permutation_length in Hperm. rewrite length_app in Hperm.
  rewrite NoDup_filter_eq_length in Hperm by exact Hnd.
  destruct (decide (u ∈ l)); [| contradiction]. lia.
Qed.

End RowFacts.

(** X7.  On a frame where a (user, business) pair has one row, every row of
    [find_ideal_cf_users] counts fewer similar users than there are rows; a
    row without similar users has no potential recommendation; and the
    potential recommendations of a row, being items its user has not rated,
    number at most the items of the frame less the user's own. *)
Theorem candidate_row_bounds {F : Type} `{Number F} (df : DataFrame F)
    (min_ratings min_common : Z) (min_similarity : F) :
  unique_pairs df ->
  exists rows,
    ranked_rows df min_ratings min_common min_similarity = Ok rows
    /\ forall row, row ∈ rows ->
         similar_users row < length rows
         /\ (similar_users row = 0 -> potential_recommendations row = 0)
         /\ potential_recommendations row + num_ratings row
            <= size (list_to_set (business_id <$> df) : gset string).
Proof.
  intros Hu.
  destruct (ranked_rows_spec df min_ratings min_common min_similarity Hu)
    as (rows & Hrows & Hids & _).
  exists rows. split; [exact Hrows|].
  intros row Hrow.
  unfold ranked_rows in Hrows. cbv zeta in Hrows.
  pose proof (mapM_length _ _ _ Hrows) as Hlen.
  apply mapM_ok in Hrows.
  apply list_elem_of_lookup in Hrow as [i Hi].
  destruct (Forall2_lookup_r _ _ _ _ _ Hrows Hi) as (u & Hui & Hrow).
  unfold candidate_row in Hrow. cbv zeta in Hrow.
  destruct (foldM _ _ _) as [acc|e] eqn:Hfold; cbn [bind] in Hrow; [| discriminate].
  injection Hrow as <-. cbn [similar_users potential_recommendations num_ratings].
  apply compare_with_fold in Hfold as (Hn & Hdisj & Hsub & Hzero).
  cbn [fst snd] in *.
  assert (Hq : u ∈ qualified_users df min_ratings)
    by (apply list_elem_of_lookup; exists i; exact Hui).
  pose proof (length_filter_ne u _ (qualified_users_NoDup df min_ratings) Hq) as Hothers.
  split; [lia|].
  split.
  { intros Hz. rewrite (Hzero (fun _ => eq_refl) Hz). apply size_empty. }
  specialize (Hdisj (disjoint_empty_l _)). specialize (Hsub (empty_subseteq _)).
  assert (Hlabels : length (ratings_series u df) = size (index_set (ratings_series u df))).
  { unfold index_set. rewrite size_list_to_set by (apply series_labels_NoDup; exact Hu).
    rewrite length_fmap. reflexivity. }
  rewrite Hlabels, <- size_union by exact Hdisj.
  apply subseteq_size, union_subseteq.
  split; [exact Hsub | apply index_set_items].
Qed.

Lemma candidate_row_bounds_witness :
  exists rows,
    ranked_rows sample_ratings 2 1 0x1.999999999999ap-4%float = Ok rows
    /\ forall row, row ∈ rows ->
         similar_users row < length rows
         /\ (similar_users row = 0 -> potential_recommendations row = 0)
         /\ potential_recommendations row + num_ratings row
            <= size (list_to_set (business_id <$> sample_ratings) : gset string).
Proof.
  apply (candidate_row_bounds sample_ratings 2 1 0x1.999999999999ap-4%float).
  exact sample_ratings_unique.
Defined.

(** ** Sorting *)

Section SortedFacts.
Context {A : Type} (lt : A -> A -> bool) (good : A -> Prop).
Hypothesis lt_asym : forall x y, good x -> good y -> lt x y = true -> lt y x = false.
Hypothesis lt_negtrans : forall x y z, good x -> good y -> good z ->
  lt x y = false -> lt y z = false -> lt x z = false.

Lemma insert_desc_sorted (x : A) (l : list A) :
  good x -> Forall good l ->
  StronglySorted (fun a b => lt a b = false) l ->
  StronglySorted (fun a b => lt a b = false) (insert_desc lt x l).
Proof.
  intros Hx Hl Hs. induction Hs as [|y l Hs IH Hy]; cbn [insert_desc].
  - repeat constructor.
  - apply Forall_cons in Hl as [Hgy Hl].
    destruct (lt x y) eqn:Hxy.
    + constructor; [apply IH; exact Hl|].
      apply Forall_forall. intros z Hz.
      rewrite insert_desc_perm in Hz. apply elem_of_cons in Hz as [->|Hz].
      * apply lt_asym; assumption.
      * rewrite Forall_forall in Hy. apply Hy. exact Hz.
    + constructor; [constructor; assumption|].
      constructor; [exact Hxy|].
      apply Forall_forall. intros z Hz.
      rewrite Forall_forall in Hy, Hl.
      apply (lt_negtrans x y z); auto.
Qed.

Lemma sort_desc_sorted (l : list A) :
  Forall good l -> StronglySorted (fun a b => lt a b = false) (sort_desc lt l).
Proof.
  induction l as [|x l IH]; intros Hl; [constructor|].
  change (sort_desc lt (x :: l)) with (insert_desc lt x (sort_desc lt l)).
  apply Forall_cons in Hl as [Hx Hl].
  apply insert_desc_sorted; [exact Hx | | apply IH; exact Hl].
  apply Forall_forall. intros z Hz. rewrite elem_of_sort_desc in Hz.
  rewrite Forall_forall in Hl. apply Hl. exact Hz.
Qed.
End SortedFacts.

Lemma StronglySorted_take {A} (R : A -> A -> Prop) (n : nat) (l : list A) :
  StronglySorted R l -> StronglySorted R (take n l).
Proof.
  intros Hs. revert n. induction Hs as [|x l Hs IH Hx]; intros [|n]; cbn;
    try constructor.
  - apply IH.
  - apply Forall_forall. intros z Hz. rewrite Forall_forall in Hx.
    apply Hx. exact (subseteq_take n l z Hz).
Qed.

Lemma StronglySorted_py_slice_to {A} (R : A -> A -> Prop) (n : Z) (l : list A) :
  StronglySorted R l -> StronglySorted R (py_slice_to n l).
Proof.
  intros Hs. unfold py_slice_to. destruct (0 <=? n)%Z; apply StronglySorted_take, Hs.
Qed.

(** A sorted list under a relation that, between its members, implies
    another one. *)
Lemma StronglySorted_weaken {A} (R R' : A -> A -> Prop) (l : list A) :
  (forall a b, a ∈ l -> b ∈ l -> R a b -> R' a b) ->
  StronglySorted R l -> StronglySorted R' l.
Proof.
  intros Himp Hs. induction Hs as [|x l Hs IH Hx]; constructor.
  - apply IH. intros a b Ha Hb. apply Himp; right; assumption.
  - apply Forall_forall. intros z Hz. rewrite Forall_forall in Hx.
    apply Himp; [left | right; exact Hz | apply Hx; exact Hz].
Qed.

(** The sort is stable: the members of a class of mutually tied elements
    keep their order. *)
Lemma sort_desc_stable {A} (lt : A -> A -> bool) (P : A -> Prop)
    `{forall x, Decision (P x)} (l : list A) :
  (forall x y, P x -> P y -> lt x y = false) ->
  filter P (sort_desc lt l) = filter P l.
Proof.
  intros Htie.
  assert (Hins : forall x l', filter P (insert_desc lt x l') = filter P (x :: l')).
  { intros x l'. induction l' as [|y l' IH]; cbn [insert_desc]; [reflexivity|].
    destruct (lt x y) eqn:Hxy; [| reflexivity].
    rewrite (filter_cons _ y), IH, !filter_cons.
    destruct (decide (P x)) as [Hx|Hx], (decide (P y)) as [Hy|Hy]; try reflexivity.
    rewrite (Htie x y Hx Hy) in Hxy. discriminate. }
  induction l as [|x l IH]; [reflexivity|].
  change (sort_desc lt (x :: l)) with (insert_desc lt x (sort_desc lt l)).
  rewrite Hins, !filter_cons, IH. reflexivity.
Qed.

Lemma filter_py_slice_to_prefix {A} (P : A -> Prop) `{forall x, Decision (P x)}
    (n : Z) (l : list A) :
  filter P (py_slice_to n l) `prefix_of` filter P l.
Proof.
  assert (Htake : forall k, filter P (take k l) `prefix_of` filter P l).
  { intros k. exists (filter P (drop k l)).
    rewrite <- filter_app, take_drop. reflexivity. }
  unfold py_slice_to. destruct (0 <=? n)%Z; apply Htake.
Qed.

(** ** The order of the rows of [find_ideal_cf_users] *)

Lemma row_lt_false (a b : RankedCandidate) : row_lt a b = false <-> row_before a b.
Proof.
  unfold row_lt, row_before.
  rewrite orb_false_iff, andb_false_iff, !Nat.ltb_ge, Nat.eqb_neq. lia.
Qed.

Lemma row_lt_true (a b : RankedCandidate) : row_lt a b = true <-> ~ row_before a b.
Proof.
  rewrite <- row_lt_false. destruct (row_lt a b); split; congruence.
Qed.

(** X8.  When some user has at least [min_ratings] rows, on a frame where a
    (user, business) pair has one row, [find_ideal_cf_users] returns its
    rows sorted: every row has more [similar_users] than each row after it,
    or as many and no fewer [potential_recommendations]. *)
Theorem ideal_users_sorted {F : Type} `{Number F} (df : DataFrame F)
    (min_ratings min_common : Z) (min_similarity : F) (u : string) :
  unique_pairs df ->
  u ∈ user_id <$> df ->
  (min_ratings <= Z.of_nat (rating_count df u))%Z ->
  exists table,
    find_ideal_cf_users df min_ratings min_common min_similarity = Ok table
    /\ StronglySorted row_before table
    /\ u ∈ rc_user_id <$> table.
Proof.
  intros Hu Hin Hle.
  destruct (ranked_rows_spec df min_ratings min_common min_similarity Hu)
    as (rows & Hrows & Hids & _).
  assert (Hq : u ∈ rc_user_id <$> rows).
  { rewrite Hids. apply elem_of_qualified_users. split; [| exact Hle].
    apply rating_count_pos. exact Hin. }
  unfold find_ideal_cf_users. rewrite Hrows. cbn [bind].
  destruct rows as [|row rows]; [apply elem_of_nil in Hq; contradiction|].
  eexists. split; [reflexivity|]. split.
  - apply (StronglySorted_weaken (fun a b => row_lt a b = false)).
    { intros a b _ _. apply row_lt_false. }
    apply (sort_desc_sorted row_lt (fun _ => True)).
    + intros x y _ _. rewrite row_lt_true, row_lt_false. unfold row_before. lia.
    + intros x y z _ _ _. rewrite !row_lt_false. unfold row_before. lia.
    + apply Forall_forall. intros; exact I.
  - apply list_elem_of_fmap in Hq as (r & -> & Hr).
    apply list_elem_of_fmap. exists r. split; [reflexivity|].
    apply elem_of_sort_desc. exact Hr.
Qed.

Lemma ideal_users_sorted_witness :
  exists table,
    find_ideal_cf_users sample_ratings 2 1 0x1.999999999999ap-4%float = Ok table
    /\ StronglySorted row_before table
    /\ "A" ∈ rc_user_id <$> table.
Proof.
  apply (ideal_users_sorted sample_ratings 2 1 0x1.999999999999ap-4%float "A").
  - exact sample_ratings_unique.
  - apply (bool_decide_unpack _). vm_compute. reflexivity.
  - vm_compute. discriminate.
Defined.

(** ** The order of binary64 numbers *)

Lemma key_lt_irrefl (a : Z * Z * Z) : ~ key_lt a a.
Proof. unfold key_lt. lia. Qed.

Lemma key_lt_asym (a b : Z * Z * Z) : key_lt a b -> ~ key_lt b a.
Proof. unfold key_lt. lia. Qed.

Lemma key_lt_negtrans (a b c : Z * Z * Z) :
  ~ key_lt a b -> ~ key_lt b c -> ~ key_lt a c.
Proof. unfold key_lt. lia. Qed.

Lemma SFcompare_key (x y : spec_float) :
  x <> S754_nan -> y <> S754_nan ->
  exists c, SFcompare x y = Some c
    /\ match c with
       | Lt => key_lt (SFkey x) (SFkey y)
       | Eq => ~ key_lt (SFkey x) (SFkey y) /\ ~ key_lt (SFkey y) (SFkey x)
       | Gt => key_lt (SFkey y) (SFkey x)
       end.
Proof.
  intros Hx Hy.
  destruct x as [sx|sx| |sx mx ex], y as [sy|sy| |sy my ey]; try congruence;
    cbn [SFcompare SFkey];
    try (destruct sx; try destruct sy; eexists; (split; [reflexivity|]);
         unfold key_lt; cbn; lia);
    try (destruct sy; eexists; (split; [reflexivity|]); unfold key_lt; cbn; lia).
  change (Pos.compare_cont Eq mx my) with (mx ?= my)%positive.
  destruct sx, sy; try (eexists; (split; [reflexivity|]); unfold key_lt; cbn; lia);
    destruct (Z.compare_spec ex ey); try destruct (Pos.compare_spec mx my);
    eexists; (split; [reflexivity|]); unfold key_lt; cbn; lia.
Qed.

Lemma is_nan_Prim2SF (x : float) : PrimFloat.is_nan x = false -> Prim2SF x <> S754_nan.
Proof.
  unfold PrimFloat.is_nan. rewrite FloatAxioms.eqb_spec. intros Hx Hnan.
  rewrite Hnan in Hx. discriminate.
Qed.

Lemma ltb_key (x y : float) :
  PrimFloat.is_nan x = false -> PrimFloat.is_nan y = false ->
  PrimFloat.ltb x y = true <-> key_lt (SFkey (Prim2SF x)) (SFkey (Prim2SF y)).
Proof.
  intros Hx%is_nan_Prim2SF Hy%is_nan_Prim2SF.
  rewrite FloatAxioms.ltb_spec. unfold SFltb.
  destruct (SFcompare_key _ _ Hx Hy) as (c & -> & Hc).
  destruct c; split; try discriminate; try reflexivity; intros Hlt.
  - destruct Hc as [Hc _]. contradiction.
  - exact Hc.
  - exfalso. exact (key_lt_asym _ _ Hc Hlt).
Qed.

Lemma leb_key (x y : float) :
  PrimFloat.is_nan x = false -> PrimFloat.is_nan y = false ->
  PrimFloat.leb x y = true <-> ~ key_lt (SFkey (Prim2SF y)) (SFkey (Prim2SF x)).
Proof.
  intros Hx%is_nan_Prim2SF Hy%is_nan_Prim2SF.
  rewrite FloatAxioms.leb_spec. unfold SFleb.
  destruct (SFcompare_key _ _ Hx Hy) as (c & -> & Hc).
  destruct c; split; try discriminate; try reflexivity; intros Hlt.
  - destruct Hc as [_ Hc]. exact Hc.
  - apply key_lt_asym. exact Hc.
  - contradiction.
Qed.

Lemma eqb_key (x y : float) :
  PrimFloat.eqb x y = true ->
  PrimFloat.is_nan x = false /\ PrimFloat.is_nan y = false
  /\ ~ key_lt (SFkey (Prim2SF x)) (SFkey (Prim2SF y))
  /\ ~ key_lt (SFkey (Prim2SF y)) (SFkey (Prim2SF x)).
Proof.
  intros Heq.
  assert (Hx : Prim2SF x <> S754_nan).
  { intros Hn. rewrite FloatAxioms.eqb_spec, Hn in Heq. discriminate. }
  assert (Hy : Prim2SF y <> S754_nan).
  { intros Hn. rewrite FloatAxioms.eqb_spec, Hn in Heq.
    destruct (Prim2SF x); discriminate. }
  assert (Hnan : forall z, Prim2SF z <> S754_nan -> PrimFloat.is_nan z = false).
  { intros z Hz. unfold PrimFloat.is_nan. rewrite FloatAxioms.eqb_spec.
    destruct (Prim2SF z) as [| | |s m e]; try congruence; try reflexivity.
    - destruct s; reflexivity.
    - unfold SFeqb. cbn. rewrite Z.compare_refl.
      change (Pos.compare_cont Eq m m) with (m ?= m)%positive.
      rewrite Pos.compare_refl. destruct s; reflexivity. }
  split; [apply Hnan, Hx|]. split; [apply Hnan, Hy|].
  rewrite FloatAxioms.eqb_spec in Heq. unfold SFeqb in Heq.
  destruct (SFcompare_key _ _ Hx Hy) as (c & Hc & Hk). rewrite Hc in Heq.
  destruct c; try discriminate. exact Hk.
Qed.

Lemma not_nan_zero (s : float) :
  s = PrimFloat.zero \/ PrimFloat.is_nan s = false -> PrimFloat.is_nan s = false.
Proof. intros [->|Hs]; [reflexivity | exact Hs]. Qed.

(** Sorting numbers that are not NaNs, largest first. *)
Lemma sort_desc_floats {A} (key : A -> float) (l : list A) :
  Forall (fun x => PrimFloat.is_nan (key x) = false) l ->
  StronglySorted (fun a b => PrimFloat.leb (key b) (key a) = true)
    (sort_desc (fun x y => PrimFloat.ltb (key x) (key y)) l).
Proof.
  intros Hl.
  assert (Hfalse : forall x y, PrimFloat.is_nan (key x) = false ->
            PrimFloat.is_nan (key y) = false ->
            PrimFloat.ltb (key x) (key y) = false
            <-> ~ key_lt (SFkey (Prim2SF (key x))) (SFkey (Prim2SF (key y)))).
  { intros x y Hx Hy. rewrite <- (ltb_key _ _ Hx Hy).
    destruct (PrimFloat.ltb (key x) (key y)); split; congruence. }
  apply (StronglySorted_weaken
           (fun a b => PrimFloat.ltb (key a) (key b) = false)).
  { intros a b Ha Hb Hab. rewrite elem_of_sort_desc in Ha, Hb.
    rewrite Forall_forall in Hl.
    apply leb_key; [apply Hl, Hb | apply Hl, Ha |].
    apply Hfalse; [apply Hl, Ha | apply Hl, Hb | exact Hab]. }
  apply (sort_desc_sorted _ (fun x => PrimFloat.is_nan (key x) = false)).
  - intros x y Hx Hy Hxy. apply (Hfalse y x Hy Hx).
    apply key_lt_asym. apply (ltb_key _ _ Hx Hy). exact Hxy.
  - intros x y z Hx Hy Hz Hxy Hyz.
    apply (Hfalse x z Hx Hz).
    apply (key_lt_negtrans _ (SFkey (Prim2SF (key y)))).
    + apply (Hfalse x y Hx Hy). exact Hxy.
    + apply (Hfalse y z Hy Hz). exact Hyz.
  - exact Hl.
Qed.

(** X9.  In binary64, both searches return their tuples by similarity,
    largest first: the similarity of a tuple is at least that of every
    tuple after it, whatever [np.std] and [pearsonr] compute. *)
Theorem search_results_descending
    (np_std : list float -> float) (pearsonr : list float -> list float -> result float)
    (target : string) (df : DataFrame float) (m top_n : Z) :
  (exists res,
      find_similar_users np_std pearsonr target df m top_n = Ok res
      /\ StronglySorted (fun a b => PrimFloat.leb b.1.2 a.1.2 = true) res)
  /\ (exists res,
        find_similar_items np_std pearsonr target df m top_n = Ok res
        /\ StronglySorted (fun a b => PrimFloat.leb b.1.2 a.1.2 = true) res).
Proof.
  split.
  - destruct (score_user_rounds_detail np_std pearsonr df target m (user_ratings_of df))
      as (a & Ha & Hall).
    unfold find_similar_users, similarity_scores. cbv zeta. rewrite Ha. cbn [bind].
    eexists. split; [reflexivity|].
    apply StronglySorted_py_slice_to.
    apply (sort_desc_floats (fun x : string * float * nat => x.1.2)).
    apply Forall_forall. intros x Hx.
    apply elem_of_appended_items, list_elem_of_lookup in Hx as [i Hi].
    destruct (Forall2_lookup_r _ _ _ _ _ Hall Hi) as (o & _ & Hr).
    unfold round_appends in Hr. cbv zeta in Hr.
    destruct (decide (o.1 <> target /\ _)); [| discriminate].
    destruct Hr as (s & [= ->] & _ & Hs). cbn. apply not_nan_zero. exact Hs.
  - destruct (similar_item_pairs_detail np_std pearsonr target df m) as (pairs & Hp & Hall).
    unfold find_similar_items. rewrite Hp. cbn [bind].
    eexists. split; [reflexivity|].
    apply StronglySorted_py_slice_to.
    apply (sort_desc_floats (fun x : string * string * float * nat => x.1.2)).
    apply Forall_forall. intros x Hx.
    destruct (Hall x Hx) as (_ & _ & _ & _ & _ & _ & _ & Hs).
    apply not_nan_zero. exact Hs.
Qed.

(** X10.  The sort of the searches is stable: in binary64, the returned
    tuples whose similarity equals a given number stand in the order in
    which the loop appended them, and are the first of these. *)
Theorem search_results_stable
    (np_std : list float -> float) (pearsonr : list float -> list float -> result float)
    (target : string) (df : DataFrame float) (m top_n : Z) (s : float) :
  (exists scores res,
      similarity_scores np_std pearsonr target df m = Ok scores
      /\ find_similar_users np_std pearsonr target df m top_n = Ok res
      /\ filter (fun x => PrimFloat.eqb x.1.2 s = true) res
         `prefix_of` filter (fun x => PrimFloat.eqb x.1.2 s = true) scores)
  /\ (exists pairs res,
        similar_item_pairs np_std pearsonr target df m = Ok pairs
        /\ find_similar_items np_std pearsonr target df m top_n = Ok res
        /\ filter (fun x => PrimFloat.eqb x.1.2 s = true) res
           `prefix_of` filter (fun x => PrimFloat.eqb x.1.2 s = true) pairs).
Proof.
  assert (Htie : forall x y : float,
            PrimFloat.eqb x s = true -> PrimFloat.eqb y s = true ->
            PrimFloat.ltb x y = false).
  { intros x y Hx Hy.
    destruct (eqb_key _ _ Hx) as (Hnx & _ & Hxs & Hsx).
    destruct (eqb_key _ _ Hy) as (Hny & _ & Hys & Hsy).
    destruct (PrimFloat.ltb x y) eqn:Hlt; [| reflexivity].
    apply (ltb_key _ _ Hnx Hny) in Hlt.
    exfalso. exact (key_lt_negtrans _ _ _ Hxs Hsy Hlt). }
  split.
  - destruct (score_user_rounds np_std pearsonr df target m m (user_ratings_of df))
      as (a & _ & Ha & _ & _); [lia|].
    assert (Hs : similarity_scores np_std pearsonr target df m = Ok (appended_items a))
      by (unfold similarity_scores; cbv zeta; rewrite Ha; reflexivity).
    exists (appended_items a). eexists. split; [exact Hs|].
    unfold find_similar_users. rewrite Hs. cbn [bind]. split; [reflexivity|].
    etransitivity; [apply filter_py_slice_to_prefix|].
    rewrite sort_desc_stable; [reflexivity|].
    intros x y. apply Htie.
  - destruct (similar_item_pairs_spec np_std pearsonr target df m) as (pairs & Hp & _).
    exists pairs. eexists. split; [exact Hp|].
    unfold find_similar_items. rewrite Hp. cbn [bind]. split; [reflexivity|].
    etransitivity; [apply filter_py_slice_to_prefix|].
    rewrite sort_desc_stable; [reflexivity|].
    intros x y. apply Htie.
Qed.

(** ** [calculate_pearson]: errors *)

(** X11.  On numpy [float64] scalars, which is what [find_ideal_cf_users]
    reads from the rating column and passes (their arithmetic overflows to
    an infinity or a NaN and does not raise, unlike [**] on built-in
    floats), [calculate_pearson] raises in one case only: [vecA] has two
    values or more and [vecB] is empty, and the exception is
    [ZeroDivisionError] ([0 / 0] in the mean of [vecB]).  Vectors of
    different lengths otherwise give a number: [zip] stops at the shorter
    one. *)
Theorem calculate_pearson_raises (vecA vecB : list float) (e : exn) :
  calculate_pearson vecA vecB = Raise e
  <-> 2 <= length vecA /\ vecB = [] /\ e = ZeroDivisionError.
Proof.
  split.
  - intros Hr.
    destruct (Nat.lt_ge_cases (length vecA) 2) as [Hs|Hl].
    { rewrite calculate_pearson_short in Hr by exact Hs. discriminate. }
    destruct vecB as [|b vecB].
    + split; [exact Hl|]. split; [reflexivity|].
      unfold calculate_pearson in Hr.
      replace (length vecA <? 2)%nat with false in Hr
        by (symmetry; apply Nat.ltb_ge; exact Hl).
      rewrite mean_ok in Hr by (destruct vecA; [cbn in Hl; lia | discriminate]).
      cbn in Hr. congruence.
    + rewrite calculate_pearson_long in Hr by (try exact Hl; discriminate).
      cbv zeta in Hr. destruct (_ || _) in Hr; discriminate.
  - intros (Hl & -> & ->).
    unfold calculate_pearson.
    replace (length vecA <? 2)%nat with false
      by (symmetry; apply Nat.ltb_ge; exact Hl).
    rewrite mean_ok by (destruct vecA; [cbn in Hl; lia | discriminate]).
    reflexivity.
Qed.

(** X14.  In binary64 [calculate_pearson_correlation] never returns a NaN,
    whatever [np.std] and [pearsonr] return; and when [pearsonr] raises (as
    it does on vectors of different lengths) or returns a NaN, the result
    is 0. *)
Theorem calculate_pearson_correlation_no_nan
    (np_std : list float -> float) (pearsonr : list float -> list float -> result float)
    (vec1 vec2 : list float) :
  PrimFloat.is_nan (calculate_pearson_correlation np_std pearsonr vec1 vec2) = false
  /\ (forall e, pearsonr vec1 vec2 = Raise e ->
        calculate_pearson_correlation np_std pearsonr vec1 vec2 = PrimFloat.zero)
  /\ (forall c, pearsonr vec1 vec2 = Ok c -> PrimFloat.is_nan c = true ->
        calculate_pearson_correlation np_std pearsonr vec1 vec2 = PrimFloat.zero).
Proof.
  split; [| split].
  - apply not_nan_zero.
    destruct (calculate_pearson_correlation_value np_std pearsonr vec1 vec2)
      as [Hz|[_ Hnan]]; [left | right]; assumption.
  - intros e He. unfold calculate_pearson_correlation. rewrite He.
    destruct (_ <? _)%nat; [reflexivity|]. destruct (_ || _); reflexivity.
  - intros c Hc Hnan. unfold calculate_pearson_correlation. rewrite Hc.
    destruct (_ <? _)%nat; [reflexivity|]. destruct (_ || _); [reflexivity|].
    cbn. change (num_isnan c) with (PrimFloat.is_nan c). rewrite Hnan. reflexivity.
Qed.

(** ** Who counts as a similar user in [find_ideal_cf_users] *)

Section OneCommonItem.
Context {F : Type} `{Number F}.

Lemma compare_with_one_common (df : DataFrame F) (min_common : Z) (min_similarity : F)
    (user : string) (acc : nat * gset string) (other_id : string) :
  unique_pairs df -> num_ltb min_similarity num_zero = false ->
  (min_common <= 2)%Z ->
  compare_with df min_common min_similarity user (ratings_series user df) acc other_id
  = compare_with df 2 min_similarity user (ratings_series user df) acc other_id.
Proof.
  intros Hu Hms Hmc. unfold compare_with.
  destruct (decide (other_id = user)); [reflexivity|].
  cbv zeta.
  set (common := index_set (ratings_series user df)
                 ∩ index_set (ratings_series other_id df)).
  destruct (2 <=? Z.of_nat (size common))%Z eqn:H2.
  { apply Z.leb_le in H2.
    replace (min_common <=? Z.of_nat (size common))%Z with true
      by (symmetry; apply Z.leb_le; lia).
    reflexivity. }
  apply Z.leb_gt in H2.
  destruct (min_common <=? Z.of_nat (size common))%Z; [| reflexivity].
  destruct (mapM_total (series_get (ratings_series user df)) (elements common))
    as [cu Hcu].
  { intros i Hi. apply elem_of_elements, elem_of_intersection in Hi as [Hi _].
    apply series_get_ok; [apply series_labels_NoDup; exact Hu|].
    apply elem_of_list_to_set in Hi. exact Hi. }
  destruct (mapM_total (series_get (ratings_series other_id df)) (elements common))
    as [co Hco].
  { intros i Hi. apply elem_of_elements, elem_of_intersection in Hi as [_ Hi].
    apply series_get_ok; [apply series_labels_NoDup; exact Hu|].
    apply elem_of_list_to_set in Hi. exact Hi. }
  rewrite Hcu, Hco. cbn [bind].
  rewrite calculate_pearson_short.
  - cbn [bind]. rewrite Hms. reflexivity.
  - rewrite (mapM_length _ _ _ Hcu).
    assert (Hsz : size common = length (elements common)) by reflexivity. lia.
Qed.

Lemma foldM_ext {A B} (f g : B -> A -> result B) (l : list A) (acc : B) :
  (forall b x, f b x = g b x) -> foldM f acc l = foldM g acc l.
Proof.
  intros Hfg. revert acc; induction l as [|x l IH]; intros acc; cbn [foldM];
    [reflexivity|].
  rewrite Hfg. destruct (g acc x); cbn [bind]; [apply IH | reflexivity].
Qed.

Lemma mapM_ext {A B} (f g : A -> result B) (l : list A) :
  (forall x, f x = g x) -> mapM f l = mapM g l.
Proof.
  intros Hfg. induction l as [|x l IH]; cbn [mapM]; [reflexivity|].
  rewrite Hfg, IH. reflexivity.
Qed.
End OneCommonItem.

(** X16.  With a threshold [min_similarity >= 0] a single common item never
    makes a similar user, its correlation being 0: on a frame where a
    (user, business) pair has one row, [find_ideal_cf_users] returns for
    every [min_common <= 2] what it returns for [min_common = 2]. *)
Theorem one_common_item_never_similar {F : Type} `{Number F} (df : DataFrame F)
    (min_ratings min_common : Z) (min_similarity : F) :
  unique_pairs df -> num_ltb min_similarity num_zero = false ->
  (min_common <= 2)%Z ->
  find_ideal_cf_users df min_ratings min_common min_similarity
  = find_ideal_cf_users df min_ratings 2 min_similarity.
Proof.
  intros Hu Hms Hmc.
  unfold find_ideal_cf_users, ranked_rows. cbv zeta.
  rewrite (mapM_ext _ (candidate_row df 2 min_similarity (qualified_users df min_ratings)));
    [reflexivity|].
  intros user. unfold candidate_row. cbv zeta.
  rewrite (foldM_ext _ (compare_with df 2 min_similarity user (ratings_series user df)));
    [reflexivity|].
  intros acc other. apply compare_with_one_common; assumption.
Qed.

Lemma one_common_item_never_similar_witness :
  find_ideal_cf_users sample_ratings 2 1 0x1.999999999999ap-4%float
  = find_ideal_cf_users sample_ratings 2 2 0x1.999999999999ap-4%float.
Proof.
  apply (one_common_item_never_similar sample_ratings 2 1 0x1.999999999999ap-4%float).
  - exact sample_ratings_unique.
  - reflexivity.
  - lia.
Defined.

(** ** The sparsity that [main] reports *)

Lemma unique_pairs_length {F} (df : DataFrame F) :
  unique_pairs df ->
  length df <= nunique (user_id <$> df) * nunique (business_id <$> df).
Proof.
  intros Hu. unfold nunique.
  set (U := list_to_set (user_id <$> df) : gset string).
  set (I := list_to_set (business_id <$> df) : gset string).
  rewrite <- (length_fmap (fun r => (user_id r, business_id r)) df).
  unfold size, set_size. cbn.
  rewrite <- length_prod.
  apply submseteq_length, NoDup_submseteq; [exact Hu|].
  intros [u i] Hin. apply list_elem_of_fmap in Hin as (r & [= -> ->] & Hr).
  apply list_elem_of_In, in_prod; apply list_elem_of_In, elem_of_elements, elem_of_list_to_set;
    apply list_elem_of_fmap; exists r; (split; [reflexivity | exact Hr]).
Qed.

(** X17.  On a frame with at least one row the sparsity that [main]
    computes is defined, in binary64 as in any arithmetic: there is a user
    and there is an item, so [total_possible_ratings] is not 0 and the
    division does not raise.  Where a (user, business) pair has one row,
    the number of rows that it divides is at most
    [total_possible_ratings], the users times the items. *)
Theorem sparsity_defined {F : Type} `{Number F} (df : DataFrame F) :
  df <> [] ->
  (exists s, sparsity df = Ok s)
  /\ 0 < nunique (user_id <$> df) * nunique (business_id <$> df)
  /\ (unique_pairs df ->
      length df <= nunique (user_id <$> df) * nunique (business_id <$> df)).
Proof.
  intros Hne.
  assert (Hpos : forall l : list string, l <> [] -> 0 < nunique l).
  { intros l Hl. unfold nunique. destruct l as [|x l]; [congruence|].
    assert (Hx : x ∈ (list_to_set (x :: l) : gset string))
      by (apply elem_of_list_to_set; left).
    destruct (decide (size (list_to_set (x :: l) : gset string) = 0)) as [Hz|Hz]; [| lia].
    apply size_empty_inv in Hz. rewrite (Hz x) in Hx.
    apply elem_of_empty in Hx. contradiction. }
  assert (Htotal : 0 < nunique (user_id <$> df) * nunique (business_id <$> df)).
  { apply Nat.mul_pos_pos; apply Hpos; destruct df; (congruence || discriminate). }
  split; [| split; [exact Htotal | apply unique_pairs_length]].
  unfold sparsity. cbv zeta.
  replace (_ =? 0)%nat with false by (symmetry; apply Nat.eqb_neq; lia).
  eexists. reflexivity.
Qed.

Lemma sparsity_defined_witness :
  (exists s, sparsity sample_ratings = Ok s)
  /\ 0 < nunique (user_id <$> sample_ratings) * nunique (business_id <$> sample_ratings)
  /\ (unique_pairs sample_ratings ->
      length sample_ratings
      <= nunique (user_id <$> sample_ratings) * nunique (business_id <$> sample_ratings)).
Proof.
  apply (sparsity_defined sample_ratings). discriminate.
Defined.

(** * Properties of the preprocessing *)

(** ** [parse_list_field] *)

Section StripFacts.
Variable isspace : N -> bool.

Lemma lstrip_head (s : pystr) (c : N) :
  head (lstrip isspace s) = Some c -> isspace c = false.
Proof.
  induction s as [|x s IH]; cbn [lstrip]; [discriminate|].
  destruct (isspace x) eqn:Hx; [exact IH|].
  cbn. intros [= <-]. exact Hx.
Qed.

Lemma lstrip_suffix (s : pystr) : lstrip isspace s `suffix_of` s.
Proof.
  induction s as [|x s IH]; cbn [lstrip]; [reflexivity|].
  destruct (isspace x); [| reflexivity].
  apply suffix_cons_r. exact IH.
Qed.

Lemma lstrip_id (s : pystr) :
  (forall c, head s = Some c -> isspace c = false) -> lstrip isspace s = s.
Proof.
  destruct s as [|x s]; [reflexivity|].
  intros Hh. cbn [lstrip]. rewrite (Hh x eq_refl). reflexivity.
Qed.

Lemma lstrip_spaces (pad s : pystr) :
  Forall (fun c => isspace c = true) pad ->
  lstrip isspace (pad ++ s) = lstrip isspace s.
Proof.
  induction 1 as [|x pad Hx _ IH]; [reflexivity|].
  cbn [app lstrip]. rewrite Hx. exact IH.
Qed.

Lemma last_suffix {A} (l1 l2 : list A) (x : A) :
  l1 `suffix_of` l2 -> last l1 = Some x -> last l2 = Some x.
Proof.
  intros [k ->] Hl. destruct l1 as [|y l1]; [discriminate|].
  rewrite last_app. rewrite Hl. reflexivity.
Qed.

Lemma head_reverse {A} (l : list A) : head (reverse l) = last l.
Proof.
  induction l as [|x l IH] using rev_ind; [reflexivity|].
  rewrite reverse_snoc, last_snoc. reflexivity.
Qed.

Lemma last_reverse {A} (l : list A) : last (reverse l) = head l.
Proof. rewrite <- head_reverse, reverse_involutive. reflexivity. Qed.

(** A stripped string neither begins nor ends with whitespace. *)
Lemma py_strip_ends (s : pystr) (c : N) :
  head (py_strip isspace s) = Some c \/ last (py_strip isspace s) = Some c ->
  isspace c = false.
Proof.
  unfold py_strip. rewrite head_reverse, last_reverse. intros [Hl|Hh].
  - apply (lstrip_head s).
    rewrite <- last_reverse.
    exact (last_suffix _ _ _ (lstrip_suffix _) Hl).
  - exact (lstrip_head _ _ Hh).
Qed.

Lemma py_strip_id (s : pystr) :
  (forall c, head s = Some c -> isspace c = false) ->
  (forall c, last s = Some c -> isspace c = false) ->
  py_strip isspace s = s.
Proof.
  intros Hh Hl. unfold py_strip.
  rewrite (lstrip_id s Hh), lstrip_id, reverse_involutive; [reflexivity|].
  intros c. rewrite head_reverse. apply Hl.
Qed.

Lemma py_strip_padded (pad s : pystr) :
  Forall (fun c => isspace c = true) pad ->
  py_strip isspace (pad ++ s) = py_strip isspace s.
Proof. intros Hpad. unfold py_strip. rewrite lstrip_spaces by exact Hpad. reflexivity. Qed.
End StripFacts.

(** X18.  For a string and a non-empty separator, [parse_list_field]
    returns strings only, none of them empty, none beginning or ending with
    whitespace: blank pieces are dropped and the others are trimmed. *)
Theorem parse_list_field_items (isspace : N -> bool) (s separator : pystr) :
  separator <> [] ->
  exists items,
    parse_list_field isspace (PStr s) separator = Done (PStr <$> items)
    /\ forall item, item ∈ items ->
         item <> []
         /\ (forall c, head item = Some c -> isspace c = false)
         /\ (forall c, last item = Some c -> isspace c = false).
Proof.
  intros Hsep. unfold parse_list_field, py_split.
  destruct separator as [|c0 sep]; [congruence|]. cbn [outcome_bind].
  eexists. split; [reflexivity|].
  intros item Hitem.
  apply list_elem_of_fmap in Hitem as (piece & -> & Hpiece).
  apply list_elem_of_filter in Hpiece as [Hne _].
  split; [exact Hne|].
  split; intros c Hc; apply (py_strip_ends isspace piece c); [left | right]; exact Hc.
Qed.

Lemma parse_list_field_items_witness :
  exists items,
    parse_list_field (fun c => (c =? 32)%N) (PStr (lit " Food, ,Bars ")) (lit ",")
    = Done (PStr <$> items)
    /\ forall item, item ∈ items ->
         item <> []
         /\ (forall c, head item = Some c -> (c =? 32)%N = false)
         /\ (forall c, last item = Some c -> (c =? 32)%N = false).
Proof.
  apply (parse_list_field_items (fun c => (c =? 32)%N) (lit " Food, ,Bars ") (lit ",")).
  discriminate.
Defined.

Section SplitFacts.
Variable c : N.

Lemma split_from_no_separator (piece t : pystr) :
  c ∉ t -> split_from [c] 0 piece t = [piece ++ t].
Proof.
  revert piece; induction t as [|x t IH]; intros piece Hc; cbn [split_from].
  - rewrite app_nil_r. reflexivity.
  - apply not_elem_of_cons in Hc as [Hx Ht].
    cbn [starts_with]. replace (c =? x)%N with false
      by (symmetry; apply N.eqb_neq; exact Hx).
    cbn [andb]. rewrite IH by exact Ht. rewrite <- app_assoc. reflexivity.
Qed.

Lemma split_from_separator (piece t rest : pystr) :
  c ∉ t ->
  split_from [c] 0 piece (t ++ c :: rest) = (piece ++ t) :: split_from [c] 0 [] rest.
Proof.
  revert piece; induction t as [|x t IH]; intros piece Hc; cbn [split_from app].
  - cbn [starts_with]. rewrite N.eqb_refl. cbn [andb length Nat.sub].
    rewrite app_nil_r. reflexivity.
  - apply not_elem_of_cons in Hc as [Hx Ht].
    cbn [starts_with]. replace (c =? x)%N with false
      by (symmetry; apply N.eqb_neq; exact Hx).
    cbn [andb]. rewrite IH by exact Ht. rewrite <- app_assoc. reflexivity.
Qed.

(** Splitting a joined list at a separator that no item contains. *)
Lemma split_from_join (pad piece item : pystr) (items : list pystr) :
  c ∉ pad -> c ∉ item -> Forall (fun t => c ∉ t) items ->
  split_from [c] 0 piece (py_join (c :: pad) (item :: items))
  = (piece ++ item) :: ((fun t => pad ++ t) <$> items).
Proof.
  intros Hpad. revert piece item.
  induction items as [|item' items IH]; intros piece item Hitem Hitems.
  - cbn [py_join fmap list_fmap]. apply split_from_no_separator. exact Hitem.
  - apply Forall_cons in Hitems as [Hitem' Hitems].
    change (py_join (c :: pad) (item :: item' :: items))
      with (item ++ (c :: pad) ++ py_join (c :: pad) (item' :: items)).
    cbn [app]. rewrite split_from_separator by exact Hitem.
    assert (Hshift : forall s, split_from [c] 0 [] (pad ++ s) = split_from [c] 0 pad s).
    { intros s. clear -Hpad. 
      assert (Hgen : forall p q, c ∉ q ->
                split_from [c] 0 p (q ++ s) = split_from [c] 0 (p ++ q) s).
      { intros p q; revert p; induction q as [|x q IHq]; intros p Hq.
        - rewrite app_nil_r. reflexivity.
        - apply not_elem_of_cons in Hq as [Hx Hq]. cbn [app split_from starts_with].
          replace (c =? x)%N with false by (symmetry; apply N.eqb_neq; exact Hx).
          cbn [andb]. rewrite IHq by exact Hq. rewrite <- app_assoc. reflexivity. }
      exact (Hgen [] pad Hpad). }
    rewrite Hshift, IH by assumption.
    rewrite fmap_cons. reflexivity.
Qed.
End SplitFacts.

(** X19.  [parse_list_field] reads back a list written with a one-character
    separator followed by whitespace (as ["Food, Bars"]): when no item is
    empty, begins or ends with whitespace or contains the separator, the
    items of the joined string are the items joined. *)
Theorem parse_list_field_join (isspace : N -> bool) (c : N) (pad : pystr)
    (items : list pystr) :
  Forall (fun x => isspace x = true) pad -> c ∉ pad ->
  Forall (fun item =>
            item <> [] /\ (c ∉ item)
            /\ (forall x, head item = Some x -> isspace x = false)
            /\ (forall x, last item = Some x -> isspace x = false)) items ->
  parse_list_field isspace (PStr (py_join (c :: pad) items)) [c] = Done (PStr <$> items).
Proof.
  intros Hpad Hc Hitems. unfold parse_list_field, py_split. cbn [outcome_bind].
  f_equal. f_equal.
  destruct items as [|item items]; [reflexivity|].
  apply Forall_cons in Hitems as [(Hne & Hci & Hh & Hl) Hitems].
  rewrite split_from_join;
    [| exact Hc | exact Hci | eapply Forall_impl; [exact Hitems | intros t Ht; apply Ht]].
  rewrite app_nil_l, filter_cons.
  rewrite (py_strip_id isspace item Hh Hl).
  destruct (decide (item <> [])); [| contradiction].
  rewrite fmap_cons, (py_strip_id isspace item Hh Hl). f_equal.
  induction Hitems as [|t items (Htne & _ & Hth & Htl) _ IH]; [reflexivity|].
  rewrite fmap_cons, filter_cons, py_strip_padded by exact Hpad.
  rewrite (py_strip_id isspace t Hth Htl).
  destruct (decide (t <> [])); [| contradiction].
  rewrite fmap_cons, py_strip_padded by exact Hpad.
  rewrite (py_strip_id isspace t Hth Htl), IH. reflexivity.
Qed.

Lemma parse_list_field_join_witness :
  parse_list_field (fun c => (c =? 32)%N)
    (PStr (py_join (44 :: [32])%N [lit "Food"; lit "Wine Bars"])) [44%N]
  = Done (PStr <$> [lit "Food"; lit "Wine Bars"]).
Proof.
  apply (parse_list_field_join (fun c => (c =? 32)%N) 44%N [32%N]
           [lit "Food"; lit "Wine Bars"]).
  - repeat constructor.
  - apply (bool_decide_unpack _). vm_compute. reflexivity.
  - repeat constructor; try discriminate;
      try (apply (bool_decide_unpack _); vm_compute; reflexivity);
      intros x [= <-]; reflexivity.
Defined.

(** ** The converters *)

Lemma forallb_elem_of {A} (f : A -> bool) (l : list A) (x : A) :
  forallb f l = true -> x ∈ l -> f x = true.
Proof.
  intros Hall Hx. apply list_elem_of_In in Hx.
  exact (proj1 (forallb_forall f l) Hall x Hx).
Qed.

(** The fields of a record whose strings encode, encode. *)
Lemma encodes_dict_get (d : pydict) (key : pystr) (default : pyval) :
  well_encoded d = true -> encodes default = true ->
  encodes (dict_get d key default) = true.
Proof.
  intros Hd Hdef. unfold dict_get.
  induction d as [|[k v] d IH]; cbn [dict_lookup]; [exact Hdef|].
  unfold well_encoded in Hd. cbn [forallb snd] in Hd.
  apply andb_true_iff in Hd as [Hv Hd].
  destruct (decide (k = key)); [exact Hv | exact (IH Hd)].
Qed.

Lemma encodes_columns (d : pydict) (columns : list pystr) :
  well_encoded d = true ->
  forallb encodes ((fun field => dict_get d field PNone) <$> columns) = true.
Proof.
  intros Hd. induction columns as [|field columns IH]; [reflexivity|].
  rewrite fmap_cons. cbn [forallb].
  rewrite encodes_dict_get, IH by (assumption || reflexivity). reflexivity.
Qed.

Section LoopFacts.
Variable row_of : pyval -> outcome (option pydict).
Variable fieldnames : list pystr.

Lemma writerows_ok (chunk : list pydict) (file : csvfile) :
  Forall (writes fieldnames) chunk ->
  writerows fieldnames chunk file = (file ++ (row_values fieldnames <$> chunk), None).
Proof.
  intros Hall. revert file.
  induction Hall as [|row chunk [Hrow Henc] _ IH]; intros file; cbn [writerows].
  - rewrite app_nil_r. reflexivity.
  - rewrite Hrow, Henc, IH, fmap_cons, <- app_assoc. reflexivity.
Qed.

(** The invariant of the loop: the file and the chunk together hold the
    rows of the records read so far. *)
Lemma chunk_loop_rows (chunk_size : Z) (lines : list pyval) (rows : list (option pydict))
    (count : Z) (chunk : list pydict) (file : csvfile) :
  chunk_size <> 0%Z ->
  Forall2 (fun line o => row_of line = Done o) lines rows ->
  Forall (writes fieldnames) (chunk ++ omap (fun o => o) rows) ->
  chunk_loop row_of fieldnames chunk_size lines count chunk file
  = (file ++ (row_values fieldnames <$> chunk ++ omap (fun o => o) rows), None).
Proof.
  intros Hsize Hrows. revert count chunk file.
  induction Hrows as [|line o lines rows Hline _ IH]; intros count chunk file Hgood.
  - cbn [chunk_loop omap list_omap] in *. rewrite app_nil_r in *.
    destruct chunk as [|row chunk]; [rewrite app_nil_r; reflexivity|].
    apply writerows_ok. exact Hgood.
  - cbn [chunk_loop]. rewrite Hline.
    destruct o as [row|]; cbn [omap list_omap] in *; [| apply IH; exact Hgood].
    cbv zeta.
    replace (chunk_size =? 0)%Z with false by (symmetry; apply Z.eqb_neq; exact Hsize).
    rewrite (cons_middle row), app_assoc in Hgood.
    rewrite (cons_middle row chunk (omap (fun o => o) rows)), app_assoc.
    destruct (_ mod _ =? 0)%Z; [| apply IH; exact Hgood].
    apply Forall_app in Hgood as [Hchunk Hrest].
    rewrite (writerows_ok _ _ Hchunk), IH by exact Hrest.
    rewrite app_nil_l, !fmap_app, <- !app_assoc. reflexivity.
Qed.

(** With [chunk_size = 0] the first record that is kept ends the call. *)
Lemma chunk_loop_zero (lines : list pyval) (rows : list (option pydict)) (file : csvfile) :
  Forall2 (fun line o => row_of line = Done o) lines rows ->
  chunk_loop row_of fieldnames 0 lines 0 [] file
  = (file, match omap (fun o => o) rows with
           | [] => None
           | _ => Some (Std ZeroDivisionError)
           end).
Proof.
  induction 1 as [|line o lines rows Hline _ IH]; cbn [chunk_loop]; [reflexivity|].
  rewrite Hline. destruct o as [row|]; cbn [omap list_omap]; [reflexivity | exact IH].
Qed.

Variable kept : pydict -> bool.
Variable expected : pydict -> list pyval -> Prop.

Lemma convert_rows (chunk_size : Z) (records : list pydict) (file : csvfile) :
  chunk_size <> 0%Z ->
  forallb well_encoded records = true ->
  (forall d, well_encoded d = true ->
             if kept d
             then exists row,
                 row_of (PDict d) = Done (Some row)
                 /\ writes fieldnames row
                 /\ expected d (row_values fieldnames row)
             else row_of (PDict d) = Done None) ->
  exists rows,
    chunk_loop row_of fieldnames chunk_size (PDict <$> records) 0 [] file
    = (file ++ rows, None)
    /\ Forall2 expected (filter (fun d => kept d = true) records) rows.
Proof.
  intros Hsize Henc Hrow.
  assert (Hex : exists os,
            Forall2 (fun line o => row_of line = Done o) (PDict <$> records) os
            /\ Forall (writes fieldnames) (omap (fun o => o) os)
            /\ Forall2 expected (filter (fun d => kept d = true) records)
                 (row_values fieldnames <$> omap (fun o => o) os)).
  { induction records as [|d records IH].
    - exists []. repeat split; constructor.
    - cbn [forallb] in Henc. apply andb_true_iff in Henc as [Hd Henc].
      destruct (IH Henc) as (os & H1 & H2 & H3).
      specialize (Hrow d Hd). rewrite filter_cons.
      destruct (kept d) eqn:Hk.
      + destruct Hrow as (row & Hr & Hg & He).
        exists (Some row :: os). cbn [omap list_omap].
        destruct (decide (true = true)); [| congruence].
        repeat split; [constructor | constructor | rewrite fmap_cons; constructor];
          assumption.
      + exists (None :: os). cbn [omap list_omap].
        destruct (decide (false = true)); [discriminate|].
        repeat split; [constructor |  |]; assumption. }
  destruct Hex as (os & H1 & H2 & H3).
  eexists. split; [| exact H3].
  rewrite (chunk_loop_rows chunk_size _ os) by assumption.
  reflexivity.
Qed.

Lemma convert_zero (records : list pydict) (file : csvfile) :
  (forall d, if kept d then exists row, row_of (PDict d) = Done (Some row)
             else row_of (PDict d) = Done None) ->
  chunk_loop row_of fieldnames 0 (PDict <$> records) 0 [] file
  = (file, if existsb kept records then Some (Std ZeroDivisionError) else None).
Proof.
  intros Hrow.
  assert (Hex : exists os,
            Forall2 (fun line o => row_of line = Done o) (PDict <$> records) os
            /\ match omap (fun o => o) os with
               | [] => existsb kept records = false
               | _ => existsb kept records = true
               end).
  { induction records as [|d records (os & H1 & H2)].
    - exists []. split; [constructor | reflexivity].
    - specialize (Hrow d). cbn [existsb]. destruct (kept d) eqn:Hk.
      + destruct Hrow as (row & Hr).
        exists (Some row :: os). split; [constructor; assumption | reflexivity].
      + exists (None :: os). split; [constructor; assumption | exact H2]. }
  destruct Hex as (os & H1 & H2).
  rewrite (chunk_loop_zero _ os file H1).
  destruct (omap _ os); rewrite H2; reflexivity.
Qed.
End LoopFacts.

Section BusinessRowFacts.
Variable isspace : N -> bool.

Lemma parse_list_field_total (value : pyval) (separator : pystr) :
  separator <> [] -> exists items, parse_list_field isspace value separator = Done items.
Proof.
  intros Hsep. destruct value; cbn [parse_list_field]; try (eexists; reflexivity).
  unfold py_split. destruct separator; [congruence|]. eexists. reflexivity.
Qed.

Lemma business_columns_get (d : pydict) :
  get_columns (PDict d) business_columns []
  = Done ((fun field => (field, dict_get d field PNone)) <$> business_columns).
Proof. vm_compute. reflexivity. Qed.

Lemma user_columns_get (d : pydict) :
  get_columns (PDict d) user_columns []
  = Done ((fun field => (field, dict_get d field PNone)) <$> user_columns).
Proof. vm_compute. reflexivity. Qed.

Lemma business_row_dict (d : pydict) (items : list pyval) :
  parse_list_field isspace (dict_get d (lit "categories") (PStr [])) (lit ",")
  = Done items ->
  truthy (dict_get d (lit "business_id") PNone) = true ->
  business_row isspace (PDict d)
  = Done (Some (((fun field => (field, dict_get d field PNone)) <$> business_columns)
                ++ [(lit "categories_list", PList items)])).
Proof.
  intros Hitems Hid.
  unfold business_row. cbn [py_get outcome_bind].
  rewrite Hid. cbn [negb]. rewrite business_columns_get. cbn [outcome_bind].
  replace (negb (dict_has _ (lit "latitude")) && negb (dict_has _ (lit "longitude")))
    with false by (vm_compute; reflexivity).
  cbn [outcome_bind].
  rewrite Hitems. cbn [outcome_bind].
  vm_compute. reflexivity.
Qed.

Lemma business_row_values (d : pydict) (items : list pyval) :
  row_values business_fields
    (((fun field => (field, dict_get d field PNone)) <$> business_columns)
     ++ [(lit "categories_list", PList items)])
  = ((fun field => dict_get d field PNone) <$> business_columns) ++ [PList items].
Proof. vm_compute. reflexivity. Qed.

Lemma business_row_writes (d : pydict) (items : list pyval) :
  well_encoded d = true ->
  writes business_fields
    (((fun field => (field, dict_get d field PNone)) <$> business_columns)
     ++ [(lit "categories_list", PList items)]).
Proof.
  intros Henc. split; [vm_compute; reflexivity|].
  rewrite business_row_values, forallb_app, (encodes_columns d _ Henc). reflexivity.
Qed.

Lemma business_row_skip (d : pydict) :
  truthy (dict_get d (lit "business_id") PNone) = false ->
  business_row isspace (PDict d) = Done None.
Proof.
  intros Hid. unfold business_row. cbn [py_get outcome_bind].
  rewrite Hid. reflexivity.
Qed.
End BusinessRowFacts.

(** X20.  For a chunk size other than 0 and lines that are JSON objects
    whose strings encode in utf8 (none holds a lone surrogate),
    [convert_business_json_to_csv] raises nothing and writes, after the
    header, one row for every record whose [business_id] is truthy, in the
    order of the file, whatever the chunk size.  The row holds the record's
    own nine fields ([None] where it has none: [latitude] and [longitude]
    are never taken from a [coordinates] object) and the list that
    [parse_list_field] makes of its [categories]. *)
Theorem convert_business_rows (isspace : N -> bool) (chunk_size : Z)
    (records : list pydict) :
  chunk_size <> 0%Z ->
  forallb well_encoded records = true ->
  exists rows,
    convert_business_json_to_csv isspace chunk_size (PDict <$> records)
    = ((PStr <$> business_fields) :: rows, None)
    /\ Forall2
         (fun d row =>
            exists items,
              parse_list_field isspace
                (dict_get d (lit "categories") (PStr [])) (lit ",")
              = Done items
              /\ row = ((fun field => dict_get d field PNone)
                          <$> business_columns) ++ [PList items])
         (filter (fun d => truthy (dict_get d (lit "business_id") PNone) = true)
                 records)
         rows.
Proof.
  intros Hsize Henc. unfold convert_business_json_to_csv, writeheader.
  apply (convert_rows (business_row isspace) business_fields
           (fun d => truthy (dict_get d (lit "business_id") PNone))
           _ chunk_size records [PStr <$> business_fields] Hsize Henc).
  intros d Hd. destruct (truthy _) eqn:Hid; [| apply business_row_skip; exact Hid].
  destruct (parse_list_field_total isspace
              (dict_get d (lit "categories") (PStr [])) (lit ","))
    as [items Hitems]; [discriminate|].
  eexists. split; [exact (business_row_dict isspace d items Hitems Hid)|].
  split; [apply business_row_writes; exact Hd|].
  exists items. split; [exact Hitems | apply business_row_values].
Qed.

Lemma convert_business_rows_witness :
  exists rows,
    convert_business_json_to_csv (fun c => (c =? 32)%N) 2
      (PDict <$> [ [(lit "business_id", PStr (lit "b1")); (lit "categories", PStr (lit "A, B"))];
                   [(lit "name", PStr (lit "n"))] ])
    = ((PStr <$> business_fields) :: rows, None)
    /\ Forall2
         (fun d row =>
            exists items,
              parse_list_field (fun c => (c =? 32)%N)
                (dict_get d (lit "categories") (PStr [])) (lit ",")
              = Done items
              /\ row = ((fun field => dict_get d field PNone)
                          <$> business_columns) ++ [PList items])
         (filter (fun d => truthy (dict_get d (lit "business_id") PNone) = true)
                 [ [(lit "business_id", PStr (lit "b1")); (lit "categories", PStr (lit "A, B"))];
                   [(lit "name", PStr (lit "n"))] ])
         rows.
Proof.
  apply (convert_business_rows (fun c => (c =? 32)%N) 2
           [ [(lit "business_id", PStr (lit "b1")); (lit "categories", PStr (lit "A, B"))];
             [(lit "name", PStr (lit "n"))] ]).
  - discriminate.
  - reflexivity.
Defined.

Section ReviewFacts.

Lemma review_rows_dict (d : pydict) :
  review_rows (PDict d)
  = Done (if truthy (dict_get d (lit "review_id") PNone)
             && truthy (dict_get d (lit "user_id") PNone)
             && truthy (dict_get d (lit "business_id") PNone)
          then Some ([(lit "review_id", dict_get d (lit "review_id") PNone);
                      (lit "user_id", dict_get d (lit "user_id") PNone);
                      (lit "business_id", dict_get d (lit "business_id") PNone);
                      (lit "review_text", dict_get d (lit "text") (PStr []))],
                     [(lit "user_id", dict_get d (lit "user_id") PNone);
                      (lit "business_id", dict_get d (lit "business_id") PNone);
                      (lit "rating", dict_get d (lit "stars") PNone)])
          else None).
Proof.
  unfold review_rows. cbn [py_get outcome_bind].
  destruct (truthy (dict_get d (lit "review_id") PNone)); [| reflexivity].
  cbn [outcome_bind andb].
  destruct (truthy (dict_get d (lit "user_id") PNone)); [| reflexivity].
  cbn [outcome_bind andb].
  destruct (truthy (dict_get d (lit "business_id") PNone)); reflexivity.
Qed.

(** The invariant of the loop of [convert_review_json_to_csv]: the two
    chunks grow and are written together. *)
Lemma review_loop_rows (chunk_size : Z) (lines : list pyval)
    (rows : list (option (pydict * pydict))) (count : Z)
    (reviews_chunk ratings_chunk : list pydict) (reviews_file ratings_file : csvfile) :
  chunk_size <> 0%Z ->
  Forall2 (fun line o => review_rows line = Done o) lines rows ->
  length reviews_chunk = length ratings_chunk ->
  Forall (writes reviews_columns) (reviews_chunk ++ (fst <$> omap (fun o => o) rows)) ->
  Forall (writes ratings_columns) (ratings_chunk ++ (snd <$> omap (fun o => o) rows)) ->
  review_loop chunk_size lines count reviews_chunk ratings_chunk reviews_file ratings_file
  = (reviews_file
       ++ (row_values reviews_columns <$> reviews_chunk ++ (fst <$> omap (fun o => o) rows)),
     ratings_file
       ++ (row_values ratings_columns <$> ratings_chunk ++ (snd <$> omap (fun o => o) rows)),
     None).
Proof.
  intros Hsize Hrows.
  revert count reviews_chunk ratings_chunk reviews_file ratings_file.
  induction Hrows as [|line o lines rows Hline _ IH];
    intros count rc tc rf tf Hlen Hr Ht.
  - cbn [review_loop omap list_omap fmap list_fmap] in *. rewrite !app_nil_r in *.
    destruct rc as [|r rc].
    + destruct tc; [| discriminate]. rewrite !app_nil_r. reflexivity.
    + rewrite (writerows_ok _ _ _ Hr), (writerows_ok _ _ _ Ht). reflexivity.
  - cbn [review_loop]. rewrite Hline.
    destruct o as [[r t]|]; cbn [omap list_omap] in *; [| apply IH; assumption].
    cbv zeta. rewrite fmap_cons in Hr, Ht. cbn [fst snd] in Hr, Ht.
    replace (chunk_size =? 0)%Z with false by (symmetry; apply Z.eqb_neq; exact Hsize).
    rewrite (cons_middle r rc), app_assoc in Hr.
    rewrite (cons_middle t tc), app_assoc in Ht.
    rewrite !fmap_cons. cbn [fst snd].
    rewrite (cons_middle r rc (fst <$> _)), (cons_middle t tc (snd <$> _)), !app_assoc.
    destruct (_ mod _ =? 0)%Z.
    + apply Forall_app in Hr as [Hrc Hr]. apply Forall_app in Ht as [Htc Ht].
      rewrite (writerows_ok _ _ _ Hrc), (writerows_ok _ _ _ Htc).
      rewrite IH by (try reflexivity; assumption).
      rewrite !app_nil_l, !fmap_app, <- !app_assoc. reflexivity.
    + apply IH; [rewrite !length_app; cbn; lia | exact Hr | exact Ht].
Qed.

Lemma review_loop_zero (lines : list pyval) (rows : list (option (pydict * pydict)))
    (reviews_file ratings_file : csvfile) :
  Forall2 (fun line o => review_rows line = Done o) lines rows ->
  review_loop 0 lines 0 [] [] reviews_file ratings_file
  = (reviews_file, ratings_file,
     match omap (fun o => o) rows with
     | [] => None
     | _ => Some (Std ZeroDivisionError)
     end).
Proof.
  induction 1 as [|line o lines rows Hline _ IH]; cbn [review_loop]; [reflexivity|].
  rewrite Hline. destruct o as [[r t]|]; cbn [omap list_omap]; [reflexivity | exact IH].
Qed.

Lemma review_rows_all (records : list pydict) :
  exists rows,
    Forall2 (fun line o => review_rows line = Done o) (PDict <$> records) rows
    /\ fst <$> omap (fun o => o) rows
       = (fun d => [(lit "review_id", dict_get d (lit "review_id") PNone);
                    (lit "user_id", dict_get d (lit "user_id") PNone);
                    (lit "business_id", dict_get d (lit "business_id") PNone);
                    (lit "review_text", dict_get d (lit "text") (PStr []))])
         <$> filter (fun d => truthy (dict_get d (lit "review_id") PNone)
                              && truthy (dict_get d (lit "user_id") PNone)
                              && truthy (dict_get d (lit "business_id") PNone) = true)
                    records
    /\ snd <$> omap (fun o => o) rows
       = (fun d => [(lit "user_id", dict_get d (lit "user_id") PNone);
                    (lit "business_id", dict_get d (lit "business_id") PNone);
                    (lit "rating", dict_get d (lit "stars") PNone)])
         <$> filter (fun d => truthy (dict_get d (lit "review_id") PNone)
                              && truthy (dict_get d (lit "user_id") PNone)
                              && truthy (dict_get d (lit "business_id") PNone) = true)
                    records.
Proof.
  induction records as [|d records (rows & H1 & H2 & H3)].
  - exists []. repeat split; constructor.
  - eexists (_ :: rows). split; [constructor; [apply review_rows_dict | exact H1]|].
    rewrite filter_cons.
    destruct (truthy _ && truthy _ && truthy _) eqn:Hk.
    + destruct (decide (true = true)); [| congruence].
      cbn [omap list_omap]. rewrite !fmap_cons, H2, H3. split; reflexivity.
    + destruct (decide (false = true)); [discriminate|].
      cbn [omap list_omap]. split; assumption.
Qed.
End ReviewFacts.

(** X21.  For a chunk size other than 0 and lines that are JSON objects
    whose strings encode in utf8 (none holds a lone surrogate),
    [convert_review_json_to_csv] raises nothing and writes, after the
    headers, one row to each file for every record whose [review_id],
    [user_id] and [business_id] are all truthy, in the order of the file:
    the two files have as many rows, row by row of the same review, and no
    row of [ratings.csv] lacks its user or its business (its rating is the
    record's [stars], [None] when absent). *)
Theorem convert_review_rows (chunk_size : Z) (records : list pydict) :
  chunk_size <> 0%Z ->
  forallb well_encoded records = true ->
  convert_review_json_to_csv chunk_size (PDict <$> records)
  = ((PStr <$> reviews_columns)
       :: ((fun d => [dict_get d (lit "review_id") PNone;
                      dict_get d (lit "user_id") PNone;
                      dict_get d (lit "business_id") PNone;
                      dict_get d (lit "text") (PStr [])])
             <$> (filter (fun d => truthy (dict_get d (lit "review_id") PNone)
                                && truthy (dict_get d (lit "user_id") PNone)
                                && truthy (dict_get d (lit "business_id") PNone) = true)
                      records)),
     (PStr <$> ratings_columns)
       :: ((fun d => [dict_get d (lit "user_id") PNone;
                      dict_get d (lit "business_id") PNone;
                      dict_get d (lit "stars") PNone])
             <$> (filter (fun d => truthy (dict_get d (lit "review_id") PNone)
                                && truthy (dict_get d (lit "user_id") PNone)
                                && truthy (dict_get d (lit "business_id") PNone) = true)
                      records)),
     None).
Proof.
  intros Hsize Henc.
  destruct (review_rows_all records) as (rows & H1 & H2 & H3).
  unfold convert_review_json_to_csv, writeheader.
  rewrite (review_loop_rows chunk_size _ rows); [| exact Hsize | exact H1 | reflexivity | |].
  - rewrite !app_nil_l, H2, H3. rewrite <- !list_fmap_compose.
    reflexivity.
  - rewrite app_nil_l, H2. apply Forall_fmap, Forall_forall. intros d Hd.
    apply list_elem_of_filter in Hd as [_ Hd].
    pose proof (forallb_elem_of _ _ _ Henc Hd) as Hwell.
    split; [vm_compute; reflexivity|].
    replace (row_values reviews_columns _)
      with [dict_get d (lit "review_id") PNone; dict_get d (lit "user_id") PNone;
            dict_get d (lit "business_id") PNone; dict_get d (lit "text") (PStr [])]
      by (vm_compute; reflexivity).
    cbn [forallb]. rewrite !encodes_dict_get by (assumption || reflexivity). reflexivity.
  - rewrite app_nil_l, H3. apply Forall_fmap, Forall_forall. intros d Hd.
    apply list_elem_of_filter in Hd as [_ Hd].
    pose proof (forallb_elem_of _ _ _ Henc Hd) as Hwell.
    split; [vm_compute; reflexivity|].
    replace (row_values ratings_columns _)
      with [dict_get d (lit "user_id") PNone; dict_get d (lit "business_id") PNone;
            dict_get d (lit "stars") PNone]
      by (vm_compute; reflexivity).
    cbn [forallb]. rewrite !encodes_dict_get by (assumption || reflexivity). reflexivity.
Qed.

Lemma convert_review_rows_witness :
  convert_review_json_to_csv 10000
    (PDict <$> [ [(lit "review_id", PStr (lit "r1")); (lit "user_id", PStr (lit "u"));
                         (lit "business_id", PStr (lit "b")); (lit "stars", PInt 4)];
                        [(lit "review_id", PStr (lit "r2")); (lit "user_id", PStr [])] ])
  = ((PStr <$> reviews_columns)
       :: ((fun d => [dict_get d (lit "review_id") PNone;
                      dict_get d (lit "user_id") PNone;
                      dict_get d (lit "business_id") PNone;
                      dict_get d (lit "text") (PStr [])])
             <$> (filter (fun d => truthy (dict_get d (lit "review_id") PNone)
                                && truthy (dict_get d (lit "user_id") PNone)
                                && truthy (dict_get d (lit "business_id") PNone) = true)
                      [ [(lit "review_id", PStr (lit "r1")); (lit "user_id", PStr (lit "u"));
                         (lit "business_id", PStr (lit "b")); (lit "stars", PInt 4)];
                        [(lit "review_id", PStr (lit "r2")); (lit "user_id", PStr [])] ])),
     (PStr <$> ratings_columns)
       :: ((fun d => [dict_get d (lit "user_id") PNone;
                      dict_get d (lit "business_id") PNone;
                      dict_get d (lit "stars") PNone])
             <$> (filter (fun d => truthy (dict_get d (lit "review_id") PNone)
                                && truthy (dict_get d (lit "user_id") PNone)
                                && truthy (dict_get d (lit "business_id") PNone) = true)
                      [ [(lit "review_id", PStr (lit "r1")); (lit "user_id", PStr (lit "u"));
                         (lit "business_id", PStr (lit "b")); (lit "stars", PInt 4)];
                        [(lit "review_id", PStr (lit "r2")); (lit "user_id", PStr [])] ])),
     None).
Proof.
  apply (convert_review_rows 10000
           [ [(lit "review_id", PStr (lit "r1")); (lit "user_id", PStr (lit "u"));
                         (lit "business_id", PStr (lit "b")); (lit "stars", PInt 4)];
                        [(lit "review_id", PStr (lit "r2")); (lit "user_id", PStr [])] ]).
  - discriminate.
  - reflexivity.
Defined.

Lemma Forall2_eq_fmap {A B} (f : A -> B) (l : list A) (l' : list B) :
  Forall2 (fun x y => y = f x) l l' -> l' = f <$> l.
Proof. induction 1 as [|x y l l' -> _ IH]; [reflexivity|]. rewrite fmap_cons, IH. reflexivity. Qed.

Section UserCheckinRowFacts.
Variable isspace : N -> bool.

Lemma user_row_dict (d : pydict) :
  user_row (PDict d)
  = Done (if truthy (dict_get d (lit "user_id") PNone)
          then Some ((fun field => (field, dict_get d field PNone)) <$> user_columns)
          else None).
Proof.
  unfold user_row. cbn [py_get outcome_bind].
  destruct (truthy _); [| reflexivity].
  cbn [negb]. rewrite user_columns_get. reflexivity.
Qed.

Lemma checkin_row_dict (d : pydict) (items : list pyval) :
  parse_list_field isspace (dict_get d (lit "date") (PStr [])) (lit ",") = Done items ->
  checkin_row isspace (PDict d)
  = Done (if truthy (dict_get d (lit "business_id") PNone)
          then Some [(lit "business_id", dict_get d (lit "business_id") PNone);
                     (lit "date", dict_get d (lit "date") PNone);
                     (lit "date_list", PList items)]
          else None).
Proof.
  intros Hitems. unfold checkin_row. cbn [py_get outcome_bind].
  destruct (truthy _); [| reflexivity].
  cbn [negb]. rewrite Hitems. reflexivity.
Qed.
End UserCheckinRowFacts.

(** X22.  For a chunk size other than 0 and lines that are JSON objects
    whose strings encode in utf8 (none holds a lone surrogate),
    [convert_user_json_to_csv] raises nothing and writes, after the header,
    one row for every record whose [user_id] is truthy, in the order of the
    file, whatever the chunk size; the row holds the record's five fields,
    [None] where it has none. *)
Theorem convert_user_rows (chunk_size : Z) (records : list pydict) :
  chunk_size <> 0%Z ->
  forallb well_encoded records = true ->
  convert_user_json_to_csv chunk_size (PDict <$> records)
  = ((PStr <$> user_columns)
       :: ((fun d => (fun field => dict_get d field PNone) <$> user_columns)
             <$> filter (fun d => truthy (dict_get d (lit "user_id") PNone) = true) records),
     None).
Proof.
  intros Hsize Henc. unfold convert_user_json_to_csv, writeheader. rewrite app_nil_l.
  destruct (convert_rows user_row user_columns
              (fun d => truthy (dict_get d (lit "user_id") PNone))
              (fun d row => row = (fun field => dict_get d field PNone) <$> user_columns)
              chunk_size records [PStr <$> user_columns] Hsize Henc)
    as (rows & Hrun & Hrows).
  { intros d Hd. rewrite user_row_dict. destruct (truthy _); [| reflexivity].
    eexists. split; [reflexivity|].
    assert (Hvalues :
              row_values user_columns
                ((fun field => (field, dict_get d field PNone)) <$> user_columns)
              = (fun field => dict_get d field PNone) <$> user_columns)
      by (vm_compute; reflexivity).
    split; [split; [vm_compute; reflexivity|] | exact Hvalues].
    rewrite Hvalues. apply encodes_columns. exact Hd. }
  rewrite Hrun. apply Forall2_eq_fmap in Hrows. rewrite Hrows. reflexivity.
Qed.

Lemma convert_user_rows_witness :
  convert_user_json_to_csv 1
    (PDict <$> [ [(lit "user_id", PStr (lit "u1")); (lit "name", PStr (lit "Ann"))];
                 [(lit "user_id", PNone)] ])
  = ((PStr <$> user_columns)
       :: ((fun d => (fun field => dict_get d field PNone) <$> user_columns)
             <$> filter (fun d => truthy (dict_get d (lit "user_id") PNone) = true)
                   [ [(lit "user_id", PStr (lit "u1")); (lit "name", PStr (lit "Ann"))];
                     [(lit "user_id", PNone)] ]),
     None).
Proof.
  apply (convert_user_rows 1
           [ [(lit "user_id", PStr (lit "u1")); (lit "name", PStr (lit "Ann"))];
             [(lit "user_id", PNone)] ]).
  - discriminate.
  - reflexivity.
Defined.

(** X23.  For a chunk size other than 0 and lines that are JSON objects
    whose strings encode in utf8 (none holds a lone surrogate),
    [convert_checkin_json_to_csv] raises nothing and writes, after the
    header, one row for every record whose [business_id] is truthy, in the
    order of the file: the business, the [date] string as it is, and the
    list that [parse_list_field] makes of it. *)
Theorem convert_checkin_rows (isspace : N -> bool) (chunk_size : Z)
    (records : list pydict) :
  chunk_size <> 0%Z ->
  forallb well_encoded records = true ->
  exists rows,
    convert_checkin_json_to_csv isspace chunk_size (PDict <$> records)
    = ((PStr <$> checkin_fields) :: rows, None)
    /\ Forall2
         (fun d row =>
            exists items,
              parse_list_field isspace (dict_get d (lit "date") (PStr [])) (lit ",")
              = Done items
              /\ row = [dict_get d (lit "business_id") PNone;
                        dict_get d (lit "date") PNone;
                        PList items])
         (filter (fun d => truthy (dict_get d (lit "business_id") PNone) = true) records)
         rows.
Proof.
  intros Hsize Henc. unfold convert_checkin_json_to_csv, writeheader.
  apply (convert_rows (checkin_row isspace) checkin_fields
           (fun d => truthy (dict_get d (lit "business_id") PNone))
           _ chunk_size records [PStr <$> checkin_fields] Hsize Henc).
  intros d Hd.
  destruct (parse_list_field_total isspace (dict_get d (lit "date") (PStr [])) (lit ","))
    as [items Hitems]; [discriminate|].
  rewrite (checkin_row_dict isspace d items Hitems).
  destruct (truthy _); [| reflexivity].
  eexists. split; [reflexivity|].
  assert (Hvalues :
            row_values checkin_fields
              [(lit "business_id", dict_get d (lit "business_id") PNone);
               (lit "date", dict_get d (lit "date") PNone);
               (lit "date_list", PList items)]
            = [dict_get d (lit "business_id") PNone; dict_get d (lit "date") PNone;
               PList items]) by (vm_compute; reflexivity).
  split; [split; [vm_compute; reflexivity|] |].
  - rewrite Hvalues. cbn [forallb].
    rewrite !encodes_dict_get by (assumption || reflexivity). reflexivity.
  - exists items. split; [exact Hitems | exact Hvalues].
Qed.

Lemma convert_checkin_rows_witness :
  exists rows,
    convert_checkin_json_to_csv (fun c => (c =? 32)%N) 3
      (PDict <$> [ [(lit "business_id", PStr (lit "b")); (lit "date", PStr (lit "d1, d2"))] ])
    = ((PStr <$> checkin_fields) :: rows, None)
    /\ Forall2
         (fun d row =>
            exists items,
              parse_list_field (fun c => (c =? 32)%N)
                (dict_get d (lit "date") (PStr [])) (lit ",")
              = Done items
              /\ row = [dict_get d (lit "business_id") PNone;
                        dict_get d (lit "date") PNone;
                        PList items])
         (filter (fun d => truthy (dict_get d (lit "business_id") PNone) = true)
                 [ [(lit "business_id", PStr (lit "b")); (lit "date", PStr (lit "d1, d2"))] ])
         rows.
Proof.
  apply (convert_checkin_rows (fun c => (c =? 32)%N) 3
           [ [(lit "business_id", PStr (lit "b")); (lit "date", PStr (lit "d1, d2"))] ]).
  - discriminate.
  - reflexivity.
Defined.

(** X24.  With [chunk_size = 0] every converter writes the header only: it
    raises [ZeroDivisionError] at the first record that it keeps ([count %
    chunk_size]), and ends without exception when it keeps none. *)
Theorem convert_chunk_size_zero (isspace : N -> bool) (records : list pydict) :
  convert_business_json_to_csv isspace 0 (PDict <$> records)
  = ([PStr <$> business_fields],
     if existsb (fun d => truthy (dict_get d (lit "business_id") PNone)) records
     then Some (Std ZeroDivisionError) else None)
  /\ convert_review_json_to_csv 0 (PDict <$> records)
     = ([PStr <$> reviews_columns], [PStr <$> ratings_columns],
        if existsb (fun d => truthy (dict_get d (lit "review_id") PNone)
                             && truthy (dict_get d (lit "user_id") PNone)
                             && truthy (dict_get d (lit "business_id") PNone)) records
        then Some (Std ZeroDivisionError) else None)
  /\ convert_user_json_to_csv 0 (PDict <$> records)
     = ([PStr <$> user_columns],
        if existsb (fun d => truthy (dict_get d (lit "user_id") PNone)) records
        then Some (Std ZeroDivisionError) else None)
  /\ convert_checkin_json_to_csv isspace 0 (PDict <$> records)
     = ([PStr <$> checkin_fields],
        if existsb (fun d => truthy (dict_get d (lit "business_id") PNone)) records
        then Some (Std ZeroDivisionError) else None).
Proof.
  split; [| split; [| split]].
  - unfold convert_business_json_to_csv, writeheader.
    apply convert_zero. intros d.
    destruct (truthy _) eqn:Hid; [| apply business_row_skip; exact Hid].
    destruct (parse_list_field_total isspace
                (dict_get d (lit "categories") (PStr [])) (lit ","))
      as [items Hitems]; [discriminate|].
    eexists. exact (business_row_dict isspace d items Hitems Hid).
  - unfold convert_review_json_to_csv, writeheader.
    destruct (review_rows_all records) as (rows & H1 & H2 & _).
    rewrite !app_nil_l, (review_loop_zero _ rows _ _ H1). f_equal.
    assert (Hlen : length (omap (fun o => o) rows)
                   = length (filter (fun d => truthy (dict_get d (lit "review_id") PNone)
                                       && truthy (dict_get d (lit "user_id") PNone)
                                       && truthy (dict_get d (lit "business_id") PNone)
                                       = true) records)).
    { rewrite <- (length_fmap fst), H2, length_fmap. reflexivity. }
    clear -Hlen. revert Hlen. generalize (omap (fun o => o) rows). intros l Hlen.
    induction records as [|d records IH] in l, Hlen |- *.
    + destruct l; [reflexivity | discriminate].
    + cbn [existsb]. rewrite filter_cons in Hlen.
      destruct (truthy _ && truthy _ && truthy _).
      * destruct (decide (true = true)); [| congruence].
        destruct l; [discriminate | reflexivity].
      * destruct (decide (false = true)); [discriminate|]. apply IH. exact Hlen.
  - unfold convert_user_json_to_csv, writeheader.
    apply convert_zero. intros d. rewrite user_row_dict.
    destruct (truthy _); [eexists |]; reflexivity.
  - unfold convert_checkin_json_to_csv, writeheader.
    apply convert_zero. intros d.
    destruct (parse_list_field_total isspace (dict_get d (lit "date") (PStr [])) (lit ","))
      as [items Hitems]; [discriminate|].
    rewrite (checkin_row_dict isspace d items Hitems).
    destruct (truthy _); [eexists |]; reflexivity.
Qed.

Section LoopFailure.
Variable row_of : pyval -> outcome (option pydict).
Variable fieldnames : list pystr.

Lemma mod_abs_eqb (a chunk_size : Z) :
  chunk_size <> 0%Z -> (a mod chunk_size =? 0)%Z = (a mod Z.abs chunk_size =? 0)%Z.
Proof.
  intros Hsize.
  destruct (a mod chunk_size =? 0)%Z eqn:H1; symmetry.
  - apply Z.eqb_eq in H1. apply Z.eqb_eq.
    apply Z.mod_divide in H1; [| exact Hsize].
    apply Z.mod_divide; [lia|]. exact (proj2 (Z.divide_abs_l _ _) H1).
  - apply Z.eqb_neq in H1. apply Z.eqb_neq. intros H2. apply H1.
    apply Z.mod_divide in H2; [| lia].
    apply Z.mod_divide; [exact Hsize|]. exact (proj1 (Z.divide_abs_l _ _) H2).
Qed.

(** When a record makes the loop raise, the file holds the whole chunks
    written before it: the pending chunk is lost. *)
Lemma chunk_loop_fail (chunk_size : Z) (bad : pyval) (rest : list pyval) (e : py_exn)
    (lines : list pyval) (rows : list (option pydict))
    (count : Z) (chunk : list pydict) (file : csvfile) :
  chunk_size <> 0%Z ->
  row_of bad = Failed e ->
  Forall2 (fun line o => row_of line = Done o) lines rows ->
  Forall (writes fieldnames) (chunk ++ omap (fun o => o) rows) ->
  (Z.of_nat (length chunk) < Z.abs chunk_size)%Z ->
  (Z.abs chunk_size | count - Z.of_nat (length chunk))%Z ->
  chunk_loop row_of fieldnames chunk_size (lines ++ bad :: rest) count chunk file
  = (file ++ (row_values fieldnames
                <$> take (whole_chunks chunk_size
                            (length chunk + length (omap (fun o => o) rows)))
                      (chunk ++ omap (fun o => o) rows)),
     Some e).
Proof.
  intros Hsize Hbad Hrows. revert count chunk file.
  assert (Hm : (0 < Z.abs chunk_size)%Z) by lia.
  induction Hrows as [|line o lines rows Hline _ IH]; intros count chunk file Hgood Hp Hdiv.
  - cbn [app chunk_loop omap list_omap length]. rewrite Hbad.
    unfold whole_chunks. rewrite Nat.add_0_r, Z.mod_small by lia.
    rewrite Z.sub_diag. cbn [Z.to_nat]. rewrite take_0, app_nil_r. reflexivity.
  - cbn [app chunk_loop]. rewrite Hline.
    destruct o as [row|]; cbn [omap list_omap] in *; [| apply IH; assumption].
    cbv zeta.
    replace (chunk_size =? 0)%Z with false by (symmetry; apply Z.eqb_neq; exact Hsize).
    rewrite (cons_middle row), app_assoc in Hgood.
    rewrite (cons_middle row chunk (omap (fun o => o) rows)), app_assoc.
    rewrite mod_abs_eqb by exact Hsize.
    destruct (_ mod _ =? 0)%Z eqn:Hflush.
    + apply Z.eqb_eq in Hflush. apply Z.mod_divide in Hflush; [| lia].
      assert (Hfull : (Z.of_nat (length chunk) + 1 = Z.abs chunk_size)%Z).
      { assert (Hd : (Z.abs chunk_size | Z.of_nat (length chunk) + 1)%Z).
        { replace (Z.of_nat (length chunk) + 1)%Z
            with ((count + 1) - (count - Z.of_nat (length chunk)))%Z by lia.
          apply Z.divide_sub_r; assumption. }
        apply Z.divide_pos_le in Hd; lia. }
      apply Forall_app in Hgood as [Hchunk Hrest].
      rewrite (writerows_ok _ _ _ Hchunk).
      rewrite IH; [| exact Hrest | cbn; lia | cbn; rewrite Z.sub_0_r; exact Hflush].
      cbn [length Nat.add app]. rewrite <- app_assoc, <- fmap_app. f_equal. f_equal. f_equal.
      assert (Hw : whole_chunks chunk_size
                     (length chunk + S (length (omap (fun o => o) rows)))
                   = length (chunk ++ [row])
                     + whole_chunks chunk_size (length (omap (fun o => o) rows))).
      { unfold whole_chunks. rewrite length_app. cbn [length].
        set (n := length (omap (fun o => o) rows)).
        replace (Z.of_nat (length chunk + S n))
          with (Z.of_nat n + 1 * Z.abs chunk_size)%Z by lia.
        rewrite Z_mod_plus_full.
        pose proof (Z.mod_pos_bound (Z.of_nat n) (Z.abs chunk_size) Hm) as Hb.
        pose proof (Z.mod_le (Z.of_nat n) (Z.abs chunk_size)) as Hle.
        lia. }
      rewrite <- (app_assoc chunk [row]), <- cons_middle in *.
      rewrite (cons_middle row chunk), app_assoc, Hw, take_app_add. reflexivity.
    + apply Z.eqb_neq in Hflush.
      assert (Hnot : (Z.of_nat (length chunk) + 1 <> Z.abs chunk_size)%Z).
      { intros Heq. apply Hflush. apply Z.mod_divide; [lia|].
        replace (count + 1)%Z
          with ((count - Z.of_nat (length chunk)) + 1 * Z.abs chunk_size)%Z by lia.
        apply Z.divide_add_r; [exact Hdiv|]. apply Z.divide_factor_r. }
      rewrite IH; [| exact Hgood | rewrite length_app; cbn; lia
                   | rewrite length_app; cbn;
                     replace (count + 1 - Z.of_nat (length chunk + 1))%Z
                       with (count - Z.of_nat (length chunk))%Z by lia; exact Hdiv].
      rewrite length_app. cbn [length].
      replace (length chunk + 1 + length (omap (fun o => o) rows))
        with (length chunk + S (length (omap (fun o => o) rows))) by lia.
      reflexivity.
Qed.
End LoopFailure.

(** X25.  After JSON objects whose strings encode in utf8 (none holds a
    lone surrogate), a line that is not a JSON object ends
    [convert_user_json_to_csv] with [AttributeError], and the rows
    collected since the last write are lost: for a chunk size other than 0
    the file holds the header and, of the rows of the records kept before
    that line, those that fill whole chunks. *)
Theorem convert_user_bad_line (chunk_size : Z) (records : list pydict)
    (bad : pyval) (rest : list pyval) :
  chunk_size <> 0%Z ->
  forallb well_encoded records = true ->
  (forall d, bad <> PDict d) ->
  convert_user_json_to_csv chunk_size ((PDict <$> records) ++ bad :: rest)
  = ((PStr <$> user_columns)
       :: take (whole_chunks chunk_size
                  (length (filter (fun d => truthy (dict_get d (lit "user_id") PNone) = true)
                             records)))
            ((fun d => (fun field => dict_get d field PNone) <$> user_columns)
               <$> filter (fun d => truthy (dict_get d (lit "user_id") PNone) = true)
                     records),
     Some AttributeError).
Proof.
  intros Hsize Henc Hbad.
  assert (Hfail : user_row bad = Failed AttributeError).
  { destruct bad; try reflexivity. exfalso. exact (Hbad d eq_refl). }
  assert (Hex : exists os,
            Forall2 (fun line o => user_row line = Done o) (PDict <$> records) os
            /\ omap (fun o => o) os
               = (fun d => (fun field => (field, dict_get d field PNone)) <$> user_columns)
                 <$> filter (fun d => truthy (dict_get d (lit "user_id") PNone) = true)
                       records).
  { clear. induction records as [|d records (os & H1 & H2)].
    - exists []. split; [constructor | reflexivity].
    - eexists (_ :: os). split; [constructor; [apply user_row_dict | exact H1]|].
      rewrite filter_cons. destruct (truthy _).
      + destruct (decide (true = true)); [| congruence].
        cbn [omap list_omap]. rewrite fmap_cons, H2. reflexivity.
      + destruct (decide (false = true)); [discriminate|].
        cbn [omap list_omap]. exact H2. }
  destruct Hex as (os & H1 & H2).
  unfold convert_user_json_to_csv, writeheader. rewrite app_nil_l.
  rewrite (chunk_loop_fail user_row user_columns chunk_size bad rest AttributeError
             _ os 0 [] _ Hsize Hfail H1).
  - cbn [app length Nat.add]. rewrite H2, length_fmap, fmap_take, <- list_fmap_compose.
    reflexivity.
  - cbn [app]. rewrite H2. apply Forall_fmap, Forall_forall. intros d Hd.
    apply list_elem_of_filter in Hd as [_ Hd].
    pose proof (forallb_elem_of _ _ _ Henc Hd) as Hwell.
    split; [vm_compute; reflexivity|].
    replace (row_values user_columns _)
      with ((fun field => dict_get d field PNone) <$> user_columns)
      by (vm_compute; reflexivity).
    apply encodes_columns. exact Hwell.
  - cbn. lia.
  - cbn. apply Z.divide_0_r.
Qed.

Lemma convert_user_bad_line_witness :
  convert_user_json_to_csv 2
    ((PDict <$> [ [(lit "user_id", PStr (lit "u1"))]; [(lit "user_id", PStr (lit "u2"))];
                  [(lit "user_id", PStr (lit "u3"))] ])
       ++ PList [] :: [])
  = ((PStr <$> user_columns)
       :: take (whole_chunks 2
                  (length (filter (fun d => truthy (dict_get d (lit "user_id") PNone) = true)
                             [ [(lit "user_id", PStr (lit "u1"))];
                               [(lit "user_id", PStr (lit "u2"))];
                               [(lit "user_id", PStr (lit "u3"))] ])))
            ((fun d => (fun field => dict_get d field PNone) <$> user_columns)
               <$> filter (fun d => truthy (dict_get d (lit "user_id") PNone) = true)
                     [ [(lit "user_id", PStr (lit "u1"))];
                       [(lit "user_id", PStr (lit "u2"))];
                       [(lit "user_id", PStr (lit "u3"))] ]),
     Some AttributeError).
Proof.
  apply (convert_user_bad_line 2
           [ [(lit "user_id", PStr (lit "u1"))]; [(lit "user_id", PStr (lit "u2"))];
             [(lit "user_id", PStr (lit "u3"))] ] (PList []) []).
  - discriminate.
  - reflexivity.
  - intros d. discriminate.
Defined.

(** A lone surrogate, run: the row is not written, and the call ends with
    [UnicodeEncodeError]; in a list the same string is written escaped. *)
Example convert_user_lone_surrogate :
  convert_user_json_to_csv 10000 [PDict [(lit "user_id", PStr [0xD800%N])]]
  = ([PStr <$> user_columns], Some UnicodeEncodeError)
  /\ convert_user_json_to_csv 10000
       [PDict [(lit "user_id", PStr (lit "u")); (lit "friends", PList [PStr [0xD800%N]])]]
     = ([PStr <$> user_columns;
         [PStr (lit "u"); PNone; PNone; PNone; PList [PStr [0xD800%N]]]], None).
Proof. split; vm_compute; reflexivity. Qed.

(** ** [subsample_processed_data] *)

Lemma pd_unique_acc (l seen : list string) :
  let res := fold_left (fun seen x => if decide (x ∈ seen) then seen else seen ++ [x]) l seen in
  (forall x, x ∈ res <-> x ∈ seen \/ x ∈ l)
  /\ (NoDup seen -> NoDup res)
  /\ seen `prefix_of` res.
Proof.
  cbv zeta. revert seen. induction l as [|y l IH]; intros seen; cbn [fold_left].
  - split; [| split]; [| auto | reflexivity].
    intros x. rewrite elem_of_nil. tauto.
  - destruct (decide (y ∈ seen)) as [Hy|Hy].
    + destruct (IH seen) as (Hin & Hnd & Hpre). split; [| split]; [| exact Hnd | exact Hpre].
      intros x. rewrite Hin, elem_of_cons. split; [tauto|].
      intros [Hx|[->|Hx]]; auto.
    + destruct (IH (seen ++ [y])) as (Hin & Hnd & Hpre). split; [| split].
      * intros x. rewrite Hin, elem_of_app, list_elem_of_singleton, elem_of_cons. tauto.
      * intros Hs. apply Hnd. apply NoDup_app. split; [exact Hs|].
        split; [| apply NoDup_singleton].
        intros x Hx Hx'. apply list_elem_of_singleton in Hx'. subst. contradiction.
      * etransitivity; [| exact Hpre]. apply prefix_app_r. reflexivity.
Qed.

Lemma elem_of_pd_unique (l : list string) (x : string) : x ∈ pd_unique l <-> x ∈ l.
Proof.
  unfold pd_unique. destruct (pd_unique_acc l []) as (Hin & _ & _).
  rewrite Hin, elem_of_nil. tauto.
Qed.

Lemma pd_unique_NoDup (l : list string) : NoDup (pd_unique l).
Proof.
  unfold pd_unique. destruct (pd_unique_acc l []) as (_ & Hnd & _).
  apply Hnd. constructor.
Qed.

Lemma pd_unique_head (x : string) (l : list string) : head (pd_unique (x :: l)) = Some x.
Proof.
  unfold pd_unique. cbn [fold_left].
  destruct (decide (x ∈ [])) as [Hx|_]; [apply elem_of_nil in Hx; contradiction|].
  destruct (pd_unique_acc l ([] ++ [x])) as (_ & _ & [k Hk]). cbv zeta in Hk.
  rewrite Hk. reflexivity.
Qed.

Section SubsampleFacts.
Context {F : Type}.

Lemma subset_users_take (percent : Z) (ratings_df : DataFrame F) :
  exists n, 1 <= n
    /\ n = Z.to_nat (Z.max 1 (Z.quot (Z.of_nat (length (pd_unique (user_id <$> ratings_df)))
                                        * percent) 100))
    /\ subset_users_of percent ratings_df = take n (pd_unique (user_id <$> ratings_df)).
Proof.
  eexists. split; [| split; [reflexivity|]].
  - lia.
  - unfold subset_users_of, py_slice_to. cbv zeta.
    replace (0 <=? Z.max 1 _)%Z with true by (symmetry; apply Z.leb_le; lia).
    reflexivity.
Qed.

Lemma subset_users_rated (percent : Z) (ratings_df : DataFrame F) (u : string) :
  u ∈ subset_users_of percent ratings_df -> u ∈ user_id <$> ratings_df.
Proof.
  destruct (subset_users_take percent ratings_df) as (n & _ & _ & ->).
  intros Hu. apply elem_of_pd_unique. exact (subseteq_take _ _ _ Hu).
Qed.

(** The selected users are the users of the ratings kept. *)
Lemma subset_users_kept (percent : Z) (ratings_df : DataFrame F) (u : string) :
  u ∈ subset_users_of percent ratings_df
  <-> exists r, r ∈ filter (fun r => user_id r ∈ subset_users_of percent ratings_df) ratings_df
                /\ user_id r = u.
Proof.
  split.
  - intros Hu. pose proof (subset_users_rated _ _ _ Hu) as Hr.
    apply list_elem_of_fmap in Hr as (r & -> & Hr).
    exists r. split; [| reflexivity]. apply list_elem_of_filter. split; assumption.
  - intros (r & Hr & <-). apply list_elem_of_filter in Hr as [Hr _]. exact Hr.
Qed.
End SubsampleFacts.

(** X26.  [subsample_processed_data] samples whole users: a rating is kept
    exactly when some kept rating has its user, and a row of the reviews
    or of the user frame is kept exactly when its user has a kept rating.
    The ratings kept stay in the order of the file, and some rating is
    kept as soon as there is one, whatever the percentage (0 and negative
    ones included). *)
Theorem subsample_whole_users {F Review Business User Checkin : Type}
    (review_user_id review_business_id : Review -> string)
    (business_business_id : Business -> string) (user_user_id : User -> string)
    (checkin_business_id : Checkin -> string)
    (percent : Z) (ratings_df : DataFrame F) (reviews_df : list Review)
    (business_df : list Business) (user_df : list User) (checkin_df : list Checkin) :
  let sub := subsample_processed_data review_user_id review_business_id
               business_business_id user_user_id checkin_business_id
               percent ratings_df reviews_df business_df user_df checkin_df in
  (forall r, r ∈ ratings_df ->
     r ∈ ratings_sub sub <-> exists r', r' ∈ ratings_sub sub /\ user_id r' = user_id r)
  /\ (forall v, v ∈ reviews_df ->
        v ∈ reviews_sub sub
        <-> exists r, r ∈ ratings_sub sub /\ user_id r = review_user_id v)
  /\ (forall w, w ∈ user_df ->
        w ∈ user_sub sub <-> exists r, r ∈ ratings_sub sub /\ user_id r = user_user_id w)
  /\ ratings_sub sub `sublist_of` ratings_df
  /\ (ratings_df <> [] -> ratings_sub sub <> []).
Proof.
  cbv zeta. unfold subsample_processed_data. cbv zeta. cbn [ratings_sub reviews_sub user_sub].
  split; [| split; [| split; [| split]]].
  - intros r Hr. rewrite <- subset_users_kept, list_elem_of_filter. tauto.
  - intros v Hv. rewrite <- subset_users_kept, list_elem_of_filter. tauto.
  - intros w Hw. rewrite <- subset_users_kept, list_elem_of_filter. tauto.
  - apply sublist_filter.
  - intros Hne. destruct ratings_df as [|r0 df]; [congruence|].
    assert (Hin : user_id r0 ∈ subset_users_of percent (r0 :: df)).
    { destruct (subset_users_take percent (r0 :: df)) as (n & Hn & _ & ->).
      pose proof (pd_unique_head (user_id r0) (user_id <$> df)) as Hh.
      rewrite fmap_cons.
      destruct (pd_unique (user_id r0 :: (user_id <$> df))) as [|x k]; [discriminate|].
      injection Hh as ->. destruct n; [lia|]. left. }
    rewrite filter_cons. destruct (decide _); [discriminate | contradiction].
Qed.

(** X27.  The businesses of the subsample are those of the kept ratings and
    reviews: a row of the business frame, and likewise of the checkin
    frame, is kept exactly when a kept rating or a kept review is about
    its business. *)
Theorem subsample_businesses {F Review Business User Checkin : Type}
    (review_user_id review_business_id : Review -> string)
    (business_business_id : Business -> string) (user_user_id : User -> string)
    (checkin_business_id : Checkin -> string)
    (percent : Z) (ratings_df : DataFrame F) (reviews_df : list Review)
    (business_df : list Business) (user_df : list User) (checkin_df : list Checkin) :
  let sub := subsample_processed_data review_user_id review_business_id
               business_business_id user_user_id checkin_business_id
               percent ratings_df reviews_df business_df user_df checkin_df in
  (forall b, b ∈ business_df ->
     b ∈ business_sub sub
     <-> (exists r, r ∈ ratings_sub sub /\ business_id r = business_business_id b)
         \/ (exists v, v ∈ reviews_sub sub /\ review_business_id v = business_business_id b))
  /\ (forall c, c ∈ checkin_df ->
        c ∈ checkin_sub sub
        <-> (exists r, r ∈ ratings_sub sub /\ business_id r = checkin_business_id c)
            \/ (exists v, v ∈ reviews_sub sub /\ review_business_id v = checkin_business_id c)).
Proof.
  cbv zeta. unfold subsample_processed_data. cbv zeta.
  cbn [ratings_sub reviews_sub business_sub checkin_sub].
  assert (Hset : forall (A : Type) (f : A -> string) (l : list A) (i : string),
            i ∈ (list_to_set (pd_unique (f <$> l)) : gset string)
            <-> exists x, x ∈ l /\ f x = i).
  { intros A f l i. rewrite elem_of_list_to_set, elem_of_pd_unique, list_elem_of_fmap.
    split; intros (x & H1 & H2); exists x; split; auto. }
  split.
  - intros b Hb. rewrite list_elem_of_filter, elem_of_union, !Hset. tauto.
  - intros c Hc. rewrite list_elem_of_filter, elem_of_union, !Hset. tauto.
Qed.

(** X28.  The number of users in the subsample is
    [max(1, int(total_users * percent / 100))], and all of them when that
    exceeds their number; with [percent >= 100] every rating is kept. *)
Theorem subsample_size {F Review Business User Checkin : Type}
    (review_user_id review_business_id : Review -> string)
    (business_business_id : Business -> string) (user_user_id : User -> string)
    (checkin_business_id : Checkin -> string)
    (percent : Z) (ratings_df : DataFrame F) (reviews_df : list Review)
    (business_df : list Business) (user_df : list User) (checkin_df : list Checkin) :
  let sub := subsample_processed_data review_user_id review_business_id
               business_business_id user_user_id checkin_business_id
               percent ratings_df reviews_df business_df user_df checkin_df in
  let total_users := length (pd_unique (user_id <$> ratings_df)) in
  length (pd_unique (user_id <$> ratings_sub sub))
  = Nat.min total_users
      (Z.to_nat (Z.max 1 (Z.quot (Z.of_nat total_users * percent) 100)))
  /\ ((100 <= percent)%Z -> ratings_sub sub = ratings_df).
Proof.
  cbv zeta. unfold subsample_processed_data. cbv zeta. cbn [ratings_sub].
  destruct (subset_users_take percent ratings_df) as (n & Hn & Hnv & Htake).
  rewrite <- Hnv. split.
  - transitivity (length (subset_users_of percent ratings_df));
      [| rewrite Htake, length_take; lia].
    apply Permutation_length, NoDup_Permutation.
    + apply pd_unique_NoDup.
    + rewrite Htake. apply (sublist_NoDup _ (pd_unique (user_id <$> ratings_df)));
        [apply pd_unique_NoDup | apply sublist_take].
    + intros u. rewrite elem_of_pd_unique, list_elem_of_fmap, subset_users_kept.
      split; intros (r & H1 & H2); exists r; split; auto.
  - intros Hp.
    assert (Hall : subset_users_of percent ratings_df = pd_unique (user_id <$> ratings_df)).
    { rewrite Htake. apply take_ge. rewrite Hnv.
      set (t := length (pd_unique (user_id <$> ratings_df))).
      assert (Z.of_nat t <= Z.quot (Z.of_nat t * percent) 100)%Z.
      { apply Z.quot_le_lower_bound; [lia|].
        rewrite (Z.mul_comm 100). apply Z.mul_le_mono_nonneg_l; lia. }
      lia. }
    rewrite Hall.
    assert (Hkeep : forall l : DataFrame F,
              (forall r, r ∈ l -> user_id r ∈ pd_unique (user_id <$> ratings_df)) ->
              filter (fun r => user_id r ∈ pd_unique (user_id <$> ratings_df)) l = l).
    { induction l as [|r l IH]; intros Hl; [reflexivity|].
      rewrite filter_cons_True by (apply Hl; left).
      rewrite IH; [reflexivity|]. intros r' Hr'. apply Hl. right. exact Hr'. }
    apply Hkeep. intros r Hr. apply elem_of_pd_unique, list_elem_of_fmap.
    exists r. split; [reflexivity | exact Hr].
Qed.
